(** * rpool: bounded connection pools

    A shallow embedding of the three pool variants of the repository
    and the properties of their acquire / release / discard / teardown
    protocol:

    - [conn_pool]      src/conn_pool/pool.go, [ConnPool] serialised by the
                       package-level mutex [m];
    - [tcp_connpool]   src/tcp_connpool/pool.go, [TcpConnPool] (dials TCP
                       itself), also under a package-level mutex [m];
    - [conn_pool_mu]   the second [ConnPool] of src/tcp_connpool/pool.go,
                       which embeds its own [sync.Mutex] and has
                       [Release] and [CloseClean].

    Methods are state transformers over a record holding the pool object,
    the mutex, the outside world and the log of the calls made to
    collaborators.  [debug.Printf] only reads the pool and is left out. *)

From Stdlib Require Import ZArith List String Bool Lia.
Import ListNotations.
Local Open Scope Z_scope.

(** ** The fragment of Go the pools are written in *)

Module Go.

(** [int] on a 64-bit target: arithmetic wraps around. *)
Definition int_min : Z := - 2 ^ 63.
Definition int_max : Z := 2 ^ 63 - 1.
Definition wrap (z : Z) : Z := (z + 2 ^ 63) mod 2 ^ 64 - 2 ^ 63.
Definition is_int (z : Z) : Prop := int_min <= z <= int_max.

(** [len(s)] of a slice. *)
Definition len {A : Type} (l : list A) : Z := Z.of_nat (List.length l).

(** A call returns, panics (deferred calls still run, a caller may
    recover), or blocks for ever on a mutex nobody will release. *)
Inductive outcome (St A : Type) : Type :=
  | Returned (a : A) (s : St)
  | Panicked (s : St)
  | Blocked (s : St).
Arguments Returned {St A} a s.
Arguments Panicked {St A} s.
Arguments Blocked {St A} s.

Definition M (St A : Type) : Type := St -> outcome St A.

Definition ret {St A} (a : A) : M St A := fun s => Returned a s.

Definition bind {St A B} (c : M St A) (k : A -> M St B) : M St B :=
  fun s =>
    match c s with
    | Returned a s1 => k a s1
    | Panicked s1 => Panicked s1
    | Blocked s1 => Blocked s1
    end.

(** A run-time panic (nil dereference, call of a nil func). *)
Definition panic {St A} : M St A := fun s => Panicked s.

(** [defer d; body]: [d] runs when [body] returns and when it panics. *)
Definition defer {St A} (d : M St unit) (body : M St A) : M St A :=
  fun s =>
    match body s with
    | Returned a s1 =>
        match d s1 with
        | Returned _ s2 => Returned a s2
        | Panicked s2 => Panicked s2
        | Blocked s2 => Blocked s2
        end
    | Panicked s1 =>
        match d s1 with
        | Returned _ s2 => Panicked s2
        | Panicked s2 => Panicked s2
        | Blocked s2 => Blocked s2
        end
    | Blocked s1 => Blocked s1
    end.

(** The state a call leaves behind, whatever its outcome. *)
Definition state_of {St A} (o : outcome St A) : St :=
  match o with
  | Returned _ s => s
  | Panicked s => s
  | Blocked s => s
  end.

(** [for _, x := range l { body x }] *)
Fixpoint range {St A} (l : list A) (body : A -> M St unit) : M St unit :=
  match l with
  | [] => ret tt
  | x :: rest => bind (body x) (fun _ => range rest body)
  end.

(** [sync.Mutex]: [true] when held. *)
Definition Mutex : Type := bool.

(** A connection value is an interface ([io.Closer], [net.Conn]):
    [None] is [nil], [Some h] the live object [h]. *)
Definition Handle : Type := nat.
Definition Conn : Type := option Handle.
Definition nil : Conn := None.

(** Calls that leave the pool, logged with whether the caller held the
    pool's mutex at that moment. *)
Inductive call : Type :=
  | CallNew
  | CallPing (c : Conn)
  | CallClose (h : Handle)
  | CallSetReadDeadline (h : Handle) (d : Z)
  | CallSetWriteDeadline (h : Handle) (d : Z)
  | CallResolveTCPAddr (addr : string)
  | CallDialTimeout (addr : string) (d : Z).

Record event : Type := Event { ev_call : call; ev_locked : bool }.

End Go.

Import Go.

Declare Scope go_scope.
Delimit Scope go_scope with go.
Notation "x <- c ;; k" := (Go.bind c (fun x => k))
  (at level 61, c at next level, right associativity) : go_scope.
Notation "c ;; k" := (Go.bind c (fun _ => k))
  (at level 61, right associativity) : go_scope.
Local Open Scope go_scope.

(** ** src/conn_pool/pool.go *)

Module conn_pool.

Definition MAX_CONN_ERROR : string := "Maximum connections reached".

(** [error] values are compared by identity: the package's own
    [ErrMaxConn] (the one object made by [errors.New]) or any other. *)
Inductive error : Type :=
  | ErrMaxConn
  | ErrOther (text : string).

Section World.

(** The world outside the pool, and [conn.Close()] of a live
    [io.Closer]; every caller drops the error it returns. *)
Variable W : Type.
Variable io_Close : Handle -> W -> W.

(** [type ConnPool struct]; a func field is [None] while it is nil. *)
Record ConnPool : Type := mkConnPool {
  New : option (W -> (Conn * option error) * W);
  Ping : option (Conn -> W -> option error * W);
  Name : string;
  MaxConns : Z;
  MaxIdle : Z;
  conns : Z;
  free : list Conn
}.

Definition NewConnPool (name : string) (max_conns max_idle : Z) : ConnPool :=
  {| New := None; Ping := None;
     Name := name; MaxConns := max_conns; MaxIdle := max_idle;
     conns := 0; free := [] |}.

(** The pool [p] points to, the package-level mutex [m], the world and
    the log of outside calls. *)
Record State : Type := mkState {
  pool : ConnPool;
  m : Mutex;
  world : W;
  log : list event
}.

Definition set_conns (z : Z) (s : State) : State :=
  let p := pool s in
  {| pool := {| New := New p; Ping := Ping p; Name := Name p;
                MaxConns := MaxConns p; MaxIdle := MaxIdle p;
                conns := z; free := free p |};
     m := m s; world := world s; log := log s |}.

Definition set_free (l : list Conn) (s : State) : State :=
  let p := pool s in
  {| pool := {| New := New p; Ping := Ping p; Name := Name p;
                MaxConns := MaxConns p; MaxIdle := MaxIdle p;
                conns := conns p; free := l |};
     m := m s; world := world s; log := log s |}.

Definition set_m (b : Mutex) (s : State) : State :=
  {| pool := pool s; m := b; world := world s; log := log s |}.

(** The world moves to [w] and call [c] is logged. *)
Definition outside (c : call) (w : W) (s : State) : State :=
  {| pool := pool s; m := m s; world := w;
     log := log s ++ [Event c (m s)] |}.

Definition load : M State ConnPool := fun s => Returned (pool s) s.

Definition store_conns (z : Z) : M State unit :=
  fun s => Returned tt (set_conns z s).

Definition store_free (l : list Conn) : M State unit :=
  fun s => Returned tt (set_free l s).

(** [m.Lock()] blocks while the mutex is held; [m.Unlock()] of a free
    mutex is a fatal error. *)
Definition Lock : M State unit :=
  fun s => if m s then Blocked s else Returned tt (set_m true s).

Definition Unlock : M State unit :=
  fun s => if m s then Returned tt (set_m false s) else Panicked s.

(** [p.New()] *)
Definition call_New : M State (Conn * option error) :=
  fun s =>
    match New (pool s) with
    | None => panic s
    | Some f => let '(r, w) := f (world s) in
                Returned r (outside CallNew w s)
    end.

(** [p.Ping(conn)] *)
Definition call_Ping (conn : Conn) : M State (option error) :=
  fun s =>
    match Ping (pool s) with
    | None => panic s
    | Some f => let '(r, w) := f conn (world s) in
                Returned r (outside (CallPing conn) w s)
    end.

(** [conn.Close()] *)
Definition call_Close (conn : Conn) : M State unit :=
  fun s =>
    match conn with
    | None => panic s
    | Some h => Returned tt (outside (CallClose h) (io_Close h (world s)) s)
    end.

(** [Get] from [err = p.Ping(conn)] on, [new_conn] as in the source. *)
Definition Get_ping (conn : Conn) (new_conn : bool)
  : M State (Conn * option error) :=
  err <- call_Ping conn ;;
  match err with
  | Some e =>
      p <- load ;;
      (if negb new_conn && (0 <? conns p)
       then store_conns (wrap (conns p - 1))
       else ret tt) ;;
      call_Close conn ;;
      ret (nil, Some e)
  | None =>
      p <- load ;;
      (if new_conn
       then store_conns (wrap (conns p + 1))
       else ret tt) ;;
      ret (conn, None)
  end.

Definition Get : M State (Conn * option error) :=
  Lock ;;
  defer Unlock (
    p <- load ;;
    if (MaxConns p <=? conns p) && (len (free p) =? 0) then
      ret (nil, Some ErrMaxConn)
    else
      match free p with
      | conn :: rest =>
          (* return the first free connection in the pool *)
          store_free rest ;;
          Get_ping conn false
      | [] =>
          r <- call_New ;;
          match snd r with
          | Some e => ret (nil, Some e)
          | None => Get_ping (fst r) true
          end
      end).

Definition Close (conn : Conn) : M State (option error) :=
  Lock ;;
  defer Unlock (
    p <- load ;;
    match conn with
    | Some _ =>
        if MaxIdle p <=? len (free p) then
          call_Close conn ;;
          store_conns (wrap (conns p - 1))
        else
          store_free (free p ++ [conn])
    | None =>
        if 0 <? conns p then store_conns (wrap (conns p - 1))
        else ret tt
    end ;;
    ret None).

(** The closing [p = nil] rebinds the receiver variable only. *)
Definition Destroy : M State unit :=
  Lock ;;
  defer Unlock (
    p <- load ;;
    range (free p) (fun conn =>
      match conn with
      | Some _ => call_Close conn
      | None => ret tt
      end) ;;
    let p : option ConnPool := None in
    ret tt).

(** A pool as its owner sets it up: [NewConnPool], then the [New] and
    [Ping] fields assigned; nobody holds [m], nothing logged yet. *)
Definition fresh (name : string) (max_conns max_idle : Z)
    (new : option (W -> (Conn * option error) * W))
    (ping : option (Conn -> W -> option error * W)) (w : W) : State :=
  let p := NewConnPool name max_conns max_idle in
  {| pool := {| New := new; Ping := ping; Name := Name p;
                MaxConns := MaxConns p; MaxIdle := MaxIdle p;
                conns := conns p; free := free p |};
     m := false; world := w; log := [] |}.

(** Calls made one after the other by one caller; a panic is recovered
    and the next call made on the state it left. *)
Inductive op : Type :=
  | OpGet
  | OpClose (conn : Conn)
  | OpDestroy.

Definition exec (o : op) (s : State) : State :=
  match o with
  | OpGet => state_of (Get s)
  | OpClose conn => state_of (Close conn s)
  | OpDestroy => state_of (Destroy s)
  end.

Fixpoint run (ops : list op) (s : State) : State :=
  match ops with
  | [] => s
  | o :: rest => run rest (exec o s)
  end.

(** The bounds of the data model. *)
Definition bounds (p : ConnPool) : Prop :=
  0 <= conns p <= MaxConns p /\ 0 <= len (free p) <= MaxIdle p.

(** [o] runs [Close]'s branch for a full free list (closing [conn] and
    decrementing [conns]) while [conns] has nothing left to give. *)
Definition evicts_at_zero (o : op) (s : State) : bool :=
  match o with
  | OpClose (Some _) =>
      (MaxIdle (pool s) <=? len (free (pool s))) && (conns (pool s) <=? 0)
  | _ => false
  end.

Fixpoint never_evicts_at_zero (ops : list op) (s : State) : bool :=
  match ops with
  | [] => true
  | o :: rest =>
      negb (evicts_at_zero o s) && never_evicts_at_zero rest (exec o s)
  end.

(** [n] calls of [Get] in a row, with what each returned. *)
Fixpoint Gets (n : nat) : M State (list (Conn * option error)) :=
  match n with
  | O => ret []
  | S k => r <- Get ;; rs <- Gets k ;; ret (r :: rs)
  end.

(** [Close] called on each of [cs] in turn. *)
Definition Closes (cs : list Conn) : M State unit :=
  range cs (fun c => Close c ;; ret tt).

End World.

Arguments mkConnPool {W}.
Arguments mkState {W}.
Arguments New {W}.
Arguments Ping {W}.
Arguments Name {W}.
Arguments MaxConns {W}.
Arguments MaxIdle {W}.
Arguments conns {W}.
Arguments free {W}.
Arguments pool {W}.
Arguments m {W}.
Arguments world {W}.
Arguments log {W}.
Arguments NewConnPool {W}.
Arguments set_conns {W}.
Arguments set_free {W}.
Arguments outside {W}.
Arguments fresh {W}.
Arguments bounds {W}.
Arguments Get {W}.
Arguments Close {W}.
Arguments Destroy {W}.
Arguments exec {W}.
Arguments run {W}.
Arguments evicts_at_zero {W}.
Arguments never_evicts_at_zero {W}.
Arguments Gets {W}.
Arguments Closes {W}.

End conn_pool.

(** ** src/tcp_connpool/pool.go: TcpConnPool *)

Module tcp_connpool.

Definition MAX_CONN_ERROR : string := "Maximum connections reached".

(** [type Error string] of this package, or an error of package [net]
    or of the [ping] callback. *)
Inductive error : Type :=
  | Error (s : string)
  | ErrOther (text : string).

Definition ErrMaxConn : error := Error MAX_CONN_ERROR.

(** [time.Millisecond], in nanoseconds. *)
Definition Millisecond : Z := 1000000.

Section World.

(** The world outside the pool and the methods and functions of package
    [net] the pool calls.  Deadlines are [time.Now()] plus the duration
    given; the clock is part of the world. *)
Variable W : Type.
Variable net_Close : Handle -> W -> W.
Variable net_SetReadDeadline : Handle -> Z -> W -> W.
Variable net_SetWriteDeadline : Handle -> Z -> W -> W.
Variable net_ResolveTCPAddr : string -> W -> option error * W.
Variable net_DialTimeout : string -> Z -> W -> (Conn * option error) * W.

(** [type Ping func(net.Conn) error] *)
Definition Ping : Type := Conn -> W -> option error * W.

Record TcpConnPool : Type := mkTcpConnPool {
  name : string;
  max_conns : Z;
  max_idle : Z;
  conns : Z;
  dial_timeout : Z;
  free : list Conn;
  ping : option Ping
}.

Definition NewTcpConnPool (name : string) (max_conns max_idle dial_timeout : Z)
    (ping : option Ping) : TcpConnPool :=
  {| name := name; max_conns := max_conns; max_idle := max_idle;
     conns := 0; dial_timeout := dial_timeout; free := []; ping := ping |}.

Definition GetMaxConns (n : TcpConnPool) : Z := max_conns n.

Record State : Type := mkState {
  pool : TcpConnPool;
  m : Mutex;
  world : W;
  log : list event
}.

Definition set_conns (z : Z) (s : State) : State :=
  let n := pool s in
  {| pool := {| name := name n; max_conns := max_conns n;
                max_idle := max_idle n; conns := z;
                dial_timeout := dial_timeout n; free := free n;
                ping := ping n |};
     m := m s; world := world s; log := log s |}.

Definition set_free (l : list Conn) (s : State) : State :=
  let n := pool s in
  {| pool := {| name := name n; max_conns := max_conns n;
                max_idle := max_idle n; conns := conns n;
                dial_timeout := dial_timeout n; free := l;
                ping := ping n |};
     m := m s; world := world s; log := log s |}.

Definition set_m (b : Mutex) (s : State) : State :=
  {| pool := pool s; m := b; world := world s; log := log s |}.

Definition outside (c : call) (w : W) (s : State) : State :=
  {| pool := pool s; m := m s; world := w;
     log := log s ++ [Event c (m s)] |}.

Definition load : M State TcpConnPool := fun s => Returned (pool s) s.

Definition store_conns (z : Z) : M State unit :=
  fun s => Returned tt (set_conns z s).

Definition store_free (l : list Conn) : M State unit :=
  fun s => Returned tt (set_free l s).

Definition Lock : M State unit :=
  fun s => if m s then Blocked s else Returned tt (set_m true s).

Definition Unlock : M State unit :=
  fun s => if m s then Returned tt (set_m false s) else Panicked s.

(** [net.ResolveTCPAddr("tcp", addr)]; the address found is dropped. *)
Definition call_ResolveTCPAddr (addr : string) : M State (option error) :=
  fun s =>
    let '(r, w) := net_ResolveTCPAddr addr (world s) in
    Returned r (outside (CallResolveTCPAddr addr) w s).

(** [net.DialTimeout("tcp", addr, d)] *)
Definition call_DialTimeout (addr : string) (d : Z)
  : M State (Conn * option error) :=
  fun s =>
    let '(r, w) := net_DialTimeout addr d (world s) in
    Returned r (outside (CallDialTimeout addr d) w s).

(** [conn.SetReadDeadline(time.Now().Add(d))] *)
Definition call_SetReadDeadline (conn : Conn) (d : Z) : M State unit :=
  fun s =>
    match conn with
    | None => panic s
    | Some h =>
        Returned tt (outside (CallSetReadDeadline h d)
                       (net_SetReadDeadline h d (world s)) s)
    end.

(** [conn.SetWriteDeadline(time.Now().Add(d))] *)
Definition call_SetWriteDeadline (conn : Conn) (d : Z) : M State unit :=
  fun s =>
    match conn with
    | None => panic s
    | Some h =>
        Returned tt (outside (CallSetWriteDeadline h d)
                       (net_SetWriteDeadline h d (world s)) s)
    end.

(** [n.ping(conn)] *)
Definition call_ping (conn : Conn) : M State (option error) :=
  fun s =>
    match ping (pool s) with
    | None => panic s
    | Some f => let '(r, w) := f conn (world s) in
                Returned r (outside (CallPing conn) w s)
    end.

(** [conn.Close()] *)
Definition call_Close (conn : Conn) : M State unit :=
  fun s =>
    match conn with
    | None => panic s
    | Some h => Returned tt (outside (CallClose h) (net_Close h (world s)) s)
    end.

Definition open : M State (Conn * option error) :=
  n <- load ;;
  err <- call_ResolveTCPAddr (name n) ;;
  match err with
  | Some e => ret (nil, Some e)
  | None =>
      r <- call_DialTimeout (name n) (wrap (dial_timeout n * Millisecond)) ;;
      match snd r with
      | Some e => ret (nil, Some e)
      | None => ret (fst r, snd r)
      end
  end.

(** [Get] from [if timeout > 0] on, [new_conn] as in the source. *)
Definition Get_ping (timeout : Z) (conn : Conn) (new_conn : bool)
  : M State (Conn * option error) :=
  (if 0 <? timeout then
     call_SetReadDeadline conn (wrap (timeout * Millisecond)) ;;
     call_SetWriteDeadline conn (wrap (timeout * Millisecond))
   else ret tt) ;;
  err <- call_ping conn ;;
  match err with
  | Some e =>
      n <- load ;;
      (if negb new_conn && (0 <? conns n)
       then store_conns (wrap (conns n - 1))
       else ret tt) ;;
      call_Close conn ;;
      ret (nil, Some e)
  | None =>
      n <- load ;;
      (if new_conn
       then store_conns (wrap (conns n + 1))
       else ret tt) ;;
      ret (conn, None)
  end.

Definition Get (timeout : Z) : M State (Conn * option error) :=
  Lock ;;
  defer Unlock (
    n <- load ;;
    if (max_conns n <=? conns n) && (len (free n) =? 0) then
      ret (nil, Some ErrMaxConn)
    else
      match free n with
      | conn :: rest =>
          (* return the first free connection in the pool *)
          store_free rest ;;
          Get_ping timeout conn false
      | [] =>
          r <- open ;;
          match snd r with
          | Some e => ret (nil, Some e)
          | None => Get_ping timeout (fst r) true
          end
      end).

Definition Close (conn : Conn) : M State (option error) :=
  Lock ;;
  defer Unlock (
    n <- load ;;
    match conn with
    | Some _ =>
        if max_idle n <=? len (free n) then
          call_Close conn ;;
          store_conns (wrap (conns n - 1))
        else
          store_free (free n ++ [conn])
    | None =>
        if 0 <? conns n then store_conns (wrap (conns n - 1))
        else ret tt
    end ;;
    ret None).

(** The closing [n = nil] rebinds the receiver variable only. *)
Definition Destroy : M State unit :=
  Lock ;;
  defer Unlock (
    n <- load ;;
    range (free n) (fun conn =>
      match conn with
      | Some _ => call_Close conn
      | None => ret tt
      end) ;;
    let n : option TcpConnPool := None in
    ret tt).

End World.

Arguments mkTcpConnPool {W}.
Arguments mkState {W}.
Arguments name {W}.
Arguments max_conns {W}.
Arguments max_idle {W}.
Arguments conns {W}.
Arguments dial_timeout {W}.
Arguments free {W}.
Arguments ping {W}.
Arguments pool {W}.
Arguments m {W}.
Arguments world {W}.
Arguments log {W}.
Arguments NewTcpConnPool {W}.
Arguments set_conns {W}.
Arguments set_free {W}.
Arguments outside {W}.
Arguments Get {W}.
Arguments Close {W}.
Arguments Destroy {W}.

End tcp_connpool.

(** ** src/tcp_connpool/pool.go: the ConnPool with its own mutex *)

Module conn_pool_mu.

Definition MAX_CONN_ERROR : string := "Maximum connections reached".

Inductive error : Type :=
  | ErrMaxConn
  | ErrOther (text : string).

Section World.

Variable W : Type.
Variable io_Close : Handle -> W -> W.

(** [type ConnPool struct], [sync.Mutex] embedded. *)
Record ConnPool : Type := mkConnPool {
  Mutex : Go.Mutex;
  New : option (W -> (Conn * option error) * W);
  Ping : option (Conn -> W -> option error * W);
  Name : string;
  MaxConns : Z;
  MaxIdle : Z;
  conns : Z;
  free : list Conn
}.

Definition NewConnPool (name : string) (max_conns max_idle : Z) : ConnPool :=
  {| Mutex := false; New := None; Ping := None;
     Name := name; MaxConns := max_conns; MaxIdle := max_idle;
     conns := 0; free := [] |}.

Record State : Type := mkState {
  pool : ConnPool;
  world : W;
  log : list event
}.

Definition set_conns (z : Z) (s : State) : State :=
  let p := pool s in
  {| pool := {| Mutex := Mutex p; New := New p; Ping := Ping p;
                Name := Name p; MaxConns := MaxConns p; MaxIdle := MaxIdle p;
                conns := z; free := free p |};
     world := world s; log := log s |}.

Definition set_free (l : list Conn) (s : State) : State :=
  let p := pool s in
  {| pool := {| Mutex := Mutex p; New := New p; Ping := Ping p;
                Name := Name p; MaxConns := MaxConns p; MaxIdle := MaxIdle p;
                conns := conns p; free := l |};
     world := world s; log := log s |}.

Definition set_Mutex (b : Go.Mutex) (s : State) : State :=
  let p := pool s in
  {| pool := {| Mutex := b; New := New p; Ping := Ping p;
                Name := Name p; MaxConns := MaxConns p; MaxIdle := MaxIdle p;
                conns := conns p; free := free p |};
     world := world s; log := log s |}.

Definition outside (c : call) (w : W) (s : State) : State :=
  {| pool := pool s; world := w;
     log := log s ++ [Event c (Mutex (pool s))] |}.

Definition load : M State ConnPool := fun s => Returned (pool s) s.

Definition store_conns (z : Z) : M State unit :=
  fun s => Returned tt (set_conns z s).

Definition store_free (l : list Conn) : M State unit :=
  fun s => Returned tt (set_free l s).

(** [p.Lock()] and [p.Unlock()] *)
Definition Lock : M State unit :=
  fun s => if Mutex (pool s) then Blocked s
           else Returned tt (set_Mutex true s).

Definition Unlock : M State unit :=
  fun s => if Mutex (pool s) then Returned tt (set_Mutex false s)
           else Panicked s.

Definition call_New : M State (Conn * option error) :=
  fun s =>
    match New (pool s) with
    | None => panic s
    | Some f => let '(r, w) := f (world s) in
                Returned r (outside CallNew w s)
    end.

Definition call_Ping (conn : Conn) : M State (option error) :=
  fun s =>
    match Ping (pool s) with
    | None => panic s
    | Some f => let '(r, w) := f conn (world s) in
                Returned r (outside (CallPing conn) w s)
    end.

Definition call_Close (conn : Conn) : M State unit :=
  fun s =>
    match conn with
    | None => panic s
    | Some h => Returned tt (outside (CallClose h) (io_Close h (world s)) s)
    end.

(** [Get] from [err = p.Ping(conn)] on; the lock was released just
    before. *)
Definition Get_ping (conn : Conn) (new_conn : bool)
  : M State (Conn * option error) :=
  err <- call_Ping conn ;;
  match err with
  | Some e =>
      Lock ;;
      p <- load ;;
      (if negb new_conn && (0 <? conns p)
       then store_conns (wrap (conns p - 1))
       else ret tt) ;;
      Unlock ;;
      call_Close conn ;;
      ret (nil, Some e)
  | None =>
      (if new_conn then
         Lock ;;
         p <- load ;;
         store_conns (wrap (conns p + 1)) ;;
         Unlock
       else ret tt) ;;
      ret (conn, None)
  end.

Definition Get : M State (Conn * option error) :=
  Lock ;;
  p <- load ;;
  if (MaxConns p <=? conns p) && (len (free p) =? 0) then
    Unlock ;;
    ret (nil, Some ErrMaxConn)
  else
    match free p with
    | conn :: rest =>
        (* return the first free connection in the pool *)
        store_free rest ;;
        Unlock ;;
        Get_ping conn false
    | [] =>
        r <- call_New ;;
        match snd r with
        | Some e => Unlock ;; ret (nil, Some e)
        | None => Unlock ;; Get_ping (fst r) true
        end
    end.

Definition Release (conn : Conn) : M State (option error) :=
  Lock ;;
  p <- load ;;
  (if MaxIdle p <=? len (free p) then
     store_conns (wrap (conns p - 1))
   else
     store_free (free p ++ [conn])) ;;
  Unlock ;;
  ret None.

Definition CloseClean (conn : Conn) : M State (option error) :=
  match conn with
  | Some _ => call_Close conn
  | None => ret tt
  end ;;
  Lock ;;
  p <- load ;;
  (if 0 <? conns p then store_conns (wrap (conns p - 1)) else ret tt) ;;
  Unlock ;;
  ret None.

(** The closing [p = nil] rebinds the receiver variable only. *)
Definition Destroy : M State unit :=
  Lock ;;
  defer Unlock (
    p <- load ;;
    range (free p) (fun conn =>
      match conn with
      | Some _ => call_Close conn
      | None => ret tt
      end) ;;
    let p : option ConnPool := None in
    ret tt).

(** [CloseClean] called on each of [cs] in turn. *)
Definition CloseCleans (cs : list Conn) : M State unit :=
  range cs (fun c => CloseClean c ;; ret tt).

End World.

Arguments mkConnPool {W}.
Arguments mkState {W}.
Arguments Mutex {W}.
Arguments New {W}.
Arguments Ping {W}.
Arguments Name {W}.
Arguments MaxConns {W}.
Arguments MaxIdle {W}.
Arguments conns {W}.
Arguments free {W}.
Arguments pool {W}.
Arguments world {W}.
Arguments log {W}.
Arguments NewConnPool {W}.
Arguments set_conns {W}.
Arguments set_free {W}.
Arguments outside {W}.
Arguments Get {W}.
Arguments Release {W}.
Arguments CloseClean {W}.
Arguments CloseCleans {W}.
Arguments Destroy {W}.

End conn_pool_mu.

(** ** Collaborators to run the pools on *)

Module Sample.

(** The world counts the connections opened so far; the next one gets
    that number as its identity. *)
Definition World : Type := nat.

Definition opens {E : Type} : World -> (Conn * option E) * World :=
  fun w => ((Some w, None), S w).

Definition refuses {E : Type} (e : E) : World -> (Conn * option E) * World :=
  fun w => ((nil, Some e), w).

Definition accepts {E : Type} : Conn -> World -> option E * World :=
  fun _ w => (None, w).

Definition rejects {E : Type} (e : E) : Conn -> World -> option E * World :=
  fun _ w => (Some e, w).

Definition closes : Handle -> World -> World := fun _ w => w.

Definition sets_deadline : Handle -> Z -> World -> World := fun _ _ w => w.

Definition resolves {E : Type} : string -> World -> option E * World :=
  fun _ w => (None, w).

Definition dials {E : Type}
  : string -> Z -> World -> (Conn * option E) * World :=
  fun _ _ w => ((Some w, None), S w).

End Sample.

(** ** Vocabulary of the properties *)

(** The counter after a decrement that is skipped at zero and below. *)
Definition guarded_pred (z : Z) : Z := if 0 <? z then z - 1 else z.

(** The world and the log once [TcpConnPool.Get] has set the deadlines
    of [h]: the two calls are made only for a positive [timeout]. *)
Definition with_deadlines {W : Type} (rd wr : Handle -> Z -> W -> W)
    (timeout : Z) (h : Handle) (w : W) : W :=
  if 0 <? timeout then
    wr h (wrap (timeout * tcp_connpool.Millisecond))
      (rd h (wrap (timeout * tcp_connpool.Millisecond)) w)
  else w.

Definition deadline_calls (timeout : Z) (h : Handle) : list event :=
  if 0 <? timeout then
    let d := wrap (timeout * tcp_connpool.Millisecond) in
    [Event (CallSetReadDeadline h d) true;
     Event (CallSetWriteDeadline h d) true]
  else [].

(** The [Close] calls made on the connections of [cs] that are not nil,
    in order, with the mutex [locked] or not. *)
Definition close_calls (locked : bool) (cs : list Conn) : list event :=
  flat_map (fun c => match c with
                     | Some h => [Event (CallClose h) locked]
                     | None => []
                     end) cs.

(** The world after those calls, [close] being [conn.Close()]. *)
Fixpoint closed_world {W : Type} (close : Handle -> W -> W)
    (cs : list Conn) (w : W) : W :=
  match cs with
  | [] => w
  | Some h :: rest => closed_world close rest (close h w)
  | None :: rest => closed_world close rest w
  end.

(** Calls to the factory (or the resolving and dialling that stand for it
    in [TcpConnPool]) and to the validator. *)
Definition factory_or_validator (c : call) : bool :=
  match c with
  | CallNew | CallPing _ | CallResolveTCPAddr _ | CallDialTimeout _ _ => true
  | _ => false
  end.

(** None of the factory and validator calls in [evs] was made with the
    mutex held. *)
Definition outside_lock (evs : list event) : Prop :=
  forall ev, In ev evs ->
             factory_or_validator (ev_call ev) = true -> ev_locked ev = false.

(** The mutex was held for the factory call and for no other call. *)
Definition locked_for_factory_only (ev : event) : Prop :=
  ev_locked ev = match ev_call ev with
                 | CallNew => true
                 | _ => false
                 end.

(** What the calls of [ConnPool] keep true between them: nobody holds
    [m], the bounds hold, and the maximum is an [int]. *)
Definition conn_pool_steady {W : Type} (s : conn_pool.State W) : Prop :=
  conn_pool.m s = false /\
  conn_pool.bounds (conn_pool.pool s) /\
  conn_pool.MaxConns (conn_pool.pool s) <= int_max.

(** ** Runs of the other two pools *)

(** Calls made one after the other on a [TcpConnPool]. *)
Inductive tcp_op : Type :=
  | TcpGet (timeout : Z)
  | TcpClose (conn : Conn)
  | TcpDestroy.

Definition tcp_exec {W : Type} (net_Close : Handle -> W -> W)
    (rd wr : Handle -> Z -> W -> W)
    (resolve : string -> W -> option tcp_connpool.error * W)
    (dial : string -> Z -> W -> (Conn * option tcp_connpool.error) * W)
    (o : tcp_op) (s : tcp_connpool.State W) : tcp_connpool.State W :=
  match o with
  | TcpGet timeout =>
      state_of (tcp_connpool.Get net_Close rd wr resolve dial timeout s)
  | TcpClose conn => state_of (tcp_connpool.Close net_Close conn s)
  | TcpDestroy => state_of (tcp_connpool.Destroy net_Close s)
  end.

Fixpoint tcp_run {W : Type} (net_Close : Handle -> W -> W)
    (rd wr : Handle -> Z -> W -> W)
    (resolve : string -> W -> option tcp_connpool.error * W)
    (dial : string -> Z -> W -> (Conn * option tcp_connpool.error) * W)
    (ops : list tcp_op) (s : tcp_connpool.State W) : tcp_connpool.State W :=
  match ops with
  | [] => s
  | o :: rest =>
      tcp_run net_Close rd wr resolve dial rest
        (tcp_exec net_Close rd wr resolve dial o s)
  end.

(** Calls made one after the other on the [ConnPool] with its own mutex. *)
Inductive mu_op : Type :=
  | MuGet
  | MuRelease (conn : Conn)
  | MuCloseClean (conn : Conn)
  | MuDestroy.

Definition mu_exec {W : Type} (io_Close : Handle -> W -> W)
    (o : mu_op) (s : conn_pool_mu.State W) : conn_pool_mu.State W :=
  match o with
  | MuGet => state_of (conn_pool_mu.Get io_Close s)
  | MuRelease conn => state_of (conn_pool_mu.Release conn s)
  | MuCloseClean conn => state_of (conn_pool_mu.CloseClean io_Close conn s)
  | MuDestroy => state_of (conn_pool_mu.Destroy io_Close s)
  end.

Fixpoint mu_run {W : Type} (io_Close : Handle -> W -> W)
    (ops : list mu_op) (s : conn_pool_mu.State W) : conn_pool_mu.State W :=
  match ops with
  | [] => s
  | o :: rest => mu_run io_Close rest (mu_exec io_Close o s)
  end.

(** That pool as its owner sets it up: [NewConnPool], then the [New] and
    [Ping] fields assigned. *)
Definition mu_fresh {W : Type} (name : string) (max_conns max_idle : Z)
    (new : option (W -> (Conn * option conn_pool_mu.error) * W))
    (ping : option (Conn -> W -> option conn_pool_mu.error * W))
    (w : W) : conn_pool_mu.State W :=
  let p := @conn_pool_mu.NewConnPool W name max_conns max_idle in
  {| conn_pool_mu.pool :=
       {| conn_pool_mu.Mutex := conn_pool_mu.Mutex p;
          conn_pool_mu.New := new; conn_pool_mu.Ping := ping;
          conn_pool_mu.Name := conn_pool_mu.Name p;
          conn_pool_mu.MaxConns := conn_pool_mu.MaxConns p;
          conn_pool_mu.MaxIdle := conn_pool_mu.MaxIdle p;
          conn_pool_mu.conns := conn_pool_mu.conns p;
          conn_pool_mu.free := conn_pool_mu.free p |};
     conn_pool_mu.world := w; conn_pool_mu.log := [] |}.

(** A [TcpConnPool] just made by [NewTcpConnPool]. *)
Definition tcp_fresh {W : Type} (name : string)
    (max_conns max_idle dial_timeout : Z)
    (ping : option (tcp_connpool.Ping W)) (w : W) : tcp_connpool.State W :=
  {| tcp_connpool.pool :=
       tcp_connpool.NewTcpConnPool name max_conns max_idle dial_timeout ping;
     tcp_connpool.m := false; tcp_connpool.world := w;
     tcp_connpool.log := [] |}.

(** The fields a pool is set up with: the ones its owner gives, as
    opposed to the counter, the free list and the mutex. *)
Definition same_setup {W : Type} (p q : conn_pool.ConnPool W) : Prop :=
  conn_pool.New p = conn_pool.New q /\
  conn_pool.Ping p = conn_pool.Ping q /\
  conn_pool.Name p = conn_pool.Name q /\
  conn_pool.MaxConns p = conn_pool.MaxConns q /\
  conn_pool.MaxIdle p = conn_pool.MaxIdle q.

Definition tcp_same_setup {W : Type} (p q : tcp_connpool.TcpConnPool W)
  : Prop :=
  tcp_connpool.name p = tcp_connpool.name q /\
  tcp_connpool.GetMaxConns W p = tcp_connpool.GetMaxConns W q /\
  tcp_connpool.max_idle p = tcp_connpool.max_idle q /\
  tcp_connpool.dial_timeout p = tcp_connpool.dial_timeout q /\
  tcp_connpool.ping p = tcp_connpool.ping q.

Definition mu_same_setup {W : Type} (p q : conn_pool_mu.ConnPool W) : Prop :=
  conn_pool_mu.New p = conn_pool_mu.New q /\
  conn_pool_mu.Ping p = conn_pool_mu.Ping q /\
  conn_pool_mu.Name p = conn_pool_mu.Name q /\
  conn_pool_mu.MaxConns p = conn_pool_mu.MaxConns q /\
  conn_pool_mu.MaxIdle p = conn_pool_mu.MaxIdle q.

(** The call came back, by returning or by panicking, in state [s']. *)
Definition came_back {St A : Type} (o : outcome St A) (s' : St) : Prop :=
  (exists a, o = Returned a s') \/ o = Panicked s'.

(** The calls of [evs], without the mutex flags. *)
Definition calls_of (evs : list event) : list call := map ev_call evs.

(** ** The two ConnPools side by side *)

(** The errors and the pool of [conn_pool] read as those of the
    [ConnPool] with its own mutex: the same fields, the package mutex
    taking the place of the embedded one. *)
Definition mu_error (e : conn_pool.error) : conn_pool_mu.error :=
  match e with
  | conn_pool.ErrMaxConn => conn_pool_mu.ErrMaxConn
  | conn_pool.ErrOther text => conn_pool_mu.ErrOther text
  end.

Definition mu_result (r : Conn * option conn_pool.error)
  : Conn * option conn_pool_mu.error :=
  (fst r, option_map mu_error (snd r)).

Definition mu_pool {W : Type} (held : Mutex) (p : conn_pool.ConnPool W)
  : conn_pool_mu.ConnPool W :=
  {| conn_pool_mu.Mutex := held;
     conn_pool_mu.New :=
       option_map (fun new w => (mu_result (fst (new w)), snd (new w)))
         (conn_pool.New p);
     conn_pool_mu.Ping :=
       option_map
         (fun ping conn w =>
            (option_map mu_error (fst (ping conn w)), snd (ping conn w)))
         (conn_pool.Ping p);
     conn_pool_mu.Name := conn_pool.Name p;
     conn_pool_mu.MaxConns := conn_pool.MaxConns p;
     conn_pool_mu.MaxIdle := conn_pool.MaxIdle p;
     conn_pool_mu.conns := conn_pool.conns p;
     conn_pool_mu.free := conn_pool.free p |}.

Definition mu_state {W : Type} (s : conn_pool.State W)
  : conn_pool_mu.State W :=
  {| conn_pool_mu.pool := mu_pool (conn_pool.m s) (conn_pool.pool s);
     conn_pool_mu.world := conn_pool.world s;
     conn_pool_mu.log := conn_pool.log s |}.

(** Two states with the same pool fields (the mutex apart), the same
    world and the same outside calls in the same order. *)
Definition agree {W : Type} (s : conn_pool.State W)
    (t : conn_pool_mu.State W) : Prop :=
  conn_pool_mu.pool t
  = mu_pool (conn_pool_mu.Mutex (conn_pool_mu.pool t)) (conn_pool.pool s) /\
  conn_pool_mu.world t = conn_pool.world s /\
  calls_of (conn_pool_mu.log t) = calls_of (conn_pool.log s).

(** Two calls that end the same way, with the same value and in states
    that agree. *)
Definition same_outcome {W A B : Type} (f : A -> B)
    (o : outcome (conn_pool.State W) A)
    (o' : outcome (conn_pool_mu.State W) B) : Prop :=
  match o, o' with
  | Returned a s, Returned b t => f a = b /\ agree s t
  | Panicked s, Panicked t => agree s t
  | Blocked s, Blocked t => agree s t
  | _, _ => False
  end.

(** * Properties *)

Create HintDb pool_ops.

#[local] Hint Unfold
  Go.ret Go.bind Go.defer Go.panic Go.state_of
  conn_pool.Get conn_pool.Get_ping conn_pool.Close conn_pool.Destroy
  conn_pool.Lock conn_pool.Unlock conn_pool.load
  conn_pool.store_conns conn_pool.store_free
  conn_pool.call_New conn_pool.call_Ping conn_pool.call_Close
  conn_pool.outside conn_pool.set_m conn_pool.set_conns conn_pool.set_free
  conn_pool.fresh conn_pool.NewConnPool
  tcp_connpool.Get tcp_connpool.Get_ping tcp_connpool.open
  tcp_connpool.Close tcp_connpool.Destroy
  tcp_connpool.Lock tcp_connpool.Unlock tcp_connpool.load
  tcp_connpool.store_conns tcp_connpool.store_free
  tcp_connpool.call_ping tcp_connpool.call_Close
  tcp_connpool.call_ResolveTCPAddr tcp_connpool.call_DialTimeout
  tcp_connpool.call_SetReadDeadline tcp_connpool.call_SetWriteDeadline
  tcp_connpool.outside tcp_connpool.set_m
  tcp_connpool.set_conns tcp_connpool.set_free
  conn_pool_mu.Get conn_pool_mu.Get_ping conn_pool_mu.Release
  conn_pool_mu.CloseClean conn_pool_mu.Destroy
  conn_pool_mu.Lock conn_pool_mu.Unlock conn_pool_mu.load
  conn_pool_mu.store_conns conn_pool_mu.store_free
  conn_pool_mu.call_New conn_pool_mu.call_Ping conn_pool_mu.call_Close
  conn_pool_mu.outside conn_pool_mu.set_Mutex
  conn_pool_mu.set_conns conn_pool_mu.set_free
  : pool_ops.

(** Unfold the methods down to the state they compute. *)
Ltac run_ops := autounfold with pool_ops in *; cbn in *.

(** Split on the first test or call result the computation waits for. *)
Ltac split_run :=
  match goal with
  | |- context [match ?x with _ => _ end] =>
      match x with
      | context [match _ with _ => _ end] => fail 1
      | _ => destruct x eqn:?
      end
  end; cbn in *.

Lemma wrap_is_int (z : Z) : is_int z -> wrap z = z.
Proof.
  unfold is_int, int_min, int_max, wrap. intros H.
  rewrite Z.mod_small; lia.
Qed.

Lemma wrap_pred (z : Z) : 0 < z -> is_int z -> wrap (z - 1) = z - 1.
Proof.
  intros Hz H. apply wrap_is_int.
  unfold is_int, int_min, int_max in *. lia.
Qed.

Lemma len_app {A : Type} (l : list A) (x : A) : len (l ++ [x]) = len l + 1.
Proof. unfold len. rewrite length_app. cbn. lia. Qed.

(** C1, evaluated where it breaks.  On a pool that keeps no idle
    connection, a caller takes a connection and returns it twice.  Both
    returns find the free list full and take one off the counter, the
    second one at zero: the counter ends at -1 in all three pools, for the
    decrement of this branch has no guard.  The pool with its own mutex
    does not close the connection it drops either: its log shows the
    factory and validator calls of [Get] and no [Close]. *)
Theorem C1_full_free_list_decrement_unguarded :
  (exists s',
     (r <- conn_pool.Get Sample.closes ;;
      conn_pool.Close Sample.closes (fst r) ;;
      conn_pool.Close Sample.closes (fst r))
       (conn_pool.fresh "peer" 1 0 (Some Sample.opens) (Some Sample.accepts)
          0%nat)
     = Returned None s' /\
     conn_pool.conns (conn_pool.pool s') = -1 /\
     conn_pool.log s' = [Event CallNew true;
                         Event (CallPing (Some 0%nat)) true;
                         Event (CallClose 0%nat) true;
                         Event (CallClose 0%nat) true]) /\
  (exists s',
     (r <- tcp_connpool.Get Sample.closes Sample.sets_deadline
             Sample.sets_deadline Sample.resolves Sample.dials 0 ;;
      tcp_connpool.Close Sample.closes (fst r) ;;
      tcp_connpool.Close Sample.closes (fst r))
       (tcp_connpool.mkState
          (tcp_connpool.NewTcpConnPool "peer:80" 1 0 100 (Some Sample.accepts))
          false 0%nat [])
     = Returned None s' /\
     tcp_connpool.conns (tcp_connpool.pool s') = -1 /\
     tcp_connpool.log s' = [Event (CallResolveTCPAddr "peer:80") true;
                            Event (CallDialTimeout "peer:80" 100000000) true;
                            Event (CallPing (Some 0%nat)) true;
                            Event (CallClose 0%nat) true;
                            Event (CallClose 0%nat) true]) /\
  (exists s',
     (r <- conn_pool_mu.Get Sample.closes ;;
      conn_pool_mu.Release (fst r) ;;
      conn_pool_mu.Release (fst r))
       (conn_pool_mu.mkState
          (conn_pool_mu.mkConnPool false (Some Sample.opens)
             (Some Sample.accepts) "peer" 1 0 0 [])
          0%nat [])
     = Returned None s' /\
     conn_pool_mu.conns (conn_pool_mu.pool s') = -1 /\
     conn_pool_mu.log s' = [Event CallNew true;
                            Event (CallPing (Some 0%nat)) false]).
Proof.
  repeat split; eexists;
    (split; [ vm_compute; reflexivity | split; reflexivity ]).
Qed.

(** ** Get when the validator turns the candidate down *)

Section conn_pool_ping_fails.
Import conn_pool.
Variable W : Type.
Variable io_Close : Handle -> W -> W.


Lemma conn_pool_Get_reused_rejected (s : State W) ping h rest e w' :
  m s = false ->
  is_int (conns (pool s)) ->
  Ping (pool s) = Some ping ->
  free (pool s) = Some h :: rest ->
  ping (Some h) (world s) = (Some e, w') ->
  exists s',
    Get io_Close s = Returned (nil, Some e) s' /\
    conns (pool s') = guarded_pred (conns (pool s)) /\
    free (pool s') = rest /\
    world s' = io_Close h w' /\
    log s' = log s ++ [Event (CallPing (Some h)) true;
                       Event (CallClose h) true] /\
    m s' = false.
Proof.
  destruct s as [[new png nm mc mi c f] mu w l]; cbn.
  intros -> Hc -> -> Hp. run_ops.
  rewrite andb_false_r; cbn. rewrite Hp; cbn. unfold guarded_pred.
  destruct (0 <? c) eqn:Hpos; cbn; eexists; repeat split; cbn;
    rewrite <- ?app_assoc; try reflexivity.
  apply wrap_pred; [ apply Z.ltb_lt | ]; assumption.
Qed.

Lemma conn_pool_Get_new_rejected (s : State W) new ping h e w1 w' :
  m s = false ->
  New (pool s) = Some new ->
  Ping (pool s) = Some ping ->
  free (pool s) = [] ->
  conns (pool s) < MaxConns (pool s) ->
  new (world s) = ((Some h, None), w1) ->
  ping (Some h) w1 = (Some e, w') ->
  exists s',
    Get io_Close s = Returned (nil, Some e) s' /\
    conns (pool s') = conns (pool s) /\
    free (pool s') = [] /\
    world s' = io_Close h w' /\
    log s' = log s ++ [Event CallNew true;
                       Event (CallPing (Some h)) true;
                       Event (CallClose h) true] /\
    m s' = false.
Proof.
  destruct s as [[nw png nm mc mi c f] mu w l]; cbn.
  intros -> -> -> -> Hlt Hn Hp. run_ops.
  replace (mc <=? c) with false by (symmetry; apply Z.leb_gt; assumption).
  cbn. rewrite Hn. cbn. rewrite Hp. cbn.
  eexists; repeat split; cbn; rewrite <- ?app_assoc; reflexivity.
Qed.

End conn_pool_ping_fails.

Section tcp_connpool_ping_fails.
Import tcp_connpool.
Variable W : Type.
Variable net_Close : Handle -> W -> W.
Variable net_SetReadDeadline : Handle -> Z -> W -> W.
Variable net_SetWriteDeadline : Handle -> Z -> W -> W.
Variable net_ResolveTCPAddr : string -> W -> option error * W.
Variable net_DialTimeout : string -> Z -> W -> (Conn * option error) * W.

Local Abbreviation Get :=
  (tcp_connpool.Get net_Close net_SetReadDeadline net_SetWriteDeadline
     net_ResolveTCPAddr net_DialTimeout).
Local Abbreviation deadlines :=
  (with_deadlines net_SetReadDeadline net_SetWriteDeadline).

Lemma tcp_connpool_Get_reused_rejected (s : State W) timeout png h rest e w' :
  m s = false ->
  is_int (conns (pool s)) ->
  ping (pool s) = Some png ->
  free (pool s) = Some h :: rest ->
  png (Some h) (deadlines timeout h (world s)) = (Some e, w') ->
  exists s',
    Get timeout s = Returned (nil, Some e) s' /\
    conns (pool s') = guarded_pred (conns (pool s)) /\
    free (pool s') = rest /\
    world s' = net_Close h w' /\
    log s' = log s ++ deadline_calls timeout h ++
               [Event (CallPing (Some h)) true; Event (CallClose h) true] /\
    m s' = false.
Proof.
  destruct s as [[nm mc mi c dt f pg] mu w l]; cbn.
  intros -> Hc -> -> Hp.
  unfold with_deadlines, deadline_calls in *. run_ops.
  rewrite andb_false_r; cbn.
  destruct (0 <? timeout) eqn:Ht; cbn; rewrite Hp; cbn;
    unfold guarded_pred;
    (destruct (0 <? c) eqn:Hpos; cbn; eexists; repeat split; cbn;
     rewrite <- ?app_assoc; try reflexivity;
     apply wrap_pred; [ apply Z.ltb_lt | ]; assumption).
Qed.

Lemma tcp_connpool_Get_new_rejected (s : State W) timeout png h e w1 w2 w' :
  m s = false ->
  ping (pool s) = Some png ->
  free (pool s) = [] ->
  conns (pool s) < max_conns (pool s) ->
  net_ResolveTCPAddr (name (pool s)) (world s) = (None, w1) ->
  net_DialTimeout (name (pool s))
    (wrap (dial_timeout (pool s) * Millisecond)) w1 = ((Some h, None), w2) ->
  png (Some h) (deadlines timeout h w2) = (Some e, w') ->
  exists s',
    Get timeout s = Returned (nil, Some e) s' /\
    conns (pool s') = conns (pool s) /\
    free (pool s') = [] /\
    world s' = net_Close h w' /\
    log s' = log s ++
               [Event (CallResolveTCPAddr (name (pool s))) true;
                Event (CallDialTimeout (name (pool s))
                         (wrap (dial_timeout (pool s) * Millisecond))) true] ++
               deadline_calls timeout h ++
               [Event (CallPing (Some h)) true; Event (CallClose h) true] /\
    m s' = false.
Proof.
  destruct s as [[nm mc mi c dt f pg] mu w l]; cbn.
  intros -> -> -> Hlt Hr Hd Hp.
  unfold with_deadlines, deadline_calls in *. run_ops.
  replace (mc <=? c) with false by (symmetry; apply Z.leb_gt; assumption).
  cbn. rewrite Hr; cbn. rewrite Hd; cbn.
  destruct (0 <? timeout) eqn:Ht; cbn; rewrite Hp; cbn;
    eexists; repeat split; cbn; rewrite <- ?app_assoc; reflexivity.
Qed.

End tcp_connpool_ping_fails.

(** X19.  When the validator turns down a candidate of [Get] that is a
    live connection, the candidate is closed, [Get] returns no connection
    and the validator's error; a candidate taken from the free list costs
    the counter one, unless the counter is not positive; a candidate just
    created leaves the counter as it was.  Both for [ConnPool] under the
    package mutex and for [TcpConnPool]. *)
Theorem X19_live_candidate_rejected_is_closed :
  (forall W io_Close (s : conn_pool.State W) ping h rest e w',
     conn_pool.m s = false ->
     is_int (conn_pool.conns (conn_pool.pool s)) ->
     conn_pool.Ping (conn_pool.pool s) = Some ping ->
     conn_pool.free (conn_pool.pool s) = Some h :: rest ->
     ping (Some h) (conn_pool.world s) = (Some e, w') ->
     exists s',
       conn_pool.Get io_Close s = Returned (nil, Some e) s' /\
       conn_pool.conns (conn_pool.pool s')
         = guarded_pred (conn_pool.conns (conn_pool.pool s)) /\
       conn_pool.free (conn_pool.pool s') = rest /\
       conn_pool.world s' = io_Close h w' /\
       conn_pool.log s'
         = conn_pool.log s ++ [Event (CallPing (Some h)) true;
                               Event (CallClose h) true] /\
       conn_pool.m s' = false) /\
  (forall W io_Close (s : conn_pool.State W) new ping h e w1 w',
     conn_pool.m s = false ->
     conn_pool.New (conn_pool.pool s) = Some new ->
     conn_pool.Ping (conn_pool.pool s) = Some ping ->
     conn_pool.free (conn_pool.pool s) = [] ->
     conn_pool.conns (conn_pool.pool s)
       < conn_pool.MaxConns (conn_pool.pool s) ->
     new (conn_pool.world s) = ((Some h, None), w1) ->
     ping (Some h) w1 = (Some e, w') ->
     exists s',
       conn_pool.Get io_Close s = Returned (nil, Some e) s' /\
       conn_pool.conns (conn_pool.pool s')
         = conn_pool.conns (conn_pool.pool s) /\
       conn_pool.free (conn_pool.pool s') = [] /\
       conn_pool.world s' = io_Close h w' /\
       conn_pool.log s'
         = conn_pool.log s ++ [Event CallNew true;
                               Event (CallPing (Some h)) true;
                               Event (CallClose h) true] /\
       conn_pool.m s' = false) /\
  (forall W net_Close rd wr resolve dial (s : tcp_connpool.State W)
          timeout png h rest e w',
     tcp_connpool.m s = false ->
     is_int (tcp_connpool.conns (tcp_connpool.pool s)) ->
     tcp_connpool.ping (tcp_connpool.pool s) = Some png ->
     tcp_connpool.free (tcp_connpool.pool s) = Some h :: rest ->
     png (Some h) (with_deadlines rd wr timeout h (tcp_connpool.world s))
       = (Some e, w') ->
     exists s',
       tcp_connpool.Get net_Close rd wr resolve dial timeout s
         = Returned (nil, Some e) s' /\
       tcp_connpool.conns (tcp_connpool.pool s')
         = guarded_pred (tcp_connpool.conns (tcp_connpool.pool s)) /\
       tcp_connpool.free (tcp_connpool.pool s') = rest /\
       tcp_connpool.world s' = net_Close h w' /\
       tcp_connpool.log s'
         = tcp_connpool.log s ++ deadline_calls timeout h ++
             [Event (CallPing (Some h)) true; Event (CallClose h) true] /\
       tcp_connpool.m s' = false) /\
  (forall W net_Close rd wr resolve dial (s : tcp_connpool.State W)
          timeout png h e w1 w2 w',
     tcp_connpool.m s = false ->
     tcp_connpool.ping (tcp_connpool.pool s) = Some png ->
     tcp_connpool.free (tcp_connpool.pool s) = [] ->
     tcp_connpool.conns (tcp_connpool.pool s)
       < tcp_connpool.max_conns (tcp_connpool.pool s) ->
     resolve (tcp_connpool.name (tcp_connpool.pool s)) (tcp_connpool.world s)
       = (None, w1) ->
     dial (tcp_connpool.name (tcp_connpool.pool s))
       (wrap (tcp_connpool.dial_timeout (tcp_connpool.pool s)
              * tcp_connpool.Millisecond)) w1
       = ((Some h, None), w2) ->
     png (Some h) (with_deadlines rd wr timeout h w2) = (Some e, w') ->
     exists s',
       tcp_connpool.Get net_Close rd wr resolve dial timeout s
         = Returned (nil, Some e) s' /\
       tcp_connpool.conns (tcp_connpool.pool s')
         = tcp_connpool.conns (tcp_connpool.pool s) /\
       tcp_connpool.free (tcp_connpool.pool s') = [] /\
       tcp_connpool.world s' = net_Close h w' /\
       tcp_connpool.log s'
         = tcp_connpool.log s ++
             [Event (CallResolveTCPAddr
                       (tcp_connpool.name (tcp_connpool.pool s))) true;
              Event (CallDialTimeout (tcp_connpool.name (tcp_connpool.pool s))
                       (wrap (tcp_connpool.dial_timeout (tcp_connpool.pool s)
                              * tcp_connpool.Millisecond))) true] ++
             deadline_calls timeout h ++
             [Event (CallPing (Some h)) true; Event (CallClose h) true] /\
       tcp_connpool.m s' = false).
Proof.
  split; [ | split; [ | split ] ].
  - intros. eapply conn_pool_Get_reused_rejected; eassumption.
  - intros. eapply conn_pool_Get_new_rejected; eassumption.
  - intros. eapply tcp_connpool_Get_reused_rejected; eassumption.
  - intros. eapply tcp_connpool_Get_new_rejected; eassumption.
Qed.

Lemma X19_live_candidate_rejected_witness :
  (exists s',
     conn_pool.Get Sample.closes
       (conn_pool.mkState
          (conn_pool.mkConnPool (Some Sample.opens)
             (Some (Sample.rejects (conn_pool.ErrOther "dead")))
             "peer" 2 2 1 [Some 0%nat])
          false 1%nat [])
     = Returned (nil, Some (conn_pool.ErrOther "dead")) s' /\
     conn_pool.conns (conn_pool.pool s') = 0 /\
     conn_pool.free (conn_pool.pool s') = [] /\
     conn_pool.world s' = 1%nat /\
     conn_pool.log s' = [Event (CallPing (Some 0%nat)) true;
                         Event (CallClose 0%nat) true] /\
     conn_pool.m s' = false) /\
  (exists s',
     conn_pool.Get Sample.closes
       (conn_pool.fresh "peer" 2 2 (Some Sample.opens)
          (Some (Sample.rejects (conn_pool.ErrOther "dead"))) 0%nat)
     = Returned (nil, Some (conn_pool.ErrOther "dead")) s' /\
     conn_pool.conns (conn_pool.pool s') = 0 /\
     conn_pool.free (conn_pool.pool s') = [] /\
     conn_pool.world s' = 1%nat /\
     conn_pool.log s' = [Event CallNew true;
                         Event (CallPing (Some 0%nat)) true;
                         Event (CallClose 0%nat) true] /\
     conn_pool.m s' = false) /\
  (exists s',
     tcp_connpool.Get Sample.closes Sample.sets_deadline Sample.sets_deadline
       Sample.resolves Sample.dials 50
       (tcp_connpool.mkState
          (tcp_connpool.mkTcpConnPool "peer:80" 2 2 1 100 [Some 0%nat]
             (Some (Sample.rejects (tcp_connpool.ErrOther "dead"))))
          false 1%nat [])
     = Returned (nil, Some (tcp_connpool.ErrOther "dead")) s' /\
     tcp_connpool.conns (tcp_connpool.pool s') = 0 /\
     tcp_connpool.free (tcp_connpool.pool s') = [] /\
     tcp_connpool.world s' = 1%nat /\
     tcp_connpool.log s'
       = [Event (CallSetReadDeadline 0%nat 50000000) true;
          Event (CallSetWriteDeadline 0%nat 50000000) true;
          Event (CallPing (Some 0%nat)) true;
          Event (CallClose 0%nat) true] /\
     tcp_connpool.m s' = false) /\
  (exists s',
     tcp_connpool.Get Sample.closes Sample.sets_deadline Sample.sets_deadline
       Sample.resolves Sample.dials 0
       (tcp_connpool.mkState
          (tcp_connpool.NewTcpConnPool "peer:80" 2 2 100
             (Some (Sample.rejects (tcp_connpool.ErrOther "dead"))))
          false 0%nat [])
     = Returned (nil, Some (tcp_connpool.ErrOther "dead")) s' /\
     tcp_connpool.conns (tcp_connpool.pool s') = 0 /\
     tcp_connpool.free (tcp_connpool.pool s') = [] /\
     tcp_connpool.world s' = 1%nat /\
     tcp_connpool.log s'
       = [Event (CallResolveTCPAddr "peer:80") true;
          Event (CallDialTimeout "peer:80" 100000000) true;
          Event (CallPing (Some 0%nat)) true;
          Event (CallClose 0%nat) true] /\
     tcp_connpool.m s' = false).
Proof.
  destruct X19_live_candidate_rejected_is_closed
    as (Hreused & Hnew & Htcp_reused & Htcp_new).
  split; [ | split; [ | split ] ].
  - refine (Hreused _ Sample.closes _ _ 0%nat [] _ 1%nat _ _ _ _ _);
      try reflexivity.
    unfold is_int, int_min, int_max; cbn; lia.
  - refine (Hnew _ Sample.closes _ _ _ 0%nat _ 1%nat 1%nat _ _ _ _ _ _ _);
      reflexivity.
  - refine (Htcp_reused _ Sample.closes Sample.sets_deadline
              Sample.sets_deadline Sample.resolves Sample.dials _ 50 _
              0%nat [] _ 1%nat _ _ _ _ _); try reflexivity.
    unfold is_int, int_min, int_max; cbn; lia.
  - refine (Htcp_new _ Sample.closes Sample.sets_deadline
              Sample.sets_deadline Sample.resolves Sample.dials _ 0 _
              0%nat _ 0%nat 1%nat 1%nat _ _ _ _ _ _ _); reflexivity.
Defined.

(** C4, evaluated where it breaks.  [Get] calls [conn.Close()] on the
    rejected candidate without looking at it, where [Close] and [Destroy]
    test [conn != nil] first.  A factory answers nil with no error and
    the validator rejects nil: [Get] panics on the nil connection instead
    of returning the validator's error.  The log shows the factory and
    the validator call and no [Close]. *)
Theorem C4_nil_candidate_rejected_panics :
  conn_pool.Get Sample.closes
    (conn_pool.fresh "peer" 1 1
       (Some (fun w : Sample.World => ((nil, None), w)))
       (Some (Sample.rejects (conn_pool.ErrOther "dead"))) 0%nat)
  = Panicked
      (conn_pool.mkState
         (conn_pool.mkConnPool
            (Some (fun w : Sample.World => ((nil, None), w)))
            (Some (Sample.rejects (conn_pool.ErrOther "dead")))
            "peer" 1 1 0 [])
         false 0%nat
         [Event CallNew true; Event (CallPing nil) true]).
Proof.
  vm_compute. reflexivity.
Qed.

(** ** Get at the capacity check *)

Section conn_pool_capacity.
Import conn_pool.
Variable W : Type.
Variable io_Close : Handle -> W -> W.

Lemma conn_pool_Get_at_capacity (s : State W) :
  m s = false ->
  MaxConns (pool s) <= conns (pool s) ->
  free (pool s) = [] ->
  Get io_Close s = Returned (nil, Some ErrMaxConn) s.
Proof.
  destruct s as [[nw png nm mc mi c f] mu w l]; cbn.
  intros -> Hcap ->. run_ops.
  replace (mc <=? c) with true by (symmetry; apply Z.leb_le; assumption).
  reflexivity.
Qed.

Lemma conn_pool_Get_ErrMaxConn_only_at_capacity (s : State W) conn s' :
  m s = false ->
  (forall new w, New (pool s) = Some new ->
                 snd (fst (new w)) <> Some ErrMaxConn) ->
  (forall ping c w, Ping (pool s) = Some ping ->
                    fst (ping c w) <> Some ErrMaxConn) ->
  Get io_Close s = Returned (conn, Some ErrMaxConn) s' ->
  MaxConns (pool s) <= conns (pool s) /\ free (pool s) = [].
Proof.
  destruct s as [[nw png nm mc mi c f] mu w l]; cbn.
  intros -> Hnew Hping. run_ops.
  destruct (mc <=? c) eqn:Hcap; cbn.
  - destruct f as [ | x rest ]; cbn.
    + intros _. split; [ apply Z.leb_le; assumption | reflexivity ].
    + destruct png as [ping | ]; cbn; [ | discriminate ].
      specialize (Hping ping x w eq_refl).
      destruct (ping x w) as [[e | ] w1]; cbn in *;
        repeat split_run; congruence.
  - destruct f as [ | x rest ]; cbn.
    + destruct nw as [new | ]; cbn; [ | discriminate ].
      specialize (Hnew new w eq_refl).
      destruct (new w) as [[x [e | ]] w1]; cbn in *; [ congruence | ].
      destruct png as [ping | ]; cbn; [ | discriminate ].
      specialize (Hping ping x w1 eq_refl).
      destruct (ping x w1) as [[e | ] w2]; cbn in *;
        repeat split_run; congruence.
    + destruct png as [ping | ]; cbn; [ | discriminate ].
      specialize (Hping ping x w eq_refl).
      destruct (ping x w) as [[e | ] w1]; cbn in *;
        repeat split_run; congruence.
Qed.

End conn_pool_capacity.

Section tcp_connpool_capacity.
Import tcp_connpool.
Variable W : Type.
Variable net_Close : Handle -> W -> W.
Variable net_SetReadDeadline : Handle -> Z -> W -> W.
Variable net_SetWriteDeadline : Handle -> Z -> W -> W.
Variable net_ResolveTCPAddr : string -> W -> option error * W.
Variable net_DialTimeout : string -> Z -> W -> (Conn * option error) * W.

Local Abbreviation Get :=
  (tcp_connpool.Get net_Close net_SetReadDeadline net_SetWriteDeadline
     net_ResolveTCPAddr net_DialTimeout).

Lemma tcp_connpool_Get_at_capacity (s : State W) timeout :
  m s = false ->
  max_conns (pool s) <= conns (pool s) ->
  free (pool s) = [] ->
  Get timeout s = Returned (nil, Some ErrMaxConn) s.
Proof.
  destruct s as [[nm mc mi c dt f pg] mu w l]; cbn.
  intros -> Hcap ->. run_ops.
  replace (mc <=? c) with true by (symmetry; apply Z.leb_le; assumption).
  reflexivity.
Qed.

(** What [Get] returns once the candidate is chosen is the candidate or
    the error of [ping]. *)
Lemma tcp_connpool_Get_ping_error (s : State W) timeout x new_conn conn s' :
  (forall png c w, ping (pool s) = Some png ->
                   fst (png c w) <> Some ErrMaxConn) ->
  Get_ping W net_Close net_SetReadDeadline net_SetWriteDeadline
    timeout x new_conn s <> Returned (conn, Some ErrMaxConn) s'.
Proof.
  destruct s as [[nm mc mi c dt f pg] mu w l]; cbn.
  intros Hping. run_ops.
  destruct pg as [png | ]; cbn.
  - assert (Hp := fun c w => Hping png c w eq_refl).
    destruct (0 <? timeout); cbn.
    + destruct x as [h | ]; cbn; [ | discriminate ].
      match goal with
      | |- context [png ?c ?w] =>
          specialize (Hp c w); destruct (png c w) as [[e | ] w1]
      end; cbn in *; repeat split_run; congruence.
    + match goal with
      | |- context [png ?c ?w] =>
          specialize (Hp c w); destruct (png c w) as [[e | ] w1]
      end; cbn in *; repeat split_run; congruence.
  - destruct (0 <? timeout); cbn; [ | discriminate ].
    destruct x; cbn; discriminate.
Qed.

Lemma tcp_connpool_Get_ErrMaxConn_only_at_capacity
    (s : State W) timeout conn s' :
  m s = false ->
  (forall addr w, fst (net_ResolveTCPAddr addr w) <> Some ErrMaxConn) ->
  (forall addr d w, snd (fst (net_DialTimeout addr d w)) <> Some ErrMaxConn) ->
  (forall png c w, ping (pool s) = Some png ->
                   fst (png c w) <> Some ErrMaxConn) ->
  Get timeout s = Returned (conn, Some ErrMaxConn) s' ->
  max_conns (pool s) <= conns (pool s) /\ free (pool s) = [].
Proof.
  intros Hm Hres Hdial Hping HG.
  destruct (max_conns (pool s) <=? conns (pool s)) eqn:Hcap.
  - destruct (free (pool s)) as [ | x rest ] eqn:Hf.
    + split; [ apply Z.leb_le; assumption | reflexivity ].
    + exfalso. revert HG.
      unfold tcp_connpool.Get, Lock, defer, bind, load, Unlock. rewrite Hm. cbn.
      rewrite Hf, andb_false_r. unfold store_free. cbn.
      match goal with
      | |- context [Get_ping _ ?a ?b ?c ?t ?x ?n ?st] =>
          pose proof (fun cn sx =>
            tcp_connpool_Get_ping_error st t x n cn sx Hping) as Hno;
          destruct (Get_ping W a b c t x n st) as [[cn [e | ]] s1 | s1 | s1]
            eqn:HGp
      end; cbn; unfold set_m; destruct (m s1); cbn; try discriminate.
      intros Heq. injection Heq as <- -> _.
      eapply Hno. reflexivity.
  - exfalso. revert HG.
    unfold tcp_connpool.Get, Lock, defer, bind, load, Unlock. rewrite Hm. cbn.
    rewrite Hcap. cbn.
    destruct (free (pool s)) as [ | x rest ] eqn:Hf.
    + unfold open, bind, load, call_ResolveTCPAddr, call_DialTimeout, ret. cbn.
      specialize (Hres (name (pool s)) (world s)).
      destruct (net_ResolveTCPAddr (name (pool s)) (world s))
        as [[e | ] w1]; cbn in *.
      * intros Heq; injection Heq as _ -> _. congruence.
      * match goal with
        | |- context [net_DialTimeout ?a ?d ?w] =>
            specialize (Hdial a d w);
            destruct (net_DialTimeout a d w) as [[x [e | ]] w2]
        end; cbn in *.
        -- intros Heq; injection Heq as _ -> _. congruence.
        -- match goal with
           | |- context [Get_ping _ ?a ?b ?c ?t ?x ?n ?st] =>
               pose proof (fun cn sx =>
                 tcp_connpool_Get_ping_error st t x n cn sx Hping) as Hno;
               destruct (Get_ping W a b c t x n st)
                 as [[cn [e | ]] s1 | s1 | s1] eqn:HGp
           end; cbn; unfold set_m; destruct (m s1); cbn; try discriminate.
           intros Heq. injection Heq as <- -> _.
           eapply Hno. reflexivity.
    + unfold store_free. cbn.
      match goal with
      | |- context [Get_ping _ ?a ?b ?c ?t ?x ?n ?st] =>
          pose proof (fun cn sx =>
            tcp_connpool_Get_ping_error st t x n cn sx Hping) as Hno;
          destruct (Get_ping W a b c t x n st) as [[cn [e | ]] s1 | s1 | s1]
            eqn:HGp
      end; cbn; unfold set_m; destruct (m s1); cbn; try discriminate.
      intros Heq. injection Heq as <- -> _.
      eapply Hno. reflexivity.
Qed.

End tcp_connpool_capacity.

(** C5, as stated, fails: [Get] hands on the error of the factory as it
    is, so a factory that fails with the package's [ErrMaxConn] makes
    [Get] return [ErrMaxConn] with the counter below [MaxConns]. *)
Lemma C5_ErrMaxConn_below_capacity :
  let s := conn_pool.fresh "peer" 1 1
             (Some (Sample.refuses conn_pool.ErrMaxConn))
             (Some Sample.accepts) 0%nat in
  ~ ((exists conn s',
        conn_pool.Get Sample.closes s
        = Returned (conn, Some conn_pool.ErrMaxConn) s') <->
     (conn_pool.MaxConns (conn_pool.pool s)
        <= conn_pool.conns (conn_pool.pool s)
      /\ conn_pool.free (conn_pool.pool s) = [])).
Proof.
  cbn. intros [Hret _].
  destruct Hret as [Hcap _]; [ | cbn in Hcap; lia ].
  eexists. eexists. vm_compute. reflexivity.
Qed.

(** C5, amended.  As long as the factory (for [TcpConnPool]: resolving and
    dialling) and the validator do not fail with [ErrMaxConn] themselves,
    [Get] returns [ErrMaxConn] exactly when the counter has reached the
    maximum and the free list is empty.  In that case it returns at once
    and leaves pool, world and log as they were: no factory or validator
    call is made. *)
Theorem C5_ErrMaxConn_iff_at_capacity :
  (forall W io_Close (s : conn_pool.State W),
     conn_pool.m s = false ->
     (forall new w, conn_pool.New (conn_pool.pool s) = Some new ->
                    snd (fst (new w)) <> Some conn_pool.ErrMaxConn) ->
     (forall ping c w, conn_pool.Ping (conn_pool.pool s) = Some ping ->
                       fst (ping c w) <> Some conn_pool.ErrMaxConn) ->
     ((exists conn s',
         conn_pool.Get io_Close s
         = Returned (conn, Some conn_pool.ErrMaxConn) s') <->
      (conn_pool.MaxConns (conn_pool.pool s)
         <= conn_pool.conns (conn_pool.pool s)
       /\ conn_pool.free (conn_pool.pool s) = [])) /\
     (conn_pool.MaxConns (conn_pool.pool s)
        <= conn_pool.conns (conn_pool.pool s)
      /\ conn_pool.free (conn_pool.pool s) = [] ->
      conn_pool.Get io_Close s
      = Returned (nil, Some conn_pool.ErrMaxConn) s)) /\
  (forall W net_Close rd wr resolve dial (s : tcp_connpool.State W) timeout,
     tcp_connpool.m s = false ->
     (forall addr w, fst (resolve addr w) <> Some tcp_connpool.ErrMaxConn) ->
     (forall addr d w,
        snd (fst (dial addr d w)) <> Some tcp_connpool.ErrMaxConn) ->
     (forall png c w, tcp_connpool.ping (tcp_connpool.pool s) = Some png ->
                      fst (png c w) <> Some tcp_connpool.ErrMaxConn) ->
     ((exists conn s',
         tcp_connpool.Get net_Close rd wr resolve dial timeout s
         = Returned (conn, Some tcp_connpool.ErrMaxConn) s') <->
      (tcp_connpool.max_conns (tcp_connpool.pool s)
         <= tcp_connpool.conns (tcp_connpool.pool s)
       /\ tcp_connpool.free (tcp_connpool.pool s) = [])) /\
     (tcp_connpool.max_conns (tcp_connpool.pool s)
        <= tcp_connpool.conns (tcp_connpool.pool s)
      /\ tcp_connpool.free (tcp_connpool.pool s) = [] ->
      tcp_connpool.Get net_Close rd wr resolve dial timeout s
      = Returned (nil, Some tcp_connpool.ErrMaxConn) s)).
Proof.
  split.
  - intros W io_Close s Hm Hnew Hping. split; [ split | ].
    + intros (conn & s' & HG).
      eapply conn_pool_Get_ErrMaxConn_only_at_capacity; eassumption.
    + intros [Hcap Hf]. exists nil, s.
      apply conn_pool_Get_at_capacity; assumption.
    + intros [Hcap Hf]. apply conn_pool_Get_at_capacity; assumption.
  - intros W net_Close rd wr resolve dial s timeout Hm Hres Hdial Hping.
    split; [ split | ].
    + intros (conn & s' & HG).
      eapply tcp_connpool_Get_ErrMaxConn_only_at_capacity; eassumption.
    + intros [Hcap Hf]. exists nil, s.
      apply tcp_connpool_Get_at_capacity; assumption.
    + intros [Hcap Hf]. apply tcp_connpool_Get_at_capacity; assumption.
Qed.

Lemma C5_ErrMaxConn_iff_witness :
  conn_pool.Get Sample.closes
    (conn_pool.mkState
       (conn_pool.mkConnPool (Some Sample.opens) (Some Sample.accepts)
          "peer" 1 1 1 [])
       false 1%nat [Event CallNew true; Event (CallPing (Some 0%nat)) true])
  = Returned (nil, Some conn_pool.ErrMaxConn)
      (conn_pool.mkState
         (conn_pool.mkConnPool (Some Sample.opens) (Some Sample.accepts)
            "peer" 1 1 1 [])
         false 1%nat [Event CallNew true; Event (CallPing (Some 0%nat)) true])
  /\
  tcp_connpool.Get Sample.closes Sample.sets_deadline Sample.sets_deadline
    Sample.resolves Sample.dials 50
    (tcp_connpool.mkState
       (tcp_connpool.mkTcpConnPool "peer:80" 1 1 1 100 []
          (Some Sample.accepts))
       false 1%nat [])
  = Returned (nil, Some tcp_connpool.ErrMaxConn)
      (tcp_connpool.mkState
         (tcp_connpool.mkTcpConnPool "peer:80" 1 1 1 100 []
            (Some Sample.accepts))
         false 1%nat []).
Proof.
  destruct C5_ErrMaxConn_iff_at_capacity as [Hpool Htcp].
  split.
  - refine (proj2 (Hpool _ Sample.closes _ _ _ _) _).
    + reflexivity.
    + cbn. intros new w Hnew. injection Hnew as <-. cbn. discriminate.
    + cbn. intros ping c w Hping. injection Hping as <-. cbn. discriminate.
    + cbn. split; [ lia | reflexivity ].
  - refine (proj2 (Htcp _ Sample.closes Sample.sets_deadline
                     Sample.sets_deadline Sample.resolves Sample.dials
                     _ 50 _ _ _ _) _).
    + reflexivity.
    + cbn. discriminate.
    + cbn. discriminate.
    + cbn. intros png c w Hping. injection Hping as <-. cbn. discriminate.
    + cbn. split; [ lia | reflexivity ].
Defined.

(** ** A pool that allows no connection *)

Lemma conn_pool_Gets_at_capacity W io_Close (s : conn_pool.State W) n :
  conn_pool.m s = false ->
  conn_pool.MaxConns (conn_pool.pool s) <= conn_pool.conns (conn_pool.pool s) ->
  conn_pool.free (conn_pool.pool s) = [] ->
  conn_pool.Gets io_Close n s
  = Returned (repeat (nil, Some conn_pool.ErrMaxConn) n) s.
Proof.
  intros Hm Hcap Hf. induction n as [ | n IH ]; cbn.
  - reflexivity.
  - unfold bind. rewrite conn_pool_Get_at_capacity by assumption.
    rewrite IH. reflexivity.
Qed.

(** C10.  On a pool made by [NewConnPool] with [max_conns <= 0], [Get]
    returns [ErrMaxConn] however often it is called, whatever [New] and
    [Ping] the owner installed; the pool stays as constructed and the log
    stays empty, so the factory is never called. *)
Theorem C10_nonpositive_MaxConns_always_ErrMaxConn :
  forall W io_Close name max_conns max_idle new ping (w : W) (n : nat),
    max_conns <= 0 ->
    let s := conn_pool.fresh name max_conns max_idle new ping w in
    conn_pool.Get io_Close s = Returned (nil, Some conn_pool.ErrMaxConn) s /\
    conn_pool.Gets io_Close n s
    = Returned (repeat (nil, Some conn_pool.ErrMaxConn) n) s /\
    conn_pool.log s = [].
Proof.
  intros W io_Close name max_conns max_idle new ping w n Hmax s.
  split; [ | split ].
  - apply conn_pool_Get_at_capacity; cbn; auto.
  - apply conn_pool_Gets_at_capacity; cbn; auto.
  - reflexivity.
Qed.

Lemma C10_nonpositive_MaxConns_witness :
  let s := conn_pool.fresh "peer" 0 4 (Some Sample.opens)
             (Some Sample.accepts) 0%nat in
  conn_pool.Get Sample.closes s = Returned (nil, Some conn_pool.ErrMaxConn) s /\
  conn_pool.Gets Sample.closes 3 s
  = Returned [(nil, Some conn_pool.ErrMaxConn);
              (nil, Some conn_pool.ErrMaxConn);
              (nil, Some conn_pool.ErrMaxConn)] s /\
  conn_pool.log s = [].
Proof.
  apply (C10_nonpositive_MaxConns_always_ErrMaxConn nat Sample.closes
           "peer" 0 4 (Some Sample.opens) (Some Sample.accepts) 0%nat 3%nat).
  lia.
Defined.

(** ** The free list: append on return, pop at the head *)

Section conn_pool_free_list.
Import conn_pool.
Variable W : Type.
Variable io_Close : Handle -> W -> W.

Lemma conn_pool_Close_appends (s : State W) h :
  m s = false ->
  len (free (pool s)) < MaxIdle (pool s) ->
  Close io_Close (Some h) s
  = Returned None (set_free (free (pool s) ++ [Some h]) s).
Proof.
  destruct s as [[nw png nm mc mi c f] mu w l]; cbn.
  intros -> Hroom. run_ops.
  replace (mi <=? len f) with false by (symmetry; apply Z.leb_gt; assumption).
  reflexivity.
Qed.

Lemma conn_pool_Close_nil (s : State W) :
  m s = false ->
  is_int (conns (pool s)) ->
  Close io_Close nil s
  = Returned None (set_conns (guarded_pred (conns (pool s))) s).
Proof.
  destruct s as [[nw png nm mc mi c f] mu w l]; cbn.
  intros -> Hc. run_ops. unfold guarded_pred.
  destruct (0 <? c) eqn:Hpos; cbn; [ | reflexivity ].
  rewrite wrap_pred; [ reflexivity | apply Z.ltb_lt | ]; assumption.
Qed.

Lemma conn_pool_Get_reused_accepted (s : State W) ping c rest w' :
  m s = false ->
  Ping (pool s) = Some ping ->
  free (pool s) = c :: rest ->
  ping c (world s) = (None, w') ->
  Get io_Close s
  = Returned (c, None)
      {| pool := pool (set_free rest s); m := false; world := w';
         log := log s ++ [Event (CallPing c) true] |}.
Proof.
  destruct s as [[nw png nm mc mi cn f] mu w l]; cbn.
  intros -> -> -> Hp. run_ops.
  rewrite andb_false_r; cbn. rewrite Hp; cbn. reflexivity.
Qed.

(** Whatever the validator answers, the connection it is asked about is
    the head of the free list. *)
Lemma conn_pool_Get_candidate_is_head (s : State W) ping c rest :
  m s = false ->
  Ping (pool s) = Some ping ->
  free (pool s) = c :: rest ->
  exists evs,
    log (state_of (Get io_Close s))
    = log s ++ Event (CallPing c) true :: evs.
Proof.
  destruct s as [[nw png nm mc mi cn f] mu w l]; cbn.
  intros -> -> ->. run_ops.
  rewrite andb_false_r; cbn.
  destruct (ping c w) as [[e | ] w1]; cbn.
  - destruct (0 <? cn); cbn; destruct c as [h | ]; cbn;
      eexists; rewrite <- ?app_assoc; cbn; reflexivity.
  - eexists. reflexivity.
Qed.

Lemma conn_pool_Closes_append (hs : list Handle) (s : State W) :
  m s = false ->
  len (free (pool s)) + len hs <= MaxIdle (pool s) ->
  Closes io_Close (map Some hs) s
  = Returned tt (set_free (free (pool s) ++ map Some hs) s).
Proof.
  revert s. induction hs as [ | h hs IH ]; intros s Hm Hroom.
  - destruct s as [[nw png nm mc mi cn f] mu w l]; cbn.
    rewrite app_nil_r. reflexivity.
  - unfold len in Hroom. cbn [List.length] in Hroom.
    cbn. unfold bind at 1 2.
    rewrite conn_pool_Close_appends by (unfold len in *; auto; lia).
    cbn. unfold Closes in IH. rewrite IH.
    + cbn. rewrite <- app_assoc. reflexivity.
    + exact Hm.
    + cbn. rewrite len_app. unfold len. lia.
Qed.

Lemma conn_pool_Gets_pop (cs rest : list Conn) (s : State W) ping :
  m s = false ->
  Ping (pool s) = Some ping ->
  (forall c w, fst (ping c w) = None) ->
  free (pool s) = cs ++ rest ->
  exists s',
    Gets io_Close (List.length cs) s
    = Returned (map (fun c => (c, @None error)) cs) s' /\
    free (pool s') = rest /\
    conns (pool s') = conns (pool s) /\
    m s' = false.
Proof.
  intros Hm Hp Hok. revert s Hm Hp.
  induction cs as [ | c cs IH ]; intros s Hm Hp Hf.
  - exists s. cbn. auto.
  - cbn. unfold bind at 1.
    specialize (Hok c (world s)) as Hc.
    destruct (ping c (world s)) as [r w'] eqn:Hpc. cbn in Hc. subst r.
    rewrite (conn_pool_Get_reused_accepted s ping c (cs ++ rest) w')
      by assumption.
    unfold bind.
    match goal with
    | |- context [Gets _ _ ?st] =>
        destruct (IH st) as (s' & HG & Hf' & Hc' & Hm')
    end; try reflexivity; try assumption.
    rewrite HG. exists s'. cbn. auto.
Qed.

Lemma conn_pool_Closes_nil (n : nat) (s : State W) :
  m s = false ->
  0 <= conns (pool s) <= int_max ->
  Closes io_Close (repeat nil n) s
  = Returned tt (set_conns (Z.max 0 (conns (pool s) - Z.of_nat n)) s).
Proof.
  revert s. induction n as [ | n IH ]; intros s Hm Hc.
  - destruct s as [[nw png nm mc mi cn f] mu w l]; cbn in *.
    rewrite Z.sub_0_r, Z.max_r by lia. reflexivity.
  - cbn [repeat]. unfold Closes. cbn [range]. unfold bind at 1 2.
    rewrite conn_pool_Close_nil
      by (auto; unfold is_int, int_min, int_max in *; lia).
    cbn. unfold Closes in IH. rewrite IH.
    + cbn. f_equal. unfold set_conns; cbn. f_equal. f_equal.
      unfold guarded_pred. destruct (Z.ltb_spec 0 (conns (pool s))); lia.
    + exact Hm.
    + cbn. unfold guarded_pred, int_max in *.
      destruct (Z.ltb_spec 0 (conns (pool s))); lia.
Qed.

End conn_pool_free_list.

Section conn_pool_mu_free_list.
Import conn_pool_mu.
Variable W : Type.
Variable io_Close : Handle -> W -> W.

Lemma conn_pool_mu_Release_appends (s : State W) conn :
  Mutex (pool s) = false ->
  len (free (pool s)) < MaxIdle (pool s) ->
  Release conn s = Returned None (set_free (free (pool s) ++ [conn]) s).
Proof.
  destruct s as [[mu nw png nm mc mi c f] w l]; cbn.
  intros -> Hroom. run_ops.
  replace (mi <=? len f) with false by (symmetry; apply Z.leb_gt; assumption).
  reflexivity.
Qed.

Lemma conn_pool_mu_Get_reused_accepted (s : State W) ping c rest w' :
  Mutex (pool s) = false ->
  Ping (pool s) = Some ping ->
  free (pool s) = c :: rest ->
  ping c (world s) = (None, w') ->
  Get io_Close s
  = Returned (c, None)
      {| pool := pool (set_free rest s); world := w';
         log := log s ++ [Event (CallPing c) false] |}.
Proof.
  destruct s as [[mu nw png nm mc mi cn f] w l]; cbn.
  intros -> -> -> Hp. run_ops.
  rewrite andb_false_r; cbn. rewrite Hp; cbn. reflexivity.
Qed.

Lemma conn_pool_mu_CloseClean_state (s : State W) conn :
  Mutex (pool s) = false ->
  is_int (conns (pool s)) ->
  CloseClean io_Close conn s
  = Returned None
      (set_conns (guarded_pred (conns (pool s)))
         match conn with
         | Some h => outside (CallClose h) (io_Close h (world s)) s
         | None => s
         end).
Proof.
  destruct s as [[mu nw png nm mc mi c f] w l]; cbn.
  intros -> Hc. run_ops. unfold guarded_pred.
  destruct conn as [h | ]; cbn;
    (destruct (0 <? c) eqn:Hpos; cbn; [ | reflexivity ]);
    (rewrite wrap_pred; [ reflexivity | apply Z.ltb_lt | ]; assumption).
Qed.

Lemma conn_pool_mu_CloseCleans_state (cs : list Conn) (s : State W) :
  Mutex (pool s) = false ->
  0 <= conns (pool s) <= int_max ->
  exists s',
    CloseCleans io_Close cs s = Returned tt s' /\
    conns (pool s') = Z.max 0 (conns (pool s) - len cs) /\
    free (pool s') = free (pool s) /\
    log s' = log s ++ close_calls false cs /\
    world s' = closed_world io_Close cs (world s) /\
    Mutex (pool s') = false.
Proof.
  revert s. induction cs as [ | c cs IH ]; intros s Hm Hc.
  - exists s. cbn. rewrite app_nil_r. repeat split; auto.
    unfold len; cbn. lia.
  - unfold CloseCleans. cbn [range]. unfold bind at 1 2.
    rewrite conn_pool_mu_CloseClean_state
      by (auto; unfold is_int, int_min, int_max in *; lia).
    cbn.
    match goal with
    | |- context [range cs _ ?st] =>
        destruct (IH st) as (s' & HC & Hc' & Hf' & Hl' & Hw' & Hm')
    end.
    + destruct c; cbn; assumption.
    + cbn. unfold guarded_pred, int_max in *.
      destruct (Z.ltb_spec 0 (conns (pool s))); lia.
    + unfold CloseCleans in HC. rewrite HC. exists s'.
      split; [ reflexivity | ]. cbn in Hc', Hf', Hl', Hw'.
      split; [ | split; [ | split; [ | split ] ] ].
      * rewrite Hc'. unfold guarded_pred, len. cbn [List.length].
        destruct (Z.ltb_spec 0 (conns (pool s))); lia.
      * rewrite Hf'. destruct c; reflexivity.
      * rewrite Hl'. destruct c; cbn; rewrite ?Hm, <- ?app_assoc; reflexivity.
      * rewrite Hw'. destruct c; reflexivity.
      * exact Hm'.
Qed.

End conn_pool_mu_free_list.

(** C7.  The free list of [ConnPool] is first in, first out.  [Close]
    with room in the list puts the connection at the end and touches
    neither the counter nor the log.  [Get] on a non-empty list asks the
    validator about the head, whatever the answer; when the validator
    accepts, [Get] returns the head, leaves the tail as the free list and
    the counter as it was.  So connections returned to an empty list come
    back from [Get] in the order they were returned. *)
Theorem C7_free_list_is_fifo :
  forall W io_Close (s : conn_pool.State W),
    conn_pool.m s = false ->
    (forall h,
       len (conn_pool.free (conn_pool.pool s))
         < conn_pool.MaxIdle (conn_pool.pool s) ->
       exists s',
         conn_pool.Close io_Close (Some h) s = Returned None s' /\
         conn_pool.free (conn_pool.pool s')
           = conn_pool.free (conn_pool.pool s) ++ [Some h] /\
         conn_pool.conns (conn_pool.pool s')
           = conn_pool.conns (conn_pool.pool s) /\
         conn_pool.log s' = conn_pool.log s) /\
    (forall ping c rest,
       conn_pool.Ping (conn_pool.pool s) = Some ping ->
       conn_pool.free (conn_pool.pool s) = c :: rest ->
       (exists evs,
          conn_pool.log (state_of (conn_pool.Get io_Close s))
          = conn_pool.log s ++ Event (CallPing c) true :: evs) /\
       (forall w',
          ping c (conn_pool.world s) = (None, w') ->
          exists s',
            conn_pool.Get io_Close s = Returned (c, None) s' /\
            conn_pool.free (conn_pool.pool s') = rest /\
            conn_pool.conns (conn_pool.pool s')
              = conn_pool.conns (conn_pool.pool s))) /\
    (forall ping (hs : list Handle),
       conn_pool.Ping (conn_pool.pool s) = Some ping ->
       (forall c w, fst (ping c w) = None) ->
       conn_pool.free (conn_pool.pool s) = [] ->
       len hs <= conn_pool.MaxIdle (conn_pool.pool s) ->
       exists s',
         (conn_pool.Closes io_Close (map Some hs) ;;
          conn_pool.Gets io_Close (List.length hs)) s
         = Returned (map (fun h => (Some h, None)) hs) s' /\
         conn_pool.free (conn_pool.pool s') = [] /\
         conn_pool.conns (conn_pool.pool s')
           = conn_pool.conns (conn_pool.pool s)).
Proof.
  intros W io_Close s Hm. split; [ | split ].
  - intros h Hroom. eexists. split.
    + apply conn_pool_Close_appends; assumption.
    + cbn. auto.
  - intros ping c rest Hp Hf. split.
    + eapply conn_pool_Get_candidate_is_head; eassumption.
    + intros w' Hok. eexists. split.
      * eapply conn_pool_Get_reused_accepted; eassumption.
      * cbn. auto.
  - intros ping hs Hp Hok Hf Hroom.
    unfold bind. rewrite conn_pool_Closes_append
      by (auto; rewrite Hf; unfold len in *; cbn; lia).
    rewrite Hf. cbn [app].
    destruct (conn_pool_Gets_pop W io_Close (map Some hs) []
                (conn_pool.set_free (map Some hs) s) ping)
      as (s' & HG & Hf' & Hc' & _); auto.
    + cbn. rewrite app_nil_r. reflexivity.
    + exists s'. rewrite length_map, map_map in HG. auto.
Qed.

Lemma C7_free_list_is_fifo_witness :
  exists s',
    (conn_pool.Closes Sample.closes (map Some [4%nat; 2%nat; 9%nat]) ;;
     conn_pool.Gets Sample.closes 3)
      (conn_pool.fresh "peer" 3 3 (Some Sample.opens) (Some Sample.accepts)
         0%nat)
    = Returned [(Some 4%nat, None); (Some 2%nat, None); (Some 9%nat, None)]
        s' /\
    conn_pool.free (conn_pool.pool s') = [] /\
    conn_pool.conns (conn_pool.pool s') = 0.
Proof.
  refine (proj2 (proj2
            (C7_free_list_is_fifo nat Sample.closes
               (conn_pool.fresh "peer" 3 3 (Some Sample.opens)
                  (Some Sample.accepts) 0%nat) _))
            Sample.accepts [4%nat; 2%nat; 9%nat] _ _ _ _);
    reflexivity.
Defined.

(** C6.  Discarding takes one off the counter only while the counter is
    positive: after [CloseClean] (and after [Close] with nil under the
    package mutex) the counter is one less if it was positive and
    unchanged otherwise.  Discarding any connections any number of times
    from a counter at or above zero ends on the larger of zero and the
    counter less the number of calls, never below zero.  [CloseClean]
    closes every connection that is not nil, whatever the counter: the
    call is in the log and the world is the one [conn.Close()] leaves.
    [Close] with nil has nothing to close and leaves world and log as
    they were. *)
Theorem C6_discard_guarded_at_zero :
  (forall W io_Close (s : conn_pool_mu.State W),
     conn_pool_mu.Mutex (conn_pool_mu.pool s) = false ->
     is_int (conn_pool_mu.conns (conn_pool_mu.pool s)) ->
     (forall conn,
        exists s',
          conn_pool_mu.CloseClean io_Close conn s = Returned None s' /\
          conn_pool_mu.conns (conn_pool_mu.pool s')
            = guarded_pred (conn_pool_mu.conns (conn_pool_mu.pool s)) /\
          conn_pool_mu.log s'
            = conn_pool_mu.log s ++ close_calls false [conn] /\
          conn_pool_mu.world s'
            = closed_world io_Close [conn] (conn_pool_mu.world s)) /\
     (forall cs,
        0 <= conn_pool_mu.conns (conn_pool_mu.pool s) ->
        exists s',
          conn_pool_mu.CloseCleans io_Close cs s = Returned tt s' /\
          conn_pool_mu.conns (conn_pool_mu.pool s')
            = Z.max 0 (conn_pool_mu.conns (conn_pool_mu.pool s) - len cs) /\
          0 <= conn_pool_mu.conns (conn_pool_mu.pool s') /\
          conn_pool_mu.free (conn_pool_mu.pool s')
            = conn_pool_mu.free (conn_pool_mu.pool s) /\
          conn_pool_mu.log s' = conn_pool_mu.log s ++ close_calls false cs /\
          conn_pool_mu.world s'
            = closed_world io_Close cs (conn_pool_mu.world s))) /\
  (forall W io_Close (s : conn_pool.State W),
     conn_pool.m s = false ->
     is_int (conn_pool.conns (conn_pool.pool s)) ->
     (exists s',
        conn_pool.Close io_Close nil s = Returned None s' /\
        conn_pool.conns (conn_pool.pool s')
          = guarded_pred (conn_pool.conns (conn_pool.pool s)) /\
        conn_pool.log s' = conn_pool.log s /\
        conn_pool.world s' = conn_pool.world s) /\
     (forall n,
        0 <= conn_pool.conns (conn_pool.pool s) ->
        exists s',
          conn_pool.Closes io_Close (repeat nil n) s = Returned tt s' /\
          conn_pool.conns (conn_pool.pool s')
            = Z.max 0 (conn_pool.conns (conn_pool.pool s) - Z.of_nat n) /\
          0 <= conn_pool.conns (conn_pool.pool s') /\
          conn_pool.free (conn_pool.pool s')
            = conn_pool.free (conn_pool.pool s) /\
          conn_pool.log s' = conn_pool.log s /\
          conn_pool.world s' = conn_pool.world s)).
Proof.
  split.
  - intros W io_Close s Hm Hc. split.
    + intros conn. eexists. split.
      * apply conn_pool_mu_CloseClean_state; assumption.
      * cbn. split; [ reflexivity | ].
        destruct conn; cbn; rewrite ?Hm, ?app_nil_r; split; reflexivity.
    + intros cs Hpos.
      destruct (conn_pool_mu_CloseCleans_state W io_Close cs s Hm)
        as (s' & HC & Hc' & Hf' & Hl' & Hw' & _).
      { unfold is_int in Hc. lia. }
      exists s'. repeat split; try assumption. lia.
  - intros W io_Close s Hm Hc. split.
    + eexists. split.
      * apply conn_pool_Close_nil; assumption.
      * cbn. repeat split; reflexivity.
    + intros n Hpos. eexists. split.
      * apply conn_pool_Closes_nil; [ assumption | ].
        unfold is_int in Hc. lia.
      * cbn. repeat split; lia.
Qed.

Lemma C6_discard_guarded_witness :
  exists s',
    conn_pool_mu.CloseCleans (fun (_ : Handle) (w : Sample.World) => S w)
      [Some 0%nat; Some 0%nat; nil]
      (conn_pool_mu.mkState
         (conn_pool_mu.mkConnPool false (Some Sample.opens)
            (Some Sample.accepts) "peer" 2 2 1 [])
         1%nat [])
    = Returned tt s' /\
    conn_pool_mu.conns (conn_pool_mu.pool s') = 0 /\
    0 <= conn_pool_mu.conns (conn_pool_mu.pool s') /\
    conn_pool_mu.free (conn_pool_mu.pool s') = [] /\
    conn_pool_mu.log s' = [Event (CallClose 0%nat) false;
                           Event (CallClose 0%nat) false] /\
    conn_pool_mu.world s' = 3%nat.
Proof.
  refine (proj2 (proj1 C6_discard_guarded_at_zero nat
                   (fun (_ : Handle) (w : Sample.World) => S w)
                   (conn_pool_mu.mkState
                      (conn_pool_mu.mkConnPool false (Some Sample.opens)
                         (Some Sample.accepts) "peer" 2 2 1 [])
                      1%nat []) _ _)
            [Some 0%nat; Some 0%nat; nil] _).
  - reflexivity.
  - unfold is_int, int_min, int_max; cbn; lia.
  - cbn; lia.
Defined.

(** C9, as stated, fails on a free list with room for one connection
    only.  The first return appends the connection; the second finds the
    list full and takes the other branch: the connection is closed (by
    [Close]; [Release] closes nothing), the counter goes down by one and
    the list holds the connection once. *)
Lemma C9_room_for_one_appends_once :
  (let s := conn_pool.mkState
              (conn_pool.mkConnPool (Some Sample.opens) (Some Sample.accepts)
                 "peer" 1 1 1 [])
              false 1%nat [] in
   len (conn_pool.free (conn_pool.pool s))
     < conn_pool.MaxIdle (conn_pool.pool s) /\
   (exists s',
      (conn_pool.Close Sample.closes (Some 0%nat) ;;
       conn_pool.Close Sample.closes (Some 0%nat)) s = Returned None s' /\
      conn_pool.free (conn_pool.pool s') = [Some 0%nat] /\
      conn_pool.conns (conn_pool.pool s') = 0 /\
      conn_pool.log s' = [Event (CallClose 0%nat) true]) /\
   ~ (exists s',
        (conn_pool.Close Sample.closes (Some 0%nat) ;;
         conn_pool.Close Sample.closes (Some 0%nat)) s = Returned None s' /\
        conn_pool.free (conn_pool.pool s')
        = conn_pool.free (conn_pool.pool s) ++ [Some 0%nat; Some 0%nat])) /\
  (let s := conn_pool_mu.mkState
              (conn_pool_mu.mkConnPool false (Some Sample.opens)
                 (Some Sample.accepts) "peer" 1 1 1 [])
              1%nat [] in
   len (conn_pool_mu.free (conn_pool_mu.pool s))
     < conn_pool_mu.MaxIdle (conn_pool_mu.pool s) /\
   (exists s',
      (conn_pool_mu.Release (Some 0%nat) ;;
       conn_pool_mu.Release (Some 0%nat)) s = Returned None s' /\
      conn_pool_mu.free (conn_pool_mu.pool s') = [Some 0%nat] /\
      conn_pool_mu.conns (conn_pool_mu.pool s') = 0 /\
      conn_pool_mu.log s' = []) /\
   ~ (exists s',
        (conn_pool_mu.Release (Some 0%nat) ;;
         conn_pool_mu.Release (Some 0%nat)) s = Returned None s' /\
        conn_pool_mu.free (conn_pool_mu.pool s')
        = conn_pool_mu.free (conn_pool_mu.pool s)
          ++ [Some 0%nat; Some 0%nat])).
Proof.
  split; cbn zeta; (split; [ reflexivity | split ]).
  - eexists. split; [ vm_compute; reflexivity | repeat split; reflexivity ].
  - intros (s' & Hrun & Hfree). vm_compute in Hrun.
    injection Hrun as <-. discriminate Hfree.
  - eexists. split; [ vm_compute; reflexivity | repeat split; reflexivity ].
  - intros (s' & Hrun & Hfree). vm_compute in Hrun.
    injection Hrun as <-. discriminate Hfree.
Qed.

(** C9.  Returning a connection does not look whether the free list holds
    it already.  Returned twice in a row while the list has room at both
    calls, the connection is appended twice; the counter and the log stay
    as they were.  A free list that starts with the same connection twice
    serves it to two calls of [Get] in a row, if the validator accepts it.
    Both for [Close] under the package mutex and for [Release]. *)
Theorem C9_double_release_double_handout :
  (forall W io_Close (s : conn_pool.State W) h,
     conn_pool.m s = false ->
     (len (conn_pool.free (conn_pool.pool s))
        < conn_pool.MaxIdle (conn_pool.pool s) ->
      len (conn_pool.free (conn_pool.pool s) ++ [Some h])
        < conn_pool.MaxIdle (conn_pool.pool s) ->
      exists s',
        (conn_pool.Close io_Close (Some h) ;;
         conn_pool.Close io_Close (Some h)) s = Returned None s' /\
        conn_pool.free (conn_pool.pool s')
          = conn_pool.free (conn_pool.pool s) ++ [Some h; Some h] /\
        conn_pool.conns (conn_pool.pool s')
          = conn_pool.conns (conn_pool.pool s) /\
        conn_pool.log s' = conn_pool.log s) /\
     (forall ping rest,
        conn_pool.Ping (conn_pool.pool s) = Some ping ->
        (forall w, fst (ping (Some h) w) = None) ->
        conn_pool.free (conn_pool.pool s) = Some h :: Some h :: rest ->
        exists s',
          (r1 <- conn_pool.Get io_Close ;;
           r2 <- conn_pool.Get io_Close ;;
           ret (r1, r2)) s
          = Returned ((Some h, None), (Some h, None)) s' /\
          conn_pool.free (conn_pool.pool s') = rest)) /\
  (forall W io_Close (s : conn_pool_mu.State W) h,
     conn_pool_mu.Mutex (conn_pool_mu.pool s) = false ->
     (len (conn_pool_mu.free (conn_pool_mu.pool s))
        < conn_pool_mu.MaxIdle (conn_pool_mu.pool s) ->
      len (conn_pool_mu.free (conn_pool_mu.pool s) ++ [Some h])
        < conn_pool_mu.MaxIdle (conn_pool_mu.pool s) ->
      exists s',
        (conn_pool_mu.Release (Some h) ;;
         conn_pool_mu.Release (Some h)) s = Returned None s' /\
        conn_pool_mu.free (conn_pool_mu.pool s')
          = conn_pool_mu.free (conn_pool_mu.pool s) ++ [Some h; Some h] /\
        conn_pool_mu.conns (conn_pool_mu.pool s')
          = conn_pool_mu.conns (conn_pool_mu.pool s) /\
        conn_pool_mu.log s' = conn_pool_mu.log s) /\
     (forall ping rest,
        conn_pool_mu.Ping (conn_pool_mu.pool s) = Some ping ->
        (forall w, fst (ping (Some h) w) = None) ->
        conn_pool_mu.free (conn_pool_mu.pool s) = Some h :: Some h :: rest ->
        exists s',
          (r1 <- conn_pool_mu.Get io_Close ;;
           r2 <- conn_pool_mu.Get io_Close ;;
           ret (r1, r2)) s
          = Returned ((Some h, None), (Some h, None)) s' /\
          conn_pool_mu.free (conn_pool_mu.pool s') = rest)).
Proof.
  split.
  - intros W io_Close s h Hm. split.
    + intros Hroom1 Hroom2. unfold bind.
      rewrite conn_pool_Close_appends by assumption.
      rewrite conn_pool_Close_appends by assumption.
      eexists. split; [ reflexivity | ]. cbn.
      rewrite <- app_assoc. auto.
    + intros ping rest Hp Hok Hf. unfold bind.
      pose proof (Hok (conn_pool.world s)) as Hok1.
      destruct (ping (Some h) (conn_pool.world s)) as [r1 w1] eqn:Hp1.
      cbn in Hok1. subst r1.
      rewrite (conn_pool_Get_reused_accepted W io_Close s ping (Some h)
                 (Some h :: rest) w1) by assumption.
      pose proof (Hok w1) as Hok2.
      destruct (ping (Some h) w1) as [r2 w2] eqn:Hp2.
      cbn in Hok2. subst r2.
      erewrite (conn_pool_Get_reused_accepted W io_Close _ ping (Some h)
                  rest w2) by (try reflexivity; assumption).
      eexists. split; reflexivity.
  - intros W io_Close s h Hm. split.
    + intros Hroom1 Hroom2. unfold bind.
      rewrite conn_pool_mu_Release_appends by assumption.
      rewrite conn_pool_mu_Release_appends by assumption.
      eexists. split; [ reflexivity | ]. cbn.
      rewrite <- app_assoc. auto.
    + intros ping rest Hp Hok Hf. unfold bind.
      pose proof (Hok (conn_pool_mu.world s)) as Hok1.
      destruct (ping (Some h) (conn_pool_mu.world s)) as [r1 w1] eqn:Hp1.
      cbn in Hok1. subst r1.
      rewrite (conn_pool_mu_Get_reused_accepted W io_Close s ping (Some h)
                 (Some h :: rest) w1) by assumption.
      pose proof (Hok w1) as Hok2.
      destruct (ping (Some h) w1) as [r2 w2] eqn:Hp2.
      cbn in Hok2. subst r2.
      erewrite (conn_pool_mu_Get_reused_accepted W io_Close _ ping (Some h)
                  rest w2) by (try reflexivity; assumption).
      eexists. split; reflexivity.
Qed.

Lemma C9_double_release_witness :
  (exists s',
     (conn_pool.Close Sample.closes (Some 0%nat) ;;
      conn_pool.Close Sample.closes (Some 0%nat))
       (conn_pool.mkState
          (conn_pool.mkConnPool (Some Sample.opens) (Some Sample.accepts)
             "peer" 2 2 1 [])
          false 1%nat [])
     = Returned None s' /\
     conn_pool.free (conn_pool.pool s') = [Some 0%nat; Some 0%nat] /\
     conn_pool.conns (conn_pool.pool s') = 1 /\
     conn_pool.log s' = []) /\
  (exists s',
     (r1 <- conn_pool_mu.Get Sample.closes ;;
      r2 <- conn_pool_mu.Get Sample.closes ;;
      ret (r1, r2))
       (conn_pool_mu.mkState
          (conn_pool_mu.mkConnPool false (Some Sample.opens)
             (Some Sample.accepts) "peer" 2 2 1 [Some 0%nat; Some 0%nat])
          1%nat [])
     = Returned ((Some 0%nat, None), (Some 0%nat, None)) s' /\
     conn_pool_mu.free (conn_pool_mu.pool s') = []).
Proof.
  destruct C9_double_release_double_handout as [Hpool Hmu].
  split.
  - refine (proj1 (Hpool nat Sample.closes _ 0%nat _) _ _);
      reflexivity.
  - refine (proj2 (Hmu nat Sample.closes _ 0%nat _) Sample.accepts [] _ _ _);
      reflexivity.
Defined.

(** ** The mutex during Get *)

(** Close the goal [log' = log ++ ?evs /\ Forall P ?evs] once the run has
    been split into its cases. *)
Ltac give_events :=
  first
    [ eexists; split;
      [ rewrite <- ?app_assoc; cbn; reflexivity
      | repeat constructor ]
    | exists []; split;
      [ rewrite app_nil_r; reflexivity
      | constructor ] ].

Lemma conn_pool_Get_calls_locked W io_Close (s : conn_pool.State W) :
  conn_pool.m s = false ->
  exists evs,
    conn_pool.log (state_of (conn_pool.Get io_Close s))
    = conn_pool.log s ++ evs /\
    Forall (fun ev => ev_locked ev = true) evs.
Proof.
  destruct s as [[nw png nm mc mi c f] mu w l]; cbn.
  intros ->. run_ops.
  repeat split_run; give_events.
Qed.

Lemma tcp_connpool_Get_calls_locked W net_Close rd wr resolve dial
    (s : tcp_connpool.State W) timeout :
  tcp_connpool.m s = false ->
  exists evs,
    tcp_connpool.log
      (state_of (tcp_connpool.Get net_Close rd wr resolve dial timeout s))
    = tcp_connpool.log s ++ evs /\
    Forall (fun ev => ev_locked ev = true) evs.
Proof.
  destruct s as [[nm mc mi c dt f pg] mu w l]; cbn.
  intros ->. run_ops.
  repeat split_run; give_events.
Qed.

Lemma conn_pool_mu_Get_calls W io_Close (s : conn_pool_mu.State W) :
  conn_pool_mu.Mutex (conn_pool_mu.pool s) = false ->
  exists evs,
    conn_pool_mu.log (state_of (conn_pool_mu.Get io_Close s))
    = conn_pool_mu.log s ++ evs /\
    Forall locked_for_factory_only evs.
Proof.
  destruct s as [[mu nw png nm mc mi c f] w l]; cbn.
  intros ->. run_ops.
  repeat split_run; give_events.
Qed.

(** C8, as stated, fails in all three pools: the first [Get] on a new
    pool calls the factory with the mutex held, and the two pools under
    the package mutex call the validator with it held as well. *)
Lemma C8_factory_called_under_lock :
  ~ outside_lock
      (conn_pool.log
         (state_of
            (conn_pool.Get Sample.closes
               (conn_pool.fresh "peer" 1 1 (Some Sample.opens)
                  (Some Sample.accepts) 0%nat)))) /\
  ~ outside_lock
      (tcp_connpool.log
         (state_of
            (tcp_connpool.Get Sample.closes Sample.sets_deadline
               Sample.sets_deadline Sample.resolves Sample.dials 0
               (tcp_connpool.mkState
                  (tcp_connpool.NewTcpConnPool "peer:80" 1 1 100
                     (Some Sample.accepts))
                  false 0%nat [])))) /\
  ~ outside_lock
      (conn_pool_mu.log
         (state_of
            (conn_pool_mu.Get Sample.closes
               (conn_pool_mu.mkState
                  (conn_pool_mu.mkConnPool false (Some Sample.opens)
                     (Some Sample.accepts) "peer" 1 1 0 [])
                  0%nat [])))).
Proof.
  split; [ | split ]; intros Hout.
  - specialize (Hout (Event CallNew true)). cbn in Hout.
    discriminate Hout; auto.
  - specialize (Hout (Event (CallResolveTCPAddr "peer:80") true)).
    cbn in Hout. discriminate Hout; auto.
  - specialize (Hout (Event CallNew true)). cbn in Hout.
    discriminate Hout; auto.
Qed.

(** C8, amended.  [Get] of the two pools under the package mutex makes
    every outside call, factory and validator included, with the mutex
    held.  [Get] of the pool with its own mutex calls the factory with the
    mutex held and makes every other call, the validator's and the
    closing of a rejected candidate, after releasing it. *)
Theorem C8_lock_released_only_before_validator :
  (forall W io_Close (s : conn_pool.State W),
     conn_pool.m s = false ->
     exists evs,
       conn_pool.log (state_of (conn_pool.Get io_Close s))
       = conn_pool.log s ++ evs /\
       Forall (fun ev => ev_locked ev = true) evs) /\
  (forall W net_Close rd wr resolve dial (s : tcp_connpool.State W) timeout,
     tcp_connpool.m s = false ->
     exists evs,
       tcp_connpool.log
         (state_of (tcp_connpool.Get net_Close rd wr resolve dial timeout s))
       = tcp_connpool.log s ++ evs /\
       Forall (fun ev => ev_locked ev = true) evs) /\
  (forall W io_Close (s : conn_pool_mu.State W),
     conn_pool_mu.Mutex (conn_pool_mu.pool s) = false ->
     exists evs,
       conn_pool_mu.log (state_of (conn_pool_mu.Get io_Close s))
       = conn_pool_mu.log s ++ evs /\
       Forall locked_for_factory_only evs).
Proof.
  split; [ | split ]; intros.
  - apply conn_pool_Get_calls_locked; assumption.
  - apply tcp_connpool_Get_calls_locked; assumption.
  - apply conn_pool_mu_Get_calls; assumption.
Qed.

Lemma C8_lock_released_witness :
  exists evs,
    conn_pool_mu.log
      (state_of
         (conn_pool_mu.Get Sample.closes
            (conn_pool_mu.mkState
               (conn_pool_mu.mkConnPool false (Some Sample.opens)
                  (Some (Sample.rejects (conn_pool_mu.ErrOther "dead")))
                  "peer" 1 1 0 [])
               0%nat [])))
    = [] ++ evs /\
    Forall locked_for_factory_only evs.
Proof.
  apply (proj2 (proj2 C8_lock_released_only_before_validator) nat
           Sample.closes).
  reflexivity.
Defined.

(** ** Destroy *)

Lemma conn_pool_close_range W io_Close (cs : list Conn)
    (s : conn_pool.State W) :
  range cs (fun conn =>
    match conn with
    | Some _ => conn_pool.call_Close W io_Close conn
    | None => ret tt
    end) s
  = Returned tt
      {| conn_pool.pool := conn_pool.pool s;
         conn_pool.m := conn_pool.m s;
         conn_pool.world := closed_world io_Close cs (conn_pool.world s);
         conn_pool.log
           := conn_pool.log s ++ close_calls (conn_pool.m s) cs |}.
Proof.
  revert s. induction cs as [ | [h | ] cs IH ]; intros s.
  - destruct s; cbn. rewrite app_nil_r. reflexivity.
  - cbn. unfold bind. cbn. rewrite IH. cbn.
    rewrite <- app_assoc. reflexivity.
  - cbn. unfold bind. cbn. apply IH.
Qed.

Lemma conn_pool_Destroy_state W io_Close (s : conn_pool.State W) :
  conn_pool.m s = false ->
  conn_pool.Destroy io_Close s
  = Returned tt
      {| conn_pool.pool := conn_pool.pool s;
         conn_pool.m := false;
         conn_pool.world
           := closed_world io_Close (conn_pool.free (conn_pool.pool s))
                (conn_pool.world s);
         conn_pool.log
           := conn_pool.log s
              ++ close_calls true (conn_pool.free (conn_pool.pool s)) |}.
Proof.
  intros Hm. unfold conn_pool.Destroy, conn_pool.Lock, conn_pool.Unlock,
    conn_pool.load, defer, bind, ret.
  rewrite Hm. cbn. rewrite conn_pool_close_range. cbn. reflexivity.
Qed.

(** C3, evaluated where it breaks.  [Destroy] closes the two connections
    of the free list and changes nothing in the pool: the free list still
    holds them.  The next [Get] hands out the first, closed as it is, when
    the validator does not notice; on a pool destroyed with an empty list
    the next [Get] opens a connection as if nothing had happened.  Both
    under the package mutex and with the pool's own. *)
Theorem C3_pool_serves_after_Destroy :
  (exists s',
     (conn_pool.Destroy Sample.closes ;; conn_pool.Get Sample.closes)
       (conn_pool.mkState
          (conn_pool.mkConnPool (Some Sample.opens) (Some Sample.accepts)
             "peer" 2 2 2 [Some 0%nat; Some 1%nat])
          false 2%nat [])
     = Returned (Some 0%nat, None) s' /\
     conn_pool.log s' = [Event (CallClose 0%nat) true;
                         Event (CallClose 1%nat) true;
                         Event (CallPing (Some 0%nat)) true] /\
     conn_pool.free (conn_pool.pool s') = [Some 1%nat] /\
     conn_pool.conns (conn_pool.pool s') = 2) /\
  (exists s',
     (conn_pool.Destroy Sample.closes ;; conn_pool.Get Sample.closes)
       (conn_pool.fresh "peer" 1 1 (Some Sample.opens) (Some Sample.accepts)
          0%nat)
     = Returned (Some 0%nat, None) s' /\
     conn_pool.log s' = [Event CallNew true;
                         Event (CallPing (Some 0%nat)) true] /\
     conn_pool.conns (conn_pool.pool s') = 1) /\
  (exists s',
     (conn_pool_mu.Destroy Sample.closes ;; conn_pool_mu.Get Sample.closes)
       (conn_pool_mu.mkState
          (conn_pool_mu.mkConnPool false (Some Sample.opens)
             (Some Sample.accepts) "peer" 2 2 2 [Some 0%nat; Some 1%nat])
          2%nat [])
     = Returned (Some 0%nat, None) s' /\
     conn_pool_mu.log s' = [Event (CallClose 0%nat) true;
                            Event (CallClose 1%nat) true;
                            Event (CallPing (Some 0%nat)) false] /\
     conn_pool_mu.free (conn_pool_mu.pool s') = [Some 1%nat] /\
     conn_pool_mu.conns (conn_pool_mu.pool s') = 2).
Proof.
  repeat split; eexists;
    (split; [ vm_compute; reflexivity | repeat split; reflexivity ]).
Qed.

(** ** The bounds on counter and free list *)

Section conn_pool_bounds.
Import conn_pool.
Variable W : Type.
Variable io_Close : Handle -> W -> W.

Local Abbreviation conn_pool_steady := (@conn_pool_steady W).

Lemma wrap_succ (z : Z) : 0 <= z < int_max -> wrap (z + 1) = z + 1.
Proof.
  intros H. apply wrap_is_int. unfold is_int, int_min, int_max in *. lia.
Qed.

Ltac bounds_arith :=
  repeat match goal with
         | H : _ && _ = true |- _ => apply andb_true_iff in H; destruct H
         | H : _ && _ = false |- _ => apply andb_false_iff in H
         | H : (_ <=? _) = true |- _ => apply Z.leb_le in H
         | H : (_ <=? _) = false |- _ => apply Z.leb_gt in H
         | H : (_ <? _) = true |- _ => apply Z.ltb_lt in H
         | H : (_ <? _) = false |- _ => apply Z.ltb_ge in H
         | H : (_ =? _) = true |- _ => apply Z.eqb_eq in H
         | H : (_ =? _) = false |- _ => apply Z.eqb_neq in H
         | H : negb _ = true |- _ => apply negb_true_iff in H
         | H : negb _ = false |- _ => apply negb_false_iff in H
         end;
  unfold len, int_max in *; cbn [List.length] in *;
  rewrite ?length_app in *; cbn [List.length] in *;
  try lia.

Lemma conn_pool_Get_steady (s : State W) :
  conn_pool_steady s ->
  conn_pool_steady (state_of (Get io_Close s)) /\
  MaxConns (pool (state_of (Get io_Close s))) = MaxConns (pool s) /\
  MaxIdle (pool (state_of (Get io_Close s))) = MaxIdle (pool s).
Proof.
  destruct s as [[nw png nm mc mi c f] mu w l].
  unfold conn_pool_steady, bounds; cbn.
  intros (-> & ((Hc0 & Hc1) & (Hf0 & Hf1)) & Hmax). run_ops.
  repeat split_run;
    repeat match goal with
           | |- _ /\ _ => split
           | |- _ = _ => reflexivity
           end;
    rewrite ?wrap_succ, ?wrap_pred
      by (unfold is_int, int_min; bounds_arith);
    bounds_arith.
Qed.

Lemma conn_pool_Close_steady (s : State W) conn :
  conn_pool_steady s ->
  evicts_at_zero (OpClose conn) s = false ->
  conn_pool_steady (state_of (Close io_Close conn s)) /\
  MaxConns (pool (state_of (Close io_Close conn s))) = MaxConns (pool s) /\
  MaxIdle (pool (state_of (Close io_Close conn s))) = MaxIdle (pool s).
Proof.
  destruct s as [[nw png nm mc mi c f] mu w l].
  unfold conn_pool_steady, bounds, evicts_at_zero; cbn.
  intros (-> & ((Hc0 & Hc1) & (Hf0 & Hf1)) & Hmax) Hev. run_ops.
  destruct conn as [h | ]; cbn;
    repeat split_run;
    repeat match goal with
           | |- _ /\ _ => split
           | |- _ = _ => reflexivity
           end;
    rewrite ?wrap_pred by (unfold is_int, int_min; bounds_arith);
    bounds_arith.
Qed.

Lemma conn_pool_Destroy_steady (s : State W) :
  conn_pool_steady s ->
  conn_pool_steady (state_of (Destroy io_Close s)) /\
  MaxConns (pool (state_of (Destroy io_Close s))) = MaxConns (pool s) /\
  MaxIdle (pool (state_of (Destroy io_Close s))) = MaxIdle (pool s).
Proof.
  intros (Hm & Hb & Hmax).
  rewrite conn_pool_Destroy_state by assumption. cbn.
  unfold conn_pool_steady. cbn. auto.
Qed.

Lemma conn_pool_exec_steady (o : op) (s : State W) :
  conn_pool_steady s ->
  evicts_at_zero o s = false ->
  conn_pool_steady (exec io_Close o s) /\
  MaxConns (pool (exec io_Close o s)) = MaxConns (pool s) /\
  MaxIdle (pool (exec io_Close o s)) = MaxIdle (pool s).
Proof.
  intros Hs Hev. destruct o as [ | conn | ]; cbn [exec].
  - apply conn_pool_Get_steady; assumption.
  - apply conn_pool_Close_steady; assumption.
  - apply conn_pool_Destroy_steady; assumption.
Qed.

Lemma conn_pool_run_steady (ops : list op) (s : State W) :
  conn_pool_steady s ->
  never_evicts_at_zero io_Close ops s = true ->
  conn_pool_steady (run io_Close ops s).
Proof.
  revert s. induction ops as [ | o ops IH ]; intros s Hs Hnever; cbn.
  - exact Hs.
  - cbn in Hnever. apply andb_true_iff in Hnever as [Hev Hrest].
    apply negb_true_iff in Hev.
    apply IH; [ | exact Hrest ].
    apply conn_pool_exec_steady; assumption.
Qed.

End conn_pool_bounds.

Lemma conn_pool_never_evicts_prefix W io_Close (k : nat)
    (ops : list conn_pool.op) (s : conn_pool.State W) :
  conn_pool.never_evicts_at_zero io_Close ops s = true ->
  conn_pool.never_evicts_at_zero io_Close (firstn k ops) s = true.
Proof.
  revert k s. induction ops as [ | o ops IH ]; intros k s Hnever.
  - rewrite firstn_nil. reflexivity.
  - destruct k as [ | k ]; [ reflexivity | ]. cbn in *.
    apply andb_true_iff in Hnever as [Hev Hrest].
    rewrite Hev. cbn. apply IH. exact Hrest.
Qed.

(** C2, as stated, fails twice over.  Nothing checks the maxima given to
    [NewConnPool]: with a negative one the bounds are broken before any
    call.  And [Close] of a live connection on a full free list takes one
    off a counter that is at zero. *)
Lemma C2_bounds_broken :
  ~ conn_pool.bounds
      (conn_pool.pool
         (conn_pool.run Sample.closes []
            (conn_pool.fresh "peer" (-1) 0 (Some Sample.opens)
               (Some Sample.accepts) 0%nat))) /\
  ~ conn_pool.bounds
      (conn_pool.pool
         (conn_pool.run Sample.closes [conn_pool.OpClose (Some 7%nat)]
            (conn_pool.fresh "peer" 1 0 (Some Sample.opens)
               (Some Sample.accepts) 0%nat))).
Proof.
  split; unfold conn_pool.bounds; vm_compute; intros [[H0 H1] _];
    [ apply H1 | apply H0 ]; reflexivity.
Qed.

(** C2, amended.  A pool made with maxima that are not negative keeps
    [0 <= conns <= MaxConns] and [0 <= len(free) <= MaxIdle] after every
    call of every sequence of [Get], [Close] (of a connection or of nil)
    and [Destroy] made one after the other, as long as no [Close] of a
    live connection meets a full free list with the counter at zero or
    below. *)
Theorem C2_bounds_kept_while_not_evicting_at_zero :
  forall W io_Close name max_conns max_idle new ping (w : W)
         (ops : list conn_pool.op) (k : nat),
    0 <= max_conns <= int_max ->
    0 <= max_idle ->
    conn_pool.never_evicts_at_zero io_Close ops
      (conn_pool.fresh name max_conns max_idle new ping w) = true ->
    conn_pool.bounds
      (conn_pool.pool
         (conn_pool.run io_Close (firstn k ops)
            (conn_pool.fresh name max_conns max_idle new ping w))).
Proof.
  intros W io_Close name max_conns max_idle new ping w ops k Hmc Hmi Hnever.
  apply (conn_pool_run_steady W io_Close (firstn k ops)
           (conn_pool.fresh name max_conns max_idle new ping w)).
  - unfold conn_pool_steady, conn_pool.bounds, len, int_max in *; cbn.
    repeat split; try reflexivity; lia.
  - apply conn_pool_never_evicts_prefix. exact Hnever.
Qed.

Lemma C2_bounds_kept_witness :
  conn_pool.bounds
    (conn_pool.pool
       (conn_pool.run Sample.closes
          (firstn 6
             [conn_pool.OpGet; conn_pool.OpGet; conn_pool.OpClose (Some 0%nat);
              conn_pool.OpClose (Some 1%nat); conn_pool.OpClose nil;
              conn_pool.OpDestroy; conn_pool.OpGet])
          (conn_pool.fresh "peer" 2 1 (Some Sample.opens)
             (Some Sample.accepts) 0%nat))).
Proof.
  apply (C2_bounds_kept_while_not_evicting_at_zero nat Sample.closes
           "peer" 2 1 (Some Sample.opens) (Some Sample.accepts) 0%nat).
  - unfold int_max; lia.
  - lia.
  - vm_compute. reflexivity.
Defined.

(** * Further properties of the pools *)

Lemma wrap_next (z : Z) : is_int z -> z < int_max -> wrap (z + 1) = z + 1.
Proof.
  intros H Hlt. apply wrap_is_int. unfold is_int, int_min, int_max in *. lia.
Qed.

(** ** Get when the factory fails or succeeds *)

(** X1.  When the factory fails, [Get] returns nil and the factory's
    error, also when the factory handed back a connection along with the
    error: that connection is neither closed nor kept.  The pool is left
    as it was, the validator is not called and the mutex is free again.
    For the [ConnPool] under the package mutex and for the one with its
    own mutex, which has an unlock of its own on this path. *)
Theorem X1_factory_error_leaves_pool_untouched :
  (forall W io_Close (s : conn_pool.State W) new c e w1,
     conn_pool.m s = false ->
     conn_pool.free (conn_pool.pool s) = [] ->
     conn_pool.conns (conn_pool.pool s)
       < conn_pool.MaxConns (conn_pool.pool s) ->
     conn_pool.New (conn_pool.pool s) = Some new ->
     new (conn_pool.world s) = ((c, Some e), w1) ->
     conn_pool.Get io_Close s
     = Returned (nil, Some e)
         {| conn_pool.pool := conn_pool.pool s;
            conn_pool.m := false;
            conn_pool.world := w1;
            conn_pool.log := conn_pool.log s ++ [Event CallNew true] |}) /\
  (forall W io_Close (s : conn_pool_mu.State W) new c e w1,
     conn_pool_mu.Mutex (conn_pool_mu.pool s) = false ->
     conn_pool_mu.free (conn_pool_mu.pool s) = [] ->
     conn_pool_mu.conns (conn_pool_mu.pool s)
       < conn_pool_mu.MaxConns (conn_pool_mu.pool s) ->
     conn_pool_mu.New (conn_pool_mu.pool s) = Some new ->
     new (conn_pool_mu.world s) = ((c, Some e), w1) ->
     conn_pool_mu.Get io_Close s
     = Returned (nil, Some e)
         {| conn_pool_mu.pool := conn_pool_mu.pool s;
            conn_pool_mu.world := w1;
            conn_pool_mu.log := conn_pool_mu.log s ++ [Event CallNew true] |}).
Proof.
  split.
  - intros W io_Close [[nw png nm mc mi c0 f] mu w l] new c e w1; cbn.
    intros -> -> Hlt -> Hn. run_ops.
    replace (mc <=? c0) with false by (symmetry; apply Z.leb_gt; assumption).
    cbn. rewrite Hn. reflexivity.
  - intros W io_Close [[mu nw png nm mc mi c0 f] w l] new c e w1; cbn.
    intros -> -> Hlt -> Hn. run_ops.
    replace (mc <=? c0) with false by (symmetry; apply Z.leb_gt; assumption).
    cbn. rewrite Hn. reflexivity.
Qed.

Lemma X1_factory_error_witness :
  conn_pool.Get Sample.closes
    (conn_pool.fresh "peer" 1 1
       (Some (fun w : Sample.World =>
                ((Some w, Some (conn_pool.ErrOther "handshake")), S w)))
       (Some Sample.accepts) 0%nat)
  = Returned (nil, Some (conn_pool.ErrOther "handshake"))
      (conn_pool.mkState
         (conn_pool.mkConnPool
            (Some (fun w : Sample.World =>
                     ((Some w, Some (conn_pool.ErrOther "handshake")), S w)))
            (Some Sample.accepts) "peer" 1 1 0 [])
         false 1%nat [Event CallNew true]).
Proof.
  refine (proj1 X1_factory_error_leaves_pool_untouched nat Sample.closes
            _ _ (Some 0%nat) _ 1%nat _ _ _ _ _); reflexivity.
Defined.

(** X2.  [TcpConnPool.Get] with an empty free list and the counter below
    the maximum opens a connection itself.  When resolving the address
    fails it does not dial; when dialling fails it returns the dial
    error.  Either way [Get] returns nil and that error, the pool is left
    as it was and the validator is not called.  The dial timeout is
    [dial_timeout] in milliseconds, as a 64-bit count of nanoseconds. *)
Theorem X2_open_error_leaves_pool_untouched :
  forall W net_Close rd wr resolve dial (s : tcp_connpool.State W) timeout,
    tcp_connpool.m s = false ->
    tcp_connpool.free (tcp_connpool.pool s) = [] ->
    tcp_connpool.conns (tcp_connpool.pool s)
      < tcp_connpool.max_conns (tcp_connpool.pool s) ->
    let addr := tcp_connpool.name (tcp_connpool.pool s) in
    let d := wrap (tcp_connpool.dial_timeout (tcp_connpool.pool s)
                   * tcp_connpool.Millisecond) in
    (forall e w1,
       resolve addr (tcp_connpool.world s) = (Some e, w1) ->
       tcp_connpool.Get net_Close rd wr resolve dial timeout s
       = Returned (nil, Some e)
           {| tcp_connpool.pool := tcp_connpool.pool s;
              tcp_connpool.m := false;
              tcp_connpool.world := w1;
              tcp_connpool.log
                := tcp_connpool.log s
                   ++ [Event (CallResolveTCPAddr addr) true] |}) /\
    (forall c e w1 w2,
       resolve addr (tcp_connpool.world s) = (None, w1) ->
       dial addr d w1 = ((c, Some e), w2) ->
       tcp_connpool.Get net_Close rd wr resolve dial timeout s
       = Returned (nil, Some e)
           {| tcp_connpool.pool := tcp_connpool.pool s;
              tcp_connpool.m := false;
              tcp_connpool.world := w2;
              tcp_connpool.log
                := tcp_connpool.log s
                   ++ [Event (CallResolveTCPAddr addr) true;
                       Event (CallDialTimeout addr d) true] |}).
Proof.
  intros W net_Close rd wr resolve dial [[nm mc mi c0 dt f pg] mu w l] timeout;
    cbn.
  intros -> -> Hlt. split.
  - intros e w1 Hr. run_ops.
    replace (mc <=? c0) with false by (symmetry; apply Z.leb_gt; assumption).
    cbn. rewrite Hr. reflexivity.
  - intros c e w1 w2 Hr Hd. run_ops.
    replace (mc <=? c0) with false by (symmetry; apply Z.leb_gt; assumption).
    cbn. rewrite Hr. cbn. rewrite Hd. cbn.
    rewrite <- app_assoc. reflexivity.
Qed.

Lemma X2_open_error_witness :
  tcp_connpool.Get Sample.closes Sample.sets_deadline Sample.sets_deadline
    (fun _ (w : Sample.World) =>
       (Some (tcp_connpool.ErrOther "no such host"), w))
    Sample.dials 50
    (tcp_fresh "peer:80" 1 1 100 (Some Sample.accepts) 0%nat)
  = Returned (nil, Some (tcp_connpool.ErrOther "no such host"))
      (tcp_connpool.mkState
         (tcp_connpool.NewTcpConnPool "peer:80" 1 1 100 (Some Sample.accepts))
         false 0%nat [Event (CallResolveTCPAddr "peer:80") true]).
Proof.
  refine (proj1 (X2_open_error_leaves_pool_untouched nat Sample.closes
                   Sample.sets_deadline Sample.sets_deadline _ Sample.dials
                   _ 50 _ _ _) _ 0%nat _); reflexivity.
Defined.

(** X3.  With an empty free list and the counter below the maximum, a
    factory that succeeds and a validator that accepts, [Get] returns the
    connection just made and counts it: the counter goes up by one, the
    free list stays empty, and the factory and the validator have been
    called once each, in that order.  [Get] does not look at the
    connection: a factory answering nil with no error, and a validator
    accepting nil, give [(nil, nil)] counted as a connection.
    [TcpConnPool.Get] resolves, dials, and for a positive [timeout] sets
    the read and the write deadline before it validates. *)
Theorem X3_new_connection_is_counted :
  (forall W io_Close (s : conn_pool.State W) new ping conn w1 w2,
     conn_pool.m s = false ->
     conn_pool.free (conn_pool.pool s) = [] ->
     is_int (conn_pool.conns (conn_pool.pool s)) ->
     is_int (conn_pool.MaxConns (conn_pool.pool s)) ->
     conn_pool.conns (conn_pool.pool s)
       < conn_pool.MaxConns (conn_pool.pool s) ->
     conn_pool.New (conn_pool.pool s) = Some new ->
     conn_pool.Ping (conn_pool.pool s) = Some ping ->
     new (conn_pool.world s) = ((conn, None), w1) ->
     ping conn w1 = (None, w2) ->
     conn_pool.Get io_Close s
     = Returned (conn, None)
         {| conn_pool.pool
              := conn_pool.pool
                   (conn_pool.set_conns
                      (conn_pool.conns (conn_pool.pool s) + 1) s);
            conn_pool.m := false;
            conn_pool.world := w2;
            conn_pool.log
              := conn_pool.log s
                 ++ [Event CallNew true; Event (CallPing conn) true] |}) /\
  (forall W net_Close rd wr resolve dial (s : tcp_connpool.State W)
          timeout png h w1 w2 w3,
     tcp_connpool.m s = false ->
     tcp_connpool.free (tcp_connpool.pool s) = [] ->
     is_int (tcp_connpool.conns (tcp_connpool.pool s)) ->
     is_int (tcp_connpool.max_conns (tcp_connpool.pool s)) ->
     tcp_connpool.conns (tcp_connpool.pool s)
       < tcp_connpool.max_conns (tcp_connpool.pool s) ->
     tcp_connpool.ping (tcp_connpool.pool s) = Some png ->
     let addr := tcp_connpool.name (tcp_connpool.pool s) in
     let d := wrap (tcp_connpool.dial_timeout (tcp_connpool.pool s)
                    * tcp_connpool.Millisecond) in
     resolve addr (tcp_connpool.world s) = (None, w1) ->
     dial addr d w1 = ((Some h, None), w2) ->
     png (Some h) (with_deadlines rd wr timeout h w2) = (None, w3) ->
     tcp_connpool.Get net_Close rd wr resolve dial timeout s
     = Returned (Some h, None)
         {| tcp_connpool.pool
              := tcp_connpool.pool
                   (tcp_connpool.set_conns
                      (tcp_connpool.conns (tcp_connpool.pool s) + 1) s);
            tcp_connpool.m := false;
            tcp_connpool.world := w3;
            tcp_connpool.log
              := tcp_connpool.log s
                 ++ [Event (CallResolveTCPAddr addr) true;
                     Event (CallDialTimeout addr d) true]
                 ++ deadline_calls timeout h
                 ++ [Event (CallPing (Some h)) true] |}) /\
  (forall W io_Close (s : conn_pool_mu.State W) new ping conn w1 w2,
     conn_pool_mu.Mutex (conn_pool_mu.pool s) = false ->
     conn_pool_mu.free (conn_pool_mu.pool s) = [] ->
     is_int (conn_pool_mu.conns (conn_pool_mu.pool s)) ->
     is_int (conn_pool_mu.MaxConns (conn_pool_mu.pool s)) ->
     conn_pool_mu.conns (conn_pool_mu.pool s)
       < conn_pool_mu.MaxConns (conn_pool_mu.pool s) ->
     conn_pool_mu.New (conn_pool_mu.pool s) = Some new ->
     conn_pool_mu.Ping (conn_pool_mu.pool s) = Some ping ->
     new (conn_pool_mu.world s) = ((conn, None), w1) ->
     ping conn w1 = (None, w2) ->
     conn_pool_mu.Get io_Close s
     = Returned (conn, None)
         {| conn_pool_mu.pool
              := conn_pool_mu.pool
                   (conn_pool_mu.set_conns
                      (conn_pool_mu.conns (conn_pool_mu.pool s) + 1) s);
            conn_pool_mu.world := w2;
            conn_pool_mu.log
              := conn_pool_mu.log s
                 ++ [Event CallNew true; Event (CallPing conn) false] |}).
Proof.
  split; [ | split ].
  - intros W io_Close [[nw png nm mc mi c0 f] mu w l] new ping conn w1 w2; cbn.
    intros -> -> Hc Hmc Hlt -> -> Hn Hp. run_ops.
    replace (mc <=? c0) with false by (symmetry; apply Z.leb_gt; assumption).
    cbn. rewrite Hn. cbn. rewrite Hp. cbn.
    rewrite wrap_next, <- app_assoc;
      [ reflexivity | assumption | unfold is_int in Hmc; lia ].
  - intros W net_Close rd wr resolve dial [[nm mc mi c0 dt f pg] mu w l]
           timeout png h w1 w2 w3; cbn.
    intros -> -> Hc Hmc Hlt -> Hr Hd Hp.
    unfold with_deadlines, deadline_calls in *. run_ops.
    replace (mc <=? c0) with false by (symmetry; apply Z.leb_gt; assumption).
    cbn. rewrite Hr. cbn. rewrite Hd. cbn.
    destruct (0 <? timeout); cbn; rewrite Hp; cbn;
      (rewrite wrap_next;
       [ rewrite <- ?app_assoc; reflexivity
       | assumption | unfold is_int in Hmc; lia ]).
  - intros W io_Close [[mu nw png nm mc mi c0 f] w l] new ping conn w1 w2; cbn.
    intros -> -> Hc Hmc Hlt -> -> Hn Hp. run_ops.
    replace (mc <=? c0) with false by (symmetry; apply Z.leb_gt; assumption).
    cbn. rewrite Hn. cbn. rewrite Hp. cbn.
    rewrite wrap_next, <- app_assoc;
      [ reflexivity | assumption | unfold is_int in Hmc; lia ].
Qed.

Lemma X3_new_connection_witness :
  tcp_connpool.Get Sample.closes Sample.sets_deadline Sample.sets_deadline
    Sample.resolves Sample.dials 50
    (tcp_fresh "peer:80" 2 1 100 (Some Sample.accepts) 0%nat)
  = Returned (Some 0%nat, None)
      (tcp_connpool.mkState
         (tcp_connpool.mkTcpConnPool "peer:80" 2 1 1 100 []
            (Some Sample.accepts))
         false 1%nat
         [Event (CallResolveTCPAddr "peer:80") true;
          Event (CallDialTimeout "peer:80" 100000000) true;
          Event (CallSetReadDeadline 0%nat 50000000) true;
          Event (CallSetWriteDeadline 0%nat 50000000) true;
          Event (CallPing (Some 0%nat)) true]).
Proof.
  refine (proj1 (proj2 X3_new_connection_is_counted) nat Sample.closes
            Sample.sets_deadline Sample.sets_deadline Sample.resolves
            Sample.dials _ 50 _ 0%nat 0%nat 1%nat 1%nat _ _ _ _ _ _ _ _ _);
    try reflexivity;
    unfold is_int, int_min, int_max; cbn; lia.
Defined.

(** ** What Get can return *)

(** Name the calls made before the last one. *)
Ltac before_last_call :=
  (refine (ex_intro _ [] _)
   + refine (ex_intro _ [_] _)
   + refine (ex_intro _ [_; _] _)
   + refine (ex_intro _ [_; _; _] _)
   + refine (ex_intro _ [_; _; _; _] _));
  eexists; cbn; rewrite <- ?app_assoc; cbn; reflexivity.

Ltac returned_shape :=
  let H := fresh "H" in
  intros H; inversion H; subst; clear H;
  split; intros;
  [ try reflexivity; try congruence
  | try discriminate; try before_last_call ].

Lemma conn_pool_Get_shape W io_Close (s : conn_pool.State W) conn err s' :
  conn_pool.Get io_Close s = Returned (conn, err) s' ->
  (err <> None -> conn = nil) /\
  (err = None ->
   exists evs locked,
     conn_pool.log s'
     = conn_pool.log s ++ evs ++ [Event (CallPing conn) locked]).
Proof.
  destruct s as [[nw png nm mc mi c f] mu w l]. run_ops.
  repeat split_run; try discriminate; returned_shape.
Qed.

Lemma tcp_connpool_Get_shape W net_Close rd wr resolve dial
    (s : tcp_connpool.State W) timeout conn err s' :
  tcp_connpool.Get net_Close rd wr resolve dial timeout s
  = Returned (conn, err) s' ->
  (err <> None -> conn = nil) /\
  (err = None ->
   exists evs locked,
     tcp_connpool.log s'
     = tcp_connpool.log s ++ evs ++ [Event (CallPing conn) locked]).
Proof.
  destruct s as [[nm mc mi c dt f pg] mu w l]. run_ops.
  repeat split_run; try discriminate; returned_shape.
Qed.

Lemma conn_pool_mu_Get_shape W io_Close (s : conn_pool_mu.State W) conn err s' :
  conn_pool_mu.Get io_Close s = Returned (conn, err) s' ->
  (err <> None -> conn = nil) /\
  (err = None ->
   exists evs locked,
     conn_pool_mu.log s'
     = conn_pool_mu.log s ++ evs ++ [Event (CallPing conn) locked]).
Proof.
  destruct s as [[mu nw png nm mc mi c f] w l]. run_ops.
  repeat split_run; try discriminate; returned_shape.
Qed.

(** X4.  Whatever the collaborators do, [Get] never returns a connection
    together with an error; and when it returns without error, the last
    outside call it made was the validator, asked about the very
    connection it returns.  For all three pools. *)
Theorem X4_returned_connection_was_validated_last :
  (forall W io_Close (s : conn_pool.State W) conn err s',
     conn_pool.Get io_Close s = Returned (conn, err) s' ->
     (err <> None -> conn = nil) /\
     (err = None ->
      exists evs locked,
        conn_pool.log s'
        = conn_pool.log s ++ evs ++ [Event (CallPing conn) locked])) /\
  (forall W net_Close rd wr resolve dial (s : tcp_connpool.State W)
          timeout conn err s',
     tcp_connpool.Get net_Close rd wr resolve dial timeout s
     = Returned (conn, err) s' ->
     (err <> None -> conn = nil) /\
     (err = None ->
      exists evs locked,
        tcp_connpool.log s'
        = tcp_connpool.log s ++ evs ++ [Event (CallPing conn) locked])) /\
  (forall W io_Close (s : conn_pool_mu.State W) conn err s',
     conn_pool_mu.Get io_Close s = Returned (conn, err) s' ->
     (err <> None -> conn = nil) /\
     (err = None ->
      exists evs locked,
        conn_pool_mu.log s'
        = conn_pool_mu.log s ++ evs ++ [Event (CallPing conn) locked])).
Proof.
  split; [ | split ]; intros.
  - eapply conn_pool_Get_shape; eassumption.
  - eapply tcp_connpool_Get_shape; eassumption.
  - eapply conn_pool_mu_Get_shape; eassumption.
Qed.

Lemma X4_returned_connection_witness :
  exists evs locked,
    [Event CallNew true; Event (CallPing (Some 0%nat)) false]
    = [] ++ evs ++ [Event (CallPing (Some 0%nat)) locked].
Proof.
  refine (proj2 (proj2 (proj2 X4_returned_connection_was_validated_last)
                   nat Sample.closes
                   (mu_fresh "peer" 1 1 (Some Sample.opens)
                      (Some Sample.accepts) 0%nat)
                   (Some 0%nat) None
                   (conn_pool_mu.mkState
                      (conn_pool_mu.mkConnPool false (Some Sample.opens)
                         (Some Sample.accepts) "peer" 1 1 1 [])
                      1%nat
                      [Event CallNew true; Event (CallPing (Some 0%nat)) false])
                   _) _); reflexivity.
Defined.

(** ** The mutex around the calls *)

Lemma tcp_connpool_close_range W net_Close (cs : list Conn)
    (s : tcp_connpool.State W) :
  range cs (fun conn =>
    match conn with
    | Some _ => tcp_connpool.call_Close W net_Close conn
    | None => ret tt
    end) s
  = Returned tt
      {| tcp_connpool.pool := tcp_connpool.pool s;
         tcp_connpool.m := tcp_connpool.m s;
         tcp_connpool.world := closed_world net_Close cs (tcp_connpool.world s);
         tcp_connpool.log
           := tcp_connpool.log s ++ close_calls (tcp_connpool.m s) cs |}.
Proof.
  revert s. induction cs as [ | [h | ] cs IH ]; intros s.
  - destruct s; cbn. rewrite app_nil_r. reflexivity.
  - cbn. unfold bind. cbn. rewrite IH. cbn.
    rewrite <- app_assoc. reflexivity.
  - cbn. unfold bind. cbn. apply IH.
Qed.

Lemma tcp_connpool_Destroy_state W net_Close (s : tcp_connpool.State W) :
  tcp_connpool.m s = false ->
  tcp_connpool.Destroy net_Close s
  = Returned tt
      {| tcp_connpool.pool := tcp_connpool.pool s;
         tcp_connpool.m := false;
         tcp_connpool.world
           := closed_world net_Close
                (tcp_connpool.free (tcp_connpool.pool s))
                (tcp_connpool.world s);
         tcp_connpool.log
           := tcp_connpool.log s
              ++ close_calls true (tcp_connpool.free (tcp_connpool.pool s)) |}.
Proof.
  intros Hm. unfold tcp_connpool.Destroy, tcp_connpool.Lock,
    tcp_connpool.Unlock, tcp_connpool.load, defer, bind, ret.
  rewrite Hm. cbn. rewrite tcp_connpool_close_range. cbn. reflexivity.
Qed.

Lemma conn_pool_mu_close_range W io_Close (cs : list Conn)
    (s : conn_pool_mu.State W) :
  range cs (fun conn =>
    match conn with
    | Some _ => conn_pool_mu.call_Close W io_Close conn
    | None => ret tt
    end) s
  = Returned tt
      {| conn_pool_mu.pool := conn_pool_mu.pool s;
         conn_pool_mu.world := closed_world io_Close cs (conn_pool_mu.world s);
         conn_pool_mu.log
           := conn_pool_mu.log s
              ++ close_calls (conn_pool_mu.Mutex (conn_pool_mu.pool s)) cs |}.
Proof.
  revert s. induction cs as [ | [h | ] cs IH ]; intros s.
  - destruct s; cbn. rewrite app_nil_r. reflexivity.
  - cbn. unfold bind. cbn. rewrite IH. cbn.
    rewrite <- app_assoc. reflexivity.
  - cbn. unfold bind. cbn. apply IH.
Qed.

Lemma conn_pool_mu_Destroy_state W io_Close (s : conn_pool_mu.State W) :
  conn_pool_mu.Mutex (conn_pool_mu.pool s) = false ->
  conn_pool_mu.Destroy io_Close s
  = Returned tt
      {| conn_pool_mu.pool := conn_pool_mu.pool s;
         conn_pool_mu.world
           := closed_world io_Close
                (conn_pool_mu.free (conn_pool_mu.pool s))
                (conn_pool_mu.world s);
         conn_pool_mu.log
           := conn_pool_mu.log s
              ++ close_calls true (conn_pool_mu.free (conn_pool_mu.pool s)) |}.
Proof.
  destruct s as [[mu nw png nm mc mi c f] w l]; cbn. intros ->.
  unfold conn_pool_mu.Destroy, conn_pool_mu.Lock,
    conn_pool_mu.Unlock, conn_pool_mu.load, defer, bind, ret.
  cbn. rewrite conn_pool_mu_close_range. cbn. reflexivity.
Qed.

Lemma conn_pool_Get_unlocks W io_Close (s : conn_pool.State W) :
  conn_pool.m s = false ->
  conn_pool.m (state_of (conn_pool.Get io_Close s)) = false /\
  forall s', conn_pool.Get io_Close s <> Blocked s'.
Proof.
  destruct s as [[nw png nm mc mi c f] mu w l]; cbn. intros ->. run_ops.
  repeat split_run; (split; [ reflexivity | intros; discriminate ]).
Qed.

Lemma conn_pool_Close_unlocks W io_Close (s : conn_pool.State W) conn :
  conn_pool.m s = false ->
  conn_pool.m (state_of (conn_pool.Close io_Close conn s)) = false /\
  forall s', conn_pool.Close io_Close conn s <> Blocked s'.
Proof.
  destruct s as [[nw png nm mc mi c f] mu w l]; cbn. intros ->. run_ops.
  repeat split_run; (split; [ reflexivity | intros; discriminate ]).
Qed.

Lemma tcp_connpool_Get_unlocks W net_Close rd wr resolve dial
    (s : tcp_connpool.State W) timeout :
  tcp_connpool.m s = false ->
  tcp_connpool.m
    (state_of (tcp_connpool.Get net_Close rd wr resolve dial timeout s))
  = false /\
  forall s',
    tcp_connpool.Get net_Close rd wr resolve dial timeout s <> Blocked s'.
Proof.
  destruct s as [[nm mc mi c dt f pg] mu w l]; cbn. intros ->. run_ops.
  repeat split_run; (split; [ reflexivity | intros; discriminate ]).
Qed.

Lemma tcp_connpool_Close_unlocks W net_Close (s : tcp_connpool.State W) conn :
  tcp_connpool.m s = false ->
  tcp_connpool.m (state_of (tcp_connpool.Close net_Close conn s)) = false /\
  forall s', tcp_connpool.Close net_Close conn s <> Blocked s'.
Proof.
  destruct s as [[nm mc mi c dt f pg] mu w l]; cbn. intros ->. run_ops.
  repeat split_run; (split; [ reflexivity | intros; discriminate ]).
Qed.

Lemma came_back_state {St A : Type} (o : outcome St A) (s' : St) :
  came_back o s' -> state_of o = s' /\ forall t, o <> Blocked t.
Proof.
  intros [[a ->] | ->]; cbn; split; try reflexivity; intros; discriminate.
Qed.

(** X5.  The two pools under the package mutex take it first and give it
    back on every way out.  Whenever [Get], [Close] or [Destroy] comes
    back, by returning or by panicking, the mutex is free: the unlock is
    deferred.  Called while the mutex is held, each of them blocks at
    once, before it has read or changed anything.  Nothing is said of a
    call that does not come back. *)
Theorem X5_package_mutex_taken_and_given_back :
  (forall W io_Close (s : conn_pool.State W) conn,
     (conn_pool.m s = true ->
      conn_pool.Get io_Close s = Blocked s /\
      conn_pool.Close io_Close conn s = Blocked s /\
      conn_pool.Destroy io_Close s = Blocked s) /\
     (forall s',
        came_back (conn_pool.Get io_Close s) s' \/
        came_back (conn_pool.Close io_Close conn s) s' \/
        came_back (conn_pool.Destroy io_Close s) s' ->
        conn_pool.m s' = false)) /\
  (forall W net_Close rd wr resolve dial (s : tcp_connpool.State W)
          timeout conn,
     (tcp_connpool.m s = true ->
      tcp_connpool.Get net_Close rd wr resolve dial timeout s = Blocked s /\
      tcp_connpool.Close net_Close conn s = Blocked s /\
      tcp_connpool.Destroy net_Close s = Blocked s) /\
     (forall s',
        came_back
          (tcp_connpool.Get net_Close rd wr resolve dial timeout s) s' \/
        came_back (tcp_connpool.Close net_Close conn s) s' \/
        came_back (tcp_connpool.Destroy net_Close s) s' ->
        tcp_connpool.m s' = false)).
Proof.
  split.
  - intros W io_Close s conn.
    assert (Hheld : conn_pool.m s = true ->
              conn_pool.Get io_Close s = Blocked s /\
              conn_pool.Close io_Close conn s = Blocked s /\
              conn_pool.Destroy io_Close s = Blocked s).
    { destruct s as [[nw png nm mc mi c f] mu w l]; cbn. intros ->.
      repeat split; reflexivity. }
    split; [ exact Hheld | ].
    intros s' Hback. destruct (conn_pool.m s) eqn:Hm.
    + destruct (Hheld eq_refl) as (HG & HC & HD).
      rewrite HG, HC, HD in Hback.
      destruct Hback as [Hb | [Hb | Hb]];
        apply came_back_state in Hb as [_ Hb]; elim (Hb s); reflexivity.
    + destruct Hback as [Hb | [Hb | Hb]];
        apply came_back_state in Hb as [<- _].
      * apply conn_pool_Get_unlocks; assumption.
      * apply conn_pool_Close_unlocks; assumption.
      * rewrite conn_pool_Destroy_state by assumption. reflexivity.
  - intros W net_Close rd wr resolve dial s timeout conn.
    assert (Hheld : tcp_connpool.m s = true ->
              tcp_connpool.Get net_Close rd wr resolve dial timeout s
              = Blocked s /\
              tcp_connpool.Close net_Close conn s = Blocked s /\
              tcp_connpool.Destroy net_Close s = Blocked s).
    { destruct s as [[nm mc mi c dt f pg] mu w l]; cbn. intros ->.
      repeat split; reflexivity. }
    split; [ exact Hheld | ].
    intros s' Hback. destruct (tcp_connpool.m s) eqn:Hm.
    + destruct (Hheld eq_refl) as (HG & HC & HD).
      rewrite HG, HC, HD in Hback.
      destruct Hback as [Hb | [Hb | Hb]];
        apply came_back_state in Hb as [_ Hb]; elim (Hb s); reflexivity.
    + destruct Hback as [Hb | [Hb | Hb]];
        apply came_back_state in Hb as [<- _].
      * apply tcp_connpool_Get_unlocks; assumption.
      * apply tcp_connpool_Close_unlocks; assumption.
      * rewrite tcp_connpool_Destroy_state by assumption. reflexivity.
Qed.

Lemma X5_package_mutex_witness :
  conn_pool.Get Sample.closes
    (conn_pool.mkState
       (conn_pool.mkConnPool (Some Sample.opens) (Some Sample.accepts)
          "peer" 1 1 0 [])
       true 0%nat [])
  = Blocked
      (conn_pool.mkState
         (conn_pool.mkConnPool (Some Sample.opens) (Some Sample.accepts)
            "peer" 1 1 0 [])
         true 0%nat []) /\
  conn_pool.m
    (state_of
       (conn_pool.Get Sample.closes
          (conn_pool.fresh "peer" 1 1 None None 0%nat))) = false.
Proof.
  destruct X5_package_mutex_taken_and_given_back as [Hpool _].
  split.
  - refine (proj1 (proj1 (Hpool nat Sample.closes _ nil) _)). reflexivity.
  - refine (proj2 (Hpool nat Sample.closes
                     (conn_pool.fresh "peer" 1 1 None None 0%nat) nil) _ _).
    left. right. vm_compute. reflexivity.
Defined.

(** X6.  [NewConnPool] leaves [New] nil.  On the pool with its own mutex,
    a [Get] that gets as far as the factory then panics while it holds the
    mutex, and nothing gives the mutex back: every later [Get], [Release]
    and [Destroy] blocks, and [CloseClean] blocks after closing the
    connection it was given.  Under the package mutex the same [Get]
    panics too, but the deferred unlock runs and the pool is as before. *)
Theorem X6_nil_factory_panics_under_own_mutex :
  (forall W io_Close (s : conn_pool_mu.State W),
     conn_pool_mu.Mutex (conn_pool_mu.pool s) = false ->
     conn_pool_mu.free (conn_pool_mu.pool s) = [] ->
     conn_pool_mu.conns (conn_pool_mu.pool s)
       < conn_pool_mu.MaxConns (conn_pool_mu.pool s) ->
     conn_pool_mu.New (conn_pool_mu.pool s) = None ->
     let held := conn_pool_mu.set_Mutex W true s in
     conn_pool_mu.Get io_Close s = Panicked held /\
     conn_pool_mu.Get io_Close held = Blocked held /\
     conn_pool_mu.Destroy io_Close held = Blocked held /\
     (forall conn, conn_pool_mu.Release conn held = Blocked held) /\
     conn_pool_mu.CloseClean io_Close nil held = Blocked held /\
     (forall h,
        conn_pool_mu.CloseClean io_Close (Some h) held
        = Blocked (conn_pool_mu.outside (CallClose h)
                     (io_Close h (conn_pool_mu.world s)) held))) /\
  (forall W io_Close (s : conn_pool.State W),
     conn_pool.m s = false ->
     conn_pool.free (conn_pool.pool s) = [] ->
     conn_pool.conns (conn_pool.pool s)
       < conn_pool.MaxConns (conn_pool.pool s) ->
     conn_pool.New (conn_pool.pool s) = None ->
     conn_pool.Get io_Close s = Panicked s).
Proof.
  split.
  - intros W io_Close [[mu nw png nm mc mi c0 f] w l]; cbn.
    intros -> -> Hlt ->. run_ops.
    replace (mc <=? c0) with false by (symmetry; apply Z.leb_gt; assumption).
    cbn. repeat split; reflexivity.
  - intros W io_Close [[nw png nm mc mi c0 f] mu w l]; cbn.
    intros -> -> Hlt ->. run_ops.
    replace (mc <=? c0) with false by (symmetry; apply Z.leb_gt; assumption).
    reflexivity.
Qed.

Lemma X6_nil_factory_witness :
  conn_pool_mu.Get Sample.closes
    (conn_pool_mu.mkState (conn_pool_mu.NewConnPool "peer" 1 1) 0%nat [])
  = Panicked
      (conn_pool_mu.mkState
         (conn_pool_mu.mkConnPool true None None "peer" 1 1 0 [])
         0%nat []) /\
  conn_pool_mu.Get Sample.closes
    (conn_pool_mu.mkState
       (conn_pool_mu.mkConnPool true None None "peer" 1 1 0 [])
       0%nat [])
  = Blocked
      (conn_pool_mu.mkState
         (conn_pool_mu.mkConnPool true None None "peer" 1 1 0 [])
         0%nat []).
Proof.
  destruct (proj1 X6_nil_factory_panics_under_own_mutex nat Sample.closes
              (conn_pool_mu.mkState (conn_pool_mu.NewConnPool "peer" 1 1)
                 0%nat []))
    as (Hpanic & Hblock & _); try reflexivity.
  split; assumption.
Defined.

(** ** Destroy *)

(** X7.  [Destroy] with a free mutex never panics: it skips the nil
    entries of the free list and closes every other entry once, in list
    order, with the mutex held, and gives the mutex back.  It leaves the
    pool object as it was, free list and counter included, so a second
    [Destroy] closes the same connections a second time.  For all three
    pools. *)
Theorem X7_Destroy_closes_and_keeps_the_list :
  (forall W io_Close (s : conn_pool.State W),
     conn_pool.m s = false ->
     let idle := conn_pool.free (conn_pool.pool s) in
     exists s1 s2,
       conn_pool.Destroy io_Close s = Returned tt s1 /\
       conn_pool.pool s1 = conn_pool.pool s /\
       conn_pool.m s1 = false /\
       conn_pool.world s1 = closed_world io_Close idle (conn_pool.world s) /\
       conn_pool.log s1 = conn_pool.log s ++ close_calls true idle /\
       conn_pool.Destroy io_Close s1 = Returned tt s2 /\
       conn_pool.pool s2 = conn_pool.pool s /\
       conn_pool.log s2
       = conn_pool.log s ++ close_calls true idle ++ close_calls true idle) /\
  (forall W net_Close (s : tcp_connpool.State W),
     tcp_connpool.m s = false ->
     let idle := tcp_connpool.free (tcp_connpool.pool s) in
     exists s1 s2,
       tcp_connpool.Destroy net_Close s = Returned tt s1 /\
       tcp_connpool.pool s1 = tcp_connpool.pool s /\
       tcp_connpool.m s1 = false /\
       tcp_connpool.world s1
       = closed_world net_Close idle (tcp_connpool.world s) /\
       tcp_connpool.log s1 = tcp_connpool.log s ++ close_calls true idle /\
       tcp_connpool.Destroy net_Close s1 = Returned tt s2 /\
       tcp_connpool.pool s2 = tcp_connpool.pool s /\
       tcp_connpool.log s2
       = tcp_connpool.log s ++ close_calls true idle
           ++ close_calls true idle) /\
  (forall W io_Close (s : conn_pool_mu.State W),
     conn_pool_mu.Mutex (conn_pool_mu.pool s) = false ->
     let idle := conn_pool_mu.free (conn_pool_mu.pool s) in
     exists s1 s2,
       conn_pool_mu.Destroy io_Close s = Returned tt s1 /\
       conn_pool_mu.pool s1 = conn_pool_mu.pool s /\
       conn_pool_mu.world s1
       = closed_world io_Close idle (conn_pool_mu.world s) /\
       conn_pool_mu.log s1 = conn_pool_mu.log s ++ close_calls true idle /\
       conn_pool_mu.Destroy io_Close s1 = Returned tt s2 /\
       conn_pool_mu.pool s2 = conn_pool_mu.pool s /\
       conn_pool_mu.log s2
       = conn_pool_mu.log s ++ close_calls true idle
           ++ close_calls true idle).
Proof.
  split; [ | split ].
  - intros W io_Close s Hm idle. eexists. eexists.
    rewrite conn_pool_Destroy_state by assumption.
    split; [ reflexivity | ].
    rewrite conn_pool_Destroy_state by reflexivity. cbn.
    rewrite <- app_assoc. repeat split; reflexivity.
  - intros W net_Close s Hm idle. eexists. eexists.
    rewrite tcp_connpool_Destroy_state by assumption.
    split; [ reflexivity | ].
    rewrite tcp_connpool_Destroy_state by reflexivity. cbn.
    rewrite <- app_assoc. repeat split; reflexivity.
  - intros W io_Close [[mu nw png nm mc mi c f] w l]; cbn. intros ->.
    eexists. eexists.
    rewrite conn_pool_mu_Destroy_state by reflexivity.
    split; [ reflexivity | ].
    rewrite conn_pool_mu_Destroy_state by reflexivity. cbn.
    rewrite <- app_assoc. repeat split; reflexivity.
Qed.

Lemma X7_Destroy_witness :
  exists s1 s2,
    conn_pool_mu.Destroy Sample.closes
      (conn_pool_mu.mkState
         (conn_pool_mu.mkConnPool false (Some Sample.opens)
            (Some Sample.accepts) "peer" 3 3 2 [Some 0%nat; nil; Some 1%nat])
         2%nat [])
    = Returned tt s1 /\
    conn_pool_mu.pool s1
    = conn_pool_mu.mkConnPool false (Some Sample.opens)
        (Some Sample.accepts) "peer" 3 3 2 [Some 0%nat; nil; Some 1%nat] /\
    conn_pool_mu.world s1 = 2%nat /\
    conn_pool_mu.log s1
    = [Event (CallClose 0%nat) true; Event (CallClose 1%nat) true] /\
    conn_pool_mu.Destroy Sample.closes s1 = Returned tt s2 /\
    conn_pool_mu.pool s2
    = conn_pool_mu.mkConnPool false (Some Sample.opens)
        (Some Sample.accepts) "peer" 3 3 2 [Some 0%nat; nil; Some 1%nat] /\
    conn_pool_mu.log s2
    = [Event (CallClose 0%nat) true; Event (CallClose 1%nat) true;
       Event (CallClose 0%nat) true; Event (CallClose 1%nat) true].
Proof.
  refine (proj2 (proj2 X7_Destroy_closes_and_keeps_the_list) nat
            Sample.closes _ _).
  reflexivity.
Defined.

(** ** What every call keeps *)

Ltac len_arith :=
  repeat match goal with
         | H : _ && _ = true |- _ => apply andb_true_iff in H; destruct H
         | H : (_ <=? _) = true |- _ => apply Z.leb_le in H
         | H : (_ <=? _) = false |- _ => apply Z.leb_gt in H
         | H : (_ <? _) = true |- _ => apply Z.ltb_lt in H
         | H : (_ <? _) = false |- _ => apply Z.ltb_ge in H
         end;
  unfold len in *; cbn [List.length] in *;
  rewrite ?length_app in *; cbn [List.length] in *;
  lia.

Ltac no_nil_step :=
  let Hno := fresh "Hno" in
  let Hin := fresh "Hin" in
  intros Hno Hin;
  try (apply in_app_iff in Hin; destruct Hin as [Hin | [Hin | []]];
       [ | discriminate Hin ]);
  apply Hno; cbn; auto.

(** What a call leaves alone, and what it keeps true. *)
Ltac kept :=
  unfold same_setup, tcp_same_setup, mu_same_setup,
    tcp_connpool.GetMaxConns; cbn;
  repeat match goal with
         | |- _ /\ _ => split
         end;
  try reflexivity;
  first [ solve [ intros; len_arith ] | solve [ no_nil_step ]
        | solve [ auto ] ].

Lemma conn_pool_exec_keeps W io_Close (o : conn_pool.op)
    (s : conn_pool.State W) :
  let s' := conn_pool.exec io_Close o s in
  same_setup (conn_pool.pool s') (conn_pool.pool s) /\
  (len (conn_pool.free (conn_pool.pool s))
   <= conn_pool.MaxIdle (conn_pool.pool s) ->
   len (conn_pool.free (conn_pool.pool s'))
   <= conn_pool.MaxIdle (conn_pool.pool s)) /\
  (~ In nil (conn_pool.free (conn_pool.pool s)) ->
   ~ In nil (conn_pool.free (conn_pool.pool s'))).
Proof.
  destruct o as [ | conn | ]; cbn [conn_pool.exec].
  - destruct s as [[nw png nm mc mi c f] [ | ] w l]; run_ops.
    + kept.
    + repeat split_run; kept.
  - destruct s as [[nw png nm mc mi c f] [ | ] w l]; run_ops.
    + kept.
    + destruct conn as [h | ]; cbn; repeat split_run; kept.
  - destruct (conn_pool.m s) eqn:Hm.
    + destruct s as [[nw png nm mc mi c f] mu w l]; cbn in Hm; subst mu.
      cbn. kept.
    + rewrite conn_pool_Destroy_state by assumption. cbn. kept.
Qed.

Lemma conn_pool_run_keeps W io_Close (ops : list conn_pool.op)
    (s : conn_pool.State W) :
  let s' := conn_pool.run io_Close ops s in
  same_setup (conn_pool.pool s') (conn_pool.pool s) /\
  (len (conn_pool.free (conn_pool.pool s))
   <= conn_pool.MaxIdle (conn_pool.pool s) ->
   len (conn_pool.free (conn_pool.pool s'))
   <= conn_pool.MaxIdle (conn_pool.pool s)) /\
  (~ In nil (conn_pool.free (conn_pool.pool s)) ->
   ~ In nil (conn_pool.free (conn_pool.pool s'))).
Proof.
  revert s. induction ops as [ | o ops IH ]; intros s; cbn.
  - unfold same_setup. auto 10.
  - destruct (conn_pool_exec_keeps W io_Close o s) as (Hs & Hl & Hn).
    destruct (IH (conn_pool.exec io_Close o s)) as (Hs' & Hl' & Hn').
    unfold same_setup in *.
    destruct Hs as (H1 & H2 & H3 & H4 & H5).
    destruct Hs' as (H1' & H2' & H3' & H4' & H5').
    rewrite H5 in Hl'. repeat split; try congruence; auto.
Qed.

Lemma tcp_exec_keeps W net_Close rd wr resolve dial (o : tcp_op)
    (s : tcp_connpool.State W) :
  let s' := tcp_exec net_Close rd wr resolve dial o s in
  tcp_same_setup (tcp_connpool.pool s') (tcp_connpool.pool s) /\
  (len (tcp_connpool.free (tcp_connpool.pool s))
   <= tcp_connpool.max_idle (tcp_connpool.pool s) ->
   len (tcp_connpool.free (tcp_connpool.pool s'))
   <= tcp_connpool.max_idle (tcp_connpool.pool s)) /\
  (~ In nil (tcp_connpool.free (tcp_connpool.pool s)) ->
   ~ In nil (tcp_connpool.free (tcp_connpool.pool s'))).
Proof.
  destruct o as [ timeout | conn | ]; cbn [tcp_exec].
  - destruct s as [[nm mc mi c dt f pg] [ | ] w l]; run_ops.
    + kept.
    + repeat split_run; kept.
  - destruct s as [[nm mc mi c dt f pg] [ | ] w l]; run_ops.
    + kept.
    + destruct conn as [h | ]; cbn; repeat split_run; kept.
  - destruct (tcp_connpool.m s) eqn:Hm.
    + destruct s as [[nm mc mi c dt f pg] mu w l]; cbn in Hm; subst mu.
      cbn. kept.
    + rewrite tcp_connpool_Destroy_state by assumption. cbn. kept.
Qed.

Lemma tcp_run_keeps W net_Close rd wr resolve dial (ops : list tcp_op)
    (s : tcp_connpool.State W) :
  let s' := tcp_run net_Close rd wr resolve dial ops s in
  tcp_same_setup (tcp_connpool.pool s') (tcp_connpool.pool s) /\
  (len (tcp_connpool.free (tcp_connpool.pool s))
   <= tcp_connpool.max_idle (tcp_connpool.pool s) ->
   len (tcp_connpool.free (tcp_connpool.pool s'))
   <= tcp_connpool.max_idle (tcp_connpool.pool s)) /\
  (~ In nil (tcp_connpool.free (tcp_connpool.pool s)) ->
   ~ In nil (tcp_connpool.free (tcp_connpool.pool s'))).
Proof.
  revert s. induction ops as [ | o ops IH ]; intros s; cbn.
  - unfold tcp_same_setup. auto 10.
  - destruct (tcp_exec_keeps W net_Close rd wr resolve dial o s)
      as (Hs & Hl & Hn).
    destruct (IH (tcp_exec net_Close rd wr resolve dial o s))
      as (Hs' & Hl' & Hn').
    unfold tcp_same_setup in *.
    destruct Hs as (H1 & H2 & H3 & H4 & H5).
    destruct Hs' as (H1' & H2' & H3' & H4' & H5').
    rewrite H3 in Hl'. repeat split; try congruence; auto.
Qed.

Lemma mu_exec_keeps W io_Close (o : mu_op) (s : conn_pool_mu.State W) :
  let s' := mu_exec io_Close o s in
  mu_same_setup (conn_pool_mu.pool s') (conn_pool_mu.pool s) /\
  (len (conn_pool_mu.free (conn_pool_mu.pool s))
   <= conn_pool_mu.MaxIdle (conn_pool_mu.pool s) ->
   len (conn_pool_mu.free (conn_pool_mu.pool s'))
   <= conn_pool_mu.MaxIdle (conn_pool_mu.pool s)).
Proof.
  destruct o as [ | conn | conn | ]; cbn [mu_exec].
  - destruct s as [[[ | ] nw png nm mc mi c f] w l]; run_ops.
    + kept.
    + repeat split_run; kept.
  - destruct s as [[[ | ] nw png nm mc mi c f] w l]; run_ops.
    + kept.
    + repeat split_run; kept.
  - destruct s as [[[ | ] nw png nm mc mi c f] w l]; run_ops;
      destruct conn as [h | ]; cbn; repeat split_run; kept.
  - destruct (conn_pool_mu.Mutex (conn_pool_mu.pool s)) eqn:Hm.
    + destruct s as [[mu nw png nm mc mi c f] w l]; cbn in Hm; subst mu.
      cbn. kept.
    + rewrite conn_pool_mu_Destroy_state by assumption. cbn. kept.
Qed.

Lemma mu_run_keeps W io_Close (ops : list mu_op) (s : conn_pool_mu.State W) :
  let s' := mu_run io_Close ops s in
  mu_same_setup (conn_pool_mu.pool s') (conn_pool_mu.pool s) /\
  (len (conn_pool_mu.free (conn_pool_mu.pool s))
   <= conn_pool_mu.MaxIdle (conn_pool_mu.pool s) ->
   len (conn_pool_mu.free (conn_pool_mu.pool s'))
   <= conn_pool_mu.MaxIdle (conn_pool_mu.pool s)).
Proof.
  revert s. induction ops as [ | o ops IH ]; intros s; cbn.
  - unfold mu_same_setup. auto 10.
  - destruct (mu_exec_keeps W io_Close o s) as (Hs & Hl).
    destruct (IH (mu_exec io_Close o s)) as (Hs' & Hl').
    unfold mu_same_setup in *.
    destruct Hs as (H1 & H2 & H3 & H4 & H5).
    destruct Hs' as (H1' & H2' & H3' & H4' & H5').
    rewrite H5 in Hl'. repeat split; try congruence; auto.
Qed.

(** X8.  Under the package mutex the free list never holds nil: [Close]
    and [TcpConnPool.Close] test the connection for nil before they append
    it, and nothing else appends.  So after any calls on a new pool, the
    candidate [Get] takes from the free list is a live connection, and the
    nil test in the loop of [Destroy] never fires. *)
Theorem X8_free_list_holds_no_nil :
  (forall W io_Close name max_conns max_idle new ping (w : W)
          (ops : list conn_pool.op),
     ~ In nil
         (conn_pool.free
            (conn_pool.pool
               (conn_pool.run io_Close ops
                  (conn_pool.fresh name max_conns max_idle new ping w))))) /\
  (forall W net_Close rd wr resolve dial name max_conns max_idle dial_timeout
          ping (w : W) (ops : list tcp_op),
     ~ In nil
         (tcp_connpool.free
            (tcp_connpool.pool
               (tcp_run net_Close rd wr resolve dial ops
                  (tcp_fresh name max_conns max_idle dial_timeout ping w))))).
Proof.
  split.
  - intros W io_Close name max_conns max_idle new ping w ops.
    apply (conn_pool_run_keeps W io_Close ops
             (conn_pool.fresh name max_conns max_idle new ping w)).
    cbn. auto.
  - intros W net_Close rd wr resolve dial name max_conns max_idle
           dial_timeout ping w ops.
    apply (tcp_run_keeps W net_Close rd wr resolve dial ops
             (tcp_fresh name max_conns max_idle dial_timeout ping w)).
    cbn. auto.
Qed.

(** X9.  The free list never outgrows [MaxIdle].  On a pool made with a
    maximum that is not negative, [len(free) <= MaxIdle] holds after any
    calls made one after the other, whatever is returned or discarded how
    often, and whether calls panic or block.  For all three pools. *)
Theorem X9_free_list_never_outgrows_MaxIdle :
  (forall W io_Close name max_conns max_idle new ping (w : W)
          (ops : list conn_pool.op),
     0 <= max_idle ->
     len (conn_pool.free
            (conn_pool.pool
               (conn_pool.run io_Close ops
                  (conn_pool.fresh name max_conns max_idle new ping w))))
     <= max_idle) /\
  (forall W net_Close rd wr resolve dial name max_conns max_idle dial_timeout
          ping (w : W) (ops : list tcp_op),
     0 <= max_idle ->
     len (tcp_connpool.free
            (tcp_connpool.pool
               (tcp_run net_Close rd wr resolve dial ops
                  (tcp_fresh name max_conns max_idle dial_timeout ping w))))
     <= max_idle) /\
  (forall W io_Close name max_conns max_idle new ping (w : W)
          (ops : list mu_op),
     0 <= max_idle ->
     len (conn_pool_mu.free
            (conn_pool_mu.pool
               (mu_run io_Close ops
                  (mu_fresh name max_conns max_idle new ping w))))
     <= max_idle).
Proof.
  split; [ | split ].
  - intros W io_Close name max_conns max_idle new ping w ops Hmi.
    apply (conn_pool_run_keeps W io_Close ops
             (conn_pool.fresh name max_conns max_idle new ping w)).
    exact Hmi.
  - intros W net_Close rd wr resolve dial name max_conns max_idle
           dial_timeout ping w ops Hmi.
    apply (tcp_run_keeps W net_Close rd wr resolve dial ops
             (tcp_fresh name max_conns max_idle dial_timeout ping w)).
    exact Hmi.
  - intros W io_Close name max_conns max_idle new ping w ops Hmi.
    apply (mu_run_keeps W io_Close ops
             (mu_fresh name max_conns max_idle new ping w)).
    exact Hmi.
Qed.

Lemma X9_free_list_witness :
  len (conn_pool_mu.free
         (conn_pool_mu.pool
            (mu_run Sample.closes
               [MuGet; MuRelease (Some 0%nat); MuRelease (Some 0%nat);
                MuRelease nil; MuCloseClean (Some 0%nat); MuGet; MuDestroy]
               (mu_fresh "peer" 2 1 (Some Sample.opens)
                  (Some Sample.accepts) 0%nat))))
  <= 1.
Proof.
  apply (proj2 (proj2 X9_free_list_never_outgrows_MaxIdle) nat Sample.closes
           "peer"%string 2 1 (Some Sample.opens) (Some Sample.accepts) 0%nat).
  lia.
Defined.

(** X10.  No call changes what the pool was set up with.  After any calls,
    from any state, [GetMaxConns] returns what it returned before, and
    the name, the idle maximum, the dial timeout and the validator of a
    [TcpConnPool] are the same; so are [New], [Ping], [Name], [MaxConns]
    and [MaxIdle] of the two [ConnPool]s. *)
Theorem X10_calls_keep_the_setup :
  (forall W net_Close rd wr resolve dial (ops : list tcp_op)
          (s : tcp_connpool.State W),
     tcp_same_setup
       (tcp_connpool.pool (tcp_run net_Close rd wr resolve dial ops s))
       (tcp_connpool.pool s)) /\
  (forall W io_Close (ops : list conn_pool.op) (s : conn_pool.State W),
     same_setup (conn_pool.pool (conn_pool.run io_Close ops s))
       (conn_pool.pool s)) /\
  (forall W io_Close (ops : list mu_op) (s : conn_pool_mu.State W),
     mu_same_setup (conn_pool_mu.pool (mu_run io_Close ops s))
       (conn_pool_mu.pool s)).
Proof.
  split; [ | split ]; intros.
  - apply tcp_run_keeps.
  - apply conn_pool_run_keeps.
  - apply mu_run_keeps.
Qed.

(** ** How the calls compose *)

(** X11.  A connection taken and given back is the one the next [Get]
    hands out.  On a pool with an empty free list, room for an idle
    connection and the counter below the maximum, [Get], then returning
    the connection, then [Get] again yields the same connection twice;
    the factory is called once, the validator before each handing out,
    and the counter stands one higher with the free list empty again.
    With [Close] under the package mutex and with [Release]. *)
Theorem X11_returned_connection_is_reused :
  (forall W io_Close (s : conn_pool.State W) new ping h w1,
     conn_pool.m s = false ->
     conn_pool.free (conn_pool.pool s) = [] ->
     is_int (conn_pool.conns (conn_pool.pool s)) ->
     is_int (conn_pool.MaxConns (conn_pool.pool s)) ->
     conn_pool.conns (conn_pool.pool s)
       < conn_pool.MaxConns (conn_pool.pool s) ->
     0 < conn_pool.MaxIdle (conn_pool.pool s) ->
     conn_pool.New (conn_pool.pool s) = Some new ->
     conn_pool.Ping (conn_pool.pool s) = Some ping ->
     new (conn_pool.world s) = ((Some h, None), w1) ->
     (forall w, fst (ping (Some h) w) = None) ->
     exists s',
       (r1 <- conn_pool.Get io_Close ;;
        conn_pool.Close io_Close (fst r1) ;;
        r2 <- conn_pool.Get io_Close ;;
        ret (r1, r2)) s
       = Returned ((Some h, None), (Some h, None)) s' /\
       conn_pool.conns (conn_pool.pool s')
       = conn_pool.conns (conn_pool.pool s) + 1 /\
       conn_pool.free (conn_pool.pool s') = [] /\
       conn_pool.log s'
       = conn_pool.log s ++ [Event CallNew true;
                             Event (CallPing (Some h)) true;
                             Event (CallPing (Some h)) true]) /\
  (forall W io_Close (s : conn_pool_mu.State W) new ping h w1,
     conn_pool_mu.Mutex (conn_pool_mu.pool s) = false ->
     conn_pool_mu.free (conn_pool_mu.pool s) = [] ->
     is_int (conn_pool_mu.conns (conn_pool_mu.pool s)) ->
     is_int (conn_pool_mu.MaxConns (conn_pool_mu.pool s)) ->
     conn_pool_mu.conns (conn_pool_mu.pool s)
       < conn_pool_mu.MaxConns (conn_pool_mu.pool s) ->
     0 < conn_pool_mu.MaxIdle (conn_pool_mu.pool s) ->
     conn_pool_mu.New (conn_pool_mu.pool s) = Some new ->
     conn_pool_mu.Ping (conn_pool_mu.pool s) = Some ping ->
     new (conn_pool_mu.world s) = ((Some h, None), w1) ->
     (forall w, fst (ping (Some h) w) = None) ->
     exists s',
       (r1 <- conn_pool_mu.Get io_Close ;;
        conn_pool_mu.Release (fst r1) ;;
        r2 <- conn_pool_mu.Get io_Close ;;
        ret (r1, r2)) s
       = Returned ((Some h, None), (Some h, None)) s' /\
       conn_pool_mu.conns (conn_pool_mu.pool s')
       = conn_pool_mu.conns (conn_pool_mu.pool s) + 1 /\
       conn_pool_mu.free (conn_pool_mu.pool s') = [] /\
       conn_pool_mu.log s'
       = conn_pool_mu.log s ++ [Event CallNew true;
                                Event (CallPing (Some h)) false;
                                Event (CallPing (Some h)) false]).
Proof.
  split.
  - intros W io_Close [[nw png nm mc mi c0 f] mu w l] new ping h w1; cbn.
    intros -> -> Hc Hmc Hlt Hmi -> -> Hn Hok. run_ops.
    replace (mc <=? c0) with false by (symmetry; apply Z.leb_gt; assumption).
    cbn. rewrite Hn. cbn.
    pose proof (Hok w1) as Hp1.
    destruct (ping (Some h) w1) as [r1 w2]. cbn in Hp1. subst r1. cbn.
    replace (mi <=? 0) with false by (symmetry; apply Z.leb_gt; assumption).
    cbn. rewrite andb_false_r. cbn.
    pose proof (Hok w2) as Hp2.
    destruct (ping (Some h) w2) as [r2 w3]. cbn in Hp2. subst r2. cbn.
    eexists. split; [ reflexivity | ]. cbn.
    rewrite wrap_next, <- !app_assoc;
      [ auto | assumption | unfold is_int in Hmc; lia ].
  - intros W io_Close [[mu nw png nm mc mi c0 f] w l] new ping h w1; cbn.
    intros -> -> Hc Hmc Hlt Hmi -> -> Hn Hok. run_ops.
    replace (mc <=? c0) with false by (symmetry; apply Z.leb_gt; assumption).
    cbn. rewrite Hn. cbn.
    pose proof (Hok w1) as Hp1.
    destruct (ping (Some h) w1) as [r1 w2]. cbn in Hp1. subst r1. cbn.
    replace (mi <=? 0) with false by (symmetry; apply Z.leb_gt; assumption).
    cbn. rewrite andb_false_r. cbn.
    pose proof (Hok w2) as Hp2.
    destruct (ping (Some h) w2) as [r2 w3]. cbn in Hp2. subst r2. cbn.
    eexists. split; [ reflexivity | ]. cbn.
    rewrite wrap_next, <- !app_assoc;
      [ auto | assumption | unfold is_int in Hmc; lia ].
Qed.

Lemma X11_returned_connection_witness :
  exists s',
    (r1 <- conn_pool.Get Sample.closes ;;
     conn_pool.Close Sample.closes (fst r1) ;;
     r2 <- conn_pool.Get Sample.closes ;;
     ret (r1, r2))
      (conn_pool.fresh "peer" 1 1 (Some Sample.opens) (Some Sample.accepts)
         0%nat)
    = Returned ((Some 0%nat, None), (Some 0%nat, None)) s' /\
    conn_pool.conns (conn_pool.pool s') = 1 /\
    conn_pool.free (conn_pool.pool s') = [] /\
    conn_pool.log s' = [Event CallNew true;
                        Event (CallPing (Some 0%nat)) true;
                        Event (CallPing (Some 0%nat)) true].
Proof.
  refine (proj1 X11_returned_connection_is_reused nat Sample.closes _
            Sample.opens Sample.accepts 0%nat 1%nat _ _ _ _ _ _ _ _ _ _);
    try reflexivity;
    unfold is_int, int_min, int_max; cbn; lia.
Defined.

(** X12.  Taking a new connection and discarding it leaves the counter
    where it was.  [CloseClean] closes the connection, outside the mutex,
    before it takes one off the counter.  Under the package mutex the
    discarding call is [Close] with nil: it takes one off the counter and
    closes nothing, the connection stays open unless its holder closes
    it. *)
Theorem X12_discard_gives_the_count_back :
  (forall W io_Close (s : conn_pool_mu.State W) new ping h w1 w2,
     conn_pool_mu.Mutex (conn_pool_mu.pool s) = false ->
     conn_pool_mu.free (conn_pool_mu.pool s) = [] ->
     0 <= conn_pool_mu.conns (conn_pool_mu.pool s) ->
     is_int (conn_pool_mu.MaxConns (conn_pool_mu.pool s)) ->
     conn_pool_mu.conns (conn_pool_mu.pool s)
       < conn_pool_mu.MaxConns (conn_pool_mu.pool s) ->
     conn_pool_mu.New (conn_pool_mu.pool s) = Some new ->
     conn_pool_mu.Ping (conn_pool_mu.pool s) = Some ping ->
     new (conn_pool_mu.world s) = ((Some h, None), w1) ->
     ping (Some h) w1 = (None, w2) ->
     (r <- conn_pool_mu.Get io_Close ;;
      conn_pool_mu.CloseClean io_Close (fst r)) s
     = Returned None
         {| conn_pool_mu.pool := conn_pool_mu.pool s;
            conn_pool_mu.world := io_Close h w2;
            conn_pool_mu.log
              := conn_pool_mu.log s
                 ++ [Event CallNew true;
                     Event (CallPing (Some h)) false;
                     Event (CallClose h) false] |}) /\
  (forall W io_Close (s : conn_pool.State W) new ping h w1 w2,
     conn_pool.m s = false ->
     conn_pool.free (conn_pool.pool s) = [] ->
     0 <= conn_pool.conns (conn_pool.pool s) ->
     is_int (conn_pool.MaxConns (conn_pool.pool s)) ->
     conn_pool.conns (conn_pool.pool s)
       < conn_pool.MaxConns (conn_pool.pool s) ->
     conn_pool.New (conn_pool.pool s) = Some new ->
     conn_pool.Ping (conn_pool.pool s) = Some ping ->
     new (conn_pool.world s) = ((Some h, None), w1) ->
     ping (Some h) w1 = (None, w2) ->
     (conn_pool.Get io_Close ;; conn_pool.Close io_Close nil) s
     = Returned None
         {| conn_pool.pool := conn_pool.pool s;
            conn_pool.m := false;
            conn_pool.world := w2;
            conn_pool.log
              := conn_pool.log s
                 ++ [Event CallNew true;
                     Event (CallPing (Some h)) true] |}).
Proof.
  assert (Hback : forall c mc, 0 <= c -> is_int mc -> c < mc ->
                    (0 <? wrap (c + 1)) = true /\
                    wrap (wrap (c + 1) - 1) = c).
  { intros c mc Hc Hmc Hlt.
    assert (Hint : is_int c) by (unfold is_int, int_min in *; lia).
    rewrite wrap_next by (try assumption; unfold is_int in Hmc; lia).
    split; [ apply Z.ltb_lt; lia | ].
    replace (c + 1 - 1) with c by lia. apply wrap_is_int; assumption. }
  split.
  - intros W io_Close [[mu nw png nm mc mi c0 f] w l] new ping h w1 w2; cbn.
    intros -> -> Hc Hmc Hlt -> -> Hn Hp.
    destruct (Hback c0 mc Hc Hmc Hlt) as [Hpos Hsame]. run_ops.
    replace (mc <=? c0) with false by (symmetry; apply Z.leb_gt; assumption).
    cbn. rewrite Hn. cbn. rewrite Hp. cbn. rewrite Hpos. cbn.
    rewrite Hsame, <- !app_assoc. reflexivity.
  - intros W io_Close [[nw png nm mc mi c0 f] mu w l] new ping h w1 w2; cbn.
    intros -> -> Hc Hmc Hlt -> -> Hn Hp.
    destruct (Hback c0 mc Hc Hmc Hlt) as [Hpos Hsame]. run_ops.
    replace (mc <=? c0) with false by (symmetry; apply Z.leb_gt; assumption).
    cbn. rewrite Hn. cbn. rewrite Hp. cbn. rewrite Hpos. cbn.
    rewrite Hsame, <- !app_assoc. reflexivity.
Qed.

Lemma X12_discard_witness :
  (r <- conn_pool_mu.Get Sample.closes ;;
   conn_pool_mu.CloseClean Sample.closes (fst r))
    (mu_fresh "peer" 1 1 (Some Sample.opens) (Some Sample.accepts) 0%nat)
  = Returned None
      (conn_pool_mu.mkState
         (conn_pool_mu.mkConnPool false (Some Sample.opens)
            (Some Sample.accepts) "peer" 1 1 0 [])
         1%nat
         [Event CallNew true; Event (CallPing (Some 0%nat)) false;
          Event (CallClose 0%nat) false]).
Proof.
  refine (proj1 X12_discard_gives_the_count_back nat Sample.closes _
            Sample.opens Sample.accepts 0%nat 1%nat 1%nat _ _ _ _ _ _ _ _ _);
    try reflexivity;
    unfold is_int, int_min, int_max; cbn; lia.
Defined.

(** ** The effect of one Get *)

Ltac step_arith :=
  repeat match goal with
         | H : _ && _ = true |- _ => apply andb_true_iff in H; destruct H
         | H : _ && _ = false |- _ => apply andb_false_iff in H
         | H : (_ <=? _) = true |- _ => apply Z.leb_le in H
         | H : (_ <=? _) = false |- _ => apply Z.leb_gt in H
         | H : (_ <? _) = true |- _ => apply Z.ltb_lt in H
         | H : (_ <? _) = false |- _ => apply Z.ltb_ge in H
         | H : (_ =? _) = false |- _ => clear H
         | H : true = false \/ _ |- _ =>
             destruct H as [H | H]; [ discriminate | ]
         | H : _ \/ true = false |- _ =>
             destruct H as [H | H]; [ | discriminate ]
         end;
  unfold is_int, int_min, int_max in *.

Ltac one_step :=
  split; [ reflexivity | ];
  step_arith;
  rewrite ?wrap_next, ?wrap_pred
    by (unfold is_int, int_min, int_max; lia);
  lia.

Lemma conn_pool_Get_step W io_Close (s : conn_pool.State W) :
  conn_pool.m s = false ->
  is_int (conn_pool.conns (conn_pool.pool s)) ->
  is_int (conn_pool.MaxConns (conn_pool.pool s)) ->
  let before := conn_pool.pool s in
  let after := conn_pool.pool (state_of (conn_pool.Get io_Close s)) in
  match conn_pool.free before with
  | [] =>
      conn_pool.free after = [] /\
      (conn_pool.conns after = conn_pool.conns before \/
       conn_pool.conns after = conn_pool.conns before + 1)
  | _ :: rest =>
      conn_pool.free after = rest /\
      (conn_pool.conns after = conn_pool.conns before \/
       conn_pool.conns after = conn_pool.conns before - 1 /\
       0 < conn_pool.conns before)
  end.
Proof.
  destruct s as [[nw png nm mc mi c [ | c1 rest ]] mu w l]; cbn;
    intros -> Hc Hmc; run_ops; rewrite ?andb_false_r; cbn;
    repeat split_run; one_step.
Qed.

Lemma tcp_connpool_Get_step W net_Close rd wr resolve dial
    (s : tcp_connpool.State W) timeout :
  tcp_connpool.m s = false ->
  is_int (tcp_connpool.conns (tcp_connpool.pool s)) ->
  is_int (tcp_connpool.max_conns (tcp_connpool.pool s)) ->
  let before := tcp_connpool.pool s in
  let after :=
    tcp_connpool.pool
      (state_of (tcp_connpool.Get net_Close rd wr resolve dial timeout s)) in
  match tcp_connpool.free before with
  | [] =>
      tcp_connpool.free after = [] /\
      (tcp_connpool.conns after = tcp_connpool.conns before \/
       tcp_connpool.conns after = tcp_connpool.conns before + 1)
  | _ :: rest =>
      tcp_connpool.free after = rest /\
      (tcp_connpool.conns after = tcp_connpool.conns before \/
       tcp_connpool.conns after = tcp_connpool.conns before - 1 /\
       0 < tcp_connpool.conns before)
  end.
Proof.
  destruct s as [[nm mc mi c dt [ | c1 rest ] pg] mu w l]; cbn;
    intros -> Hc Hmc; run_ops; rewrite ?andb_false_r; cbn;
    repeat split_run; one_step.
Qed.

Lemma conn_pool_mu_Get_step W io_Close (s : conn_pool_mu.State W) :
  conn_pool_mu.Mutex (conn_pool_mu.pool s) = false ->
  is_int (conn_pool_mu.conns (conn_pool_mu.pool s)) ->
  is_int (conn_pool_mu.MaxConns (conn_pool_mu.pool s)) ->
  let before := conn_pool_mu.pool s in
  let after := conn_pool_mu.pool (state_of (conn_pool_mu.Get io_Close s)) in
  match conn_pool_mu.free before with
  | [] =>
      conn_pool_mu.free after = [] /\
      (conn_pool_mu.conns after = conn_pool_mu.conns before \/
       conn_pool_mu.conns after = conn_pool_mu.conns before + 1)
  | _ :: rest =>
      conn_pool_mu.free after = rest /\
      (conn_pool_mu.conns after = conn_pool_mu.conns before \/
       conn_pool_mu.conns after = conn_pool_mu.conns before - 1 /\
       0 < conn_pool_mu.conns before)
  end.
Proof.
  destruct s as [[mu nw png nm mc mi c [ | c1 rest ]] w l]; cbn;
    intros -> Hc Hmc; run_ops; rewrite ?andb_false_r; cbn;
    repeat split_run; one_step.
Qed.

(** X13.  One [Get] moves the counter by at most one and takes at most
    the head off the free list.  On an empty list the list stays empty
    and the counter stays or goes up by one; on a non-empty list the head
    is gone, whatever the validator said, and the counter stays or, if it
    was positive, goes down by one.  This holds on every way out of
    [Get], panics included, for all three pools. *)
Theorem X13_Get_moves_the_counter_by_one_at_most :
  (forall W io_Close (s : conn_pool.State W),
     conn_pool.m s = false ->
     is_int (conn_pool.conns (conn_pool.pool s)) ->
     is_int (conn_pool.MaxConns (conn_pool.pool s)) ->
     let before := conn_pool.pool s in
     let after := conn_pool.pool (state_of (conn_pool.Get io_Close s)) in
     match conn_pool.free before with
     | [] =>
         conn_pool.free after = [] /\
         (conn_pool.conns after = conn_pool.conns before \/
          conn_pool.conns after = conn_pool.conns before + 1)
     | _ :: rest =>
         conn_pool.free after = rest /\
         (conn_pool.conns after = conn_pool.conns before \/
          conn_pool.conns after = conn_pool.conns before - 1 /\
          0 < conn_pool.conns before)
     end) /\
  (forall W net_Close rd wr resolve dial (s : tcp_connpool.State W) timeout,
     tcp_connpool.m s = false ->
     is_int (tcp_connpool.conns (tcp_connpool.pool s)) ->
     is_int (tcp_connpool.max_conns (tcp_connpool.pool s)) ->
     let before := tcp_connpool.pool s in
     let after :=
       tcp_connpool.pool
         (state_of
            (tcp_connpool.Get net_Close rd wr resolve dial timeout s)) in
     match tcp_connpool.free before with
     | [] =>
         tcp_connpool.free after = [] /\
         (tcp_connpool.conns after = tcp_connpool.conns before \/
          tcp_connpool.conns after = tcp_connpool.conns before + 1)
     | _ :: rest =>
         tcp_connpool.free after = rest /\
         (tcp_connpool.conns after = tcp_connpool.conns before \/
          tcp_connpool.conns after = tcp_connpool.conns before - 1 /\
          0 < tcp_connpool.conns before)
     end) /\
  (forall W io_Close (s : conn_pool_mu.State W),
     conn_pool_mu.Mutex (conn_pool_mu.pool s) = false ->
     is_int (conn_pool_mu.conns (conn_pool_mu.pool s)) ->
     is_int (conn_pool_mu.MaxConns (conn_pool_mu.pool s)) ->
     let before := conn_pool_mu.pool s in
     let after :=
       conn_pool_mu.pool (state_of (conn_pool_mu.Get io_Close s)) in
     match conn_pool_mu.free before with
     | [] =>
         conn_pool_mu.free after = [] /\
         (conn_pool_mu.conns after = conn_pool_mu.conns before \/
          conn_pool_mu.conns after = conn_pool_mu.conns before + 1)
     | _ :: rest =>
         conn_pool_mu.free after = rest /\
         (conn_pool_mu.conns after = conn_pool_mu.conns before \/
          conn_pool_mu.conns after = conn_pool_mu.conns before - 1 /\
          0 < conn_pool_mu.conns before)
     end).
Proof.
  split; [ | split ]; intros.
  - apply conn_pool_Get_step; assumption.
  - apply tcp_connpool_Get_step; assumption.
  - apply conn_pool_mu_Get_step; assumption.
Qed.

Lemma X13_Get_moves_witness :
  conn_pool.free
    (conn_pool.pool
       (state_of
          (conn_pool.Get Sample.closes
             (conn_pool.mkState
                (conn_pool.mkConnPool (Some Sample.opens)
                   (Some (Sample.rejects (conn_pool.ErrOther "dead")))
                   "peer" 2 2 1 [Some 0%nat])
                false 1%nat [])))) = [] /\
  (conn_pool.conns
     (conn_pool.pool
        (state_of
           (conn_pool.Get Sample.closes
              (conn_pool.mkState
                 (conn_pool.mkConnPool (Some Sample.opens)
                    (Some (Sample.rejects (conn_pool.ErrOther "dead")))
                    "peer" 2 2 1 [Some 0%nat])
                 false 1%nat [])))) = 1 \/
   conn_pool.conns
     (conn_pool.pool
        (state_of
           (conn_pool.Get Sample.closes
              (conn_pool.mkState
                 (conn_pool.mkConnPool (Some Sample.opens)
                    (Some (Sample.rejects (conn_pool.ErrOther "dead")))
                    "peer" 2 2 1 [Some 0%nat])
                 false 1%nat [])))) = 1 - 1 /\ 0 < 1).
Proof.
  refine (proj1 X13_Get_moves_the_counter_by_one_at_most nat Sample.closes
            (conn_pool.mkState
               (conn_pool.mkConnPool (Some Sample.opens)
                  (Some (Sample.rejects (conn_pool.ErrOther "dead")))
                  "peer" 2 2 1 [Some 0%nat])
               false 1%nat []) _ _ _);
    try reflexivity;
    unfold is_int, int_min, int_max; cbn; lia.
Defined.

(** ** Nil as a connection *)

(** X14.  [Release] stores whatever it is given: with room in the free
    list, [Release(nil)] appends nil.  [Get] then offers nil to the
    validator like any candidate.  If the validator accepts, [Get]
    returns [(nil, nil)].  If it rejects, [Get] has already taken one off
    a positive counter and given the mutex back when [conn.Close()] on nil
    panics: no error is returned.  Under the package mutex the same panic
    comes from a factory answering nil with no error; the deferred unlock
    runs and the counter, not yet touched for a new connection, is as
    before. *)
Theorem X14_nil_candidate :
  (forall W io_Close (s : conn_pool_mu.State W),
     conn_pool_mu.Mutex (conn_pool_mu.pool s) = false ->
     (len (conn_pool_mu.free (conn_pool_mu.pool s))
        < conn_pool_mu.MaxIdle (conn_pool_mu.pool s) ->
      conn_pool_mu.Release nil s
      = Returned None
          (conn_pool_mu.set_free
             (conn_pool_mu.free (conn_pool_mu.pool s) ++ [nil]) s)) /\
     (forall ping rest w',
        conn_pool_mu.Ping (conn_pool_mu.pool s) = Some ping ->
        conn_pool_mu.free (conn_pool_mu.pool s) = nil :: rest ->
        ping nil (conn_pool_mu.world s) = (None, w') ->
        conn_pool_mu.Get io_Close s
        = Returned (nil, None)
            {| conn_pool_mu.pool
                 := conn_pool_mu.pool (conn_pool_mu.set_free rest s);
               conn_pool_mu.world := w';
               conn_pool_mu.log
                 := conn_pool_mu.log s ++ [Event (CallPing nil) false] |}) /\
     (forall ping rest e w',
        is_int (conn_pool_mu.conns (conn_pool_mu.pool s)) ->
        conn_pool_mu.Ping (conn_pool_mu.pool s) = Some ping ->
        conn_pool_mu.free (conn_pool_mu.pool s) = nil :: rest ->
        ping nil (conn_pool_mu.world s) = (Some e, w') ->
        conn_pool_mu.Get io_Close s
        = Panicked
            {| conn_pool_mu.pool
                 := conn_pool_mu.pool
                      (conn_pool_mu.set_conns
                         (guarded_pred
                            (conn_pool_mu.conns (conn_pool_mu.pool s)))
                         (conn_pool_mu.set_free rest s));
               conn_pool_mu.world := w';
               conn_pool_mu.log
                 := conn_pool_mu.log s ++ [Event (CallPing nil) false] |})) /\
  (forall W io_Close (s : conn_pool.State W) new ping e w1 w2,
     conn_pool.m s = false ->
     conn_pool.free (conn_pool.pool s) = [] ->
     conn_pool.conns (conn_pool.pool s)
       < conn_pool.MaxConns (conn_pool.pool s) ->
     conn_pool.New (conn_pool.pool s) = Some new ->
     conn_pool.Ping (conn_pool.pool s) = Some ping ->
     new (conn_pool.world s) = ((nil, None), w1) ->
     ping nil w1 = (Some e, w2) ->
     conn_pool.Get io_Close s
     = Panicked
         {| conn_pool.pool := conn_pool.pool s;
            conn_pool.m := false;
            conn_pool.world := w2;
            conn_pool.log
              := conn_pool.log s
                 ++ [Event CallNew true; Event (CallPing nil) true] |}).
Proof.
  split.
  - intros W io_Close s Hm. split; [ | split ].
    + intros Hroom. apply conn_pool_mu_Release_appends; assumption.
    + intros ping rest w' Hp Hf Hok.
      eapply conn_pool_mu_Get_reused_accepted; eassumption.
    + destruct s as [[mu nw png nm mc mi c0 f] w l]; cbn in *. subst mu.
      intros ping rest e w' Hc -> -> Hp. run_ops.
      rewrite andb_false_r. cbn. rewrite Hp. cbn. unfold guarded_pred.
      destruct (0 <? c0) eqn:Hpos; cbn; [ | reflexivity ].
      rewrite wrap_pred; [ reflexivity | apply Z.ltb_lt | ]; assumption.
  - intros W io_Close [[nw png nm mc mi c0 f] mu w l] new ping e w1 w2; cbn.
    intros -> -> Hlt -> -> Hn Hp. run_ops.
    replace (mc <=? c0) with false by (symmetry; apply Z.leb_gt; assumption).
    cbn. rewrite Hn. cbn. rewrite Hp. cbn.
    rewrite <- app_assoc. reflexivity.
Qed.

Lemma X14_nil_candidate_witness :
  conn_pool_mu.Get Sample.closes
    (conn_pool_mu.mkState
       (conn_pool_mu.mkConnPool false (Some Sample.opens)
          (Some (Sample.rejects (conn_pool_mu.ErrOther "dead")))
          "peer" 1 1 1 [nil])
       1%nat [])
  = Panicked
      (conn_pool_mu.mkState
         (conn_pool_mu.mkConnPool false (Some Sample.opens)
            (Some (Sample.rejects (conn_pool_mu.ErrOther "dead")))
            "peer" 1 1 0 [])
         1%nat [Event (CallPing nil) false]).
Proof.
  refine (proj2 (proj2 (proj1 X14_nil_candidate nat Sample.closes
                          (conn_pool_mu.mkState
                             (conn_pool_mu.mkConnPool false (Some Sample.opens)
                                (Some (Sample.rejects
                                         (conn_pool_mu.ErrOther "dead")))
                                "peer" 1 1 1 [nil])
                             1%nat []) _))
            _ [] _ 1%nat _ _ _ _); try reflexivity.
  unfold is_int, int_min, int_max; cbn; lia.
Defined.

(** X15.  Under the package mutex, returning a live connection to a full
    free list while the counter is positive closes that connection, with
    the mutex held, takes exactly one off the counter and leaves the free
    list as it is.  For [Close] and [TcpConnPool.Close]. *)
Theorem X15_full_free_list_evicts_the_returned :
  (forall W io_Close (s : conn_pool.State W) h,
     conn_pool.m s = false ->
     conn_pool.MaxIdle (conn_pool.pool s)
       <= len (conn_pool.free (conn_pool.pool s)) ->
     0 < conn_pool.conns (conn_pool.pool s) ->
     is_int (conn_pool.conns (conn_pool.pool s)) ->
     conn_pool.Close io_Close (Some h) s
     = Returned None
         {| conn_pool.pool
              := conn_pool.pool
                   (conn_pool.set_conns
                      (conn_pool.conns (conn_pool.pool s) - 1) s);
            conn_pool.m := false;
            conn_pool.world := io_Close h (conn_pool.world s);
            conn_pool.log
              := conn_pool.log s ++ [Event (CallClose h) true] |}) /\
  (forall W net_Close (s : tcp_connpool.State W) h,
     tcp_connpool.m s = false ->
     tcp_connpool.max_idle (tcp_connpool.pool s)
       <= len (tcp_connpool.free (tcp_connpool.pool s)) ->
     0 < tcp_connpool.conns (tcp_connpool.pool s) ->
     is_int (tcp_connpool.conns (tcp_connpool.pool s)) ->
     tcp_connpool.Close net_Close (Some h) s
     = Returned None
         {| tcp_connpool.pool
              := tcp_connpool.pool
                   (tcp_connpool.set_conns
                      (tcp_connpool.conns (tcp_connpool.pool s) - 1) s);
            tcp_connpool.m := false;
            tcp_connpool.world := net_Close h (tcp_connpool.world s);
            tcp_connpool.log
              := tcp_connpool.log s ++ [Event (CallClose h) true] |}).
Proof.
  split.
  - intros W io_Close [[nw png nm mc mi c0 f] mu w l] h; cbn.
    intros -> Hfull Hpos Hc. run_ops.
    replace (mi <=? len f) with true by (symmetry; apply Z.leb_le; assumption).
    cbn. rewrite wrap_pred by assumption. reflexivity.
  - intros W net_Close [[nm mc mi c0 dt f pg] mu w l] h; cbn.
    intros -> Hfull Hpos Hc. run_ops.
    replace (mi <=? len f) with true by (symmetry; apply Z.leb_le; assumption).
    cbn. rewrite wrap_pred by assumption. reflexivity.
Qed.

Lemma X15_full_free_list_witness :
  conn_pool.Close Sample.closes (Some 1%nat)
    (conn_pool.mkState
       (conn_pool.mkConnPool (Some Sample.opens) (Some Sample.accepts)
          "peer" 2 1 2 [Some 0%nat])
       false 2%nat [])
  = Returned None
      (conn_pool.mkState
         (conn_pool.mkConnPool (Some Sample.opens) (Some Sample.accepts)
            "peer" 2 1 1 [Some 0%nat])
         false 2%nat [Event (CallClose 1%nat) true]).
Proof.
  refine (proj1 X15_full_free_list_evicts_the_returned nat Sample.closes
            _ 1%nat _ _ _ _); try reflexivity;
    unfold is_int, int_min, int_max; cbn; lia.
Defined.

(** ** The two ConnPools side by side *)

Ltac agreed :=
  unfold same_outcome, agree, mu_result, mu_pool, calls_of; cbn;
  rewrite ?map_app; cbn;
  repeat match goal with
         | |- _ /\ _ => split
         end;
  try reflexivity; try discriminate.

Lemma agree_Get W io_Close (s : conn_pool.State W) :
  conn_pool.m s = false ->
  same_outcome mu_result
    (conn_pool.Get io_Close s)
    (conn_pool_mu.Get io_Close (mu_state s)).
Proof.
  destruct s as [[[new | ] [ping | ] nm mc mi c f] mu w l]; cbn;
    intros ->; unfold mu_state, mu_pool, mu_result; run_ops;
    repeat split_run; agreed.
Qed.

(** X16.  Called one at a time, the [ConnPool] with its own mutex does
    what the [ConnPool] under the package mutex does.  From states with
    the same fields and a free mutex, [Get] ends the same way in both
    (returning, or panicking at the same place), with the same
    connection and error, the same counter and free list, the same world
    and the same outside calls in the same order; so do [Destroy], the
    discarding of nil ([Close] with nil, [CloseClean] with nil) and the
    returning of a live connection while the free list has room ([Close],
    [Release]).  The logs differ only in whether the mutex was held. *)
Theorem X16_own_mutex_pool_agrees_with_package_mutex_pool :
  forall W io_Close (s : conn_pool.State W),
    conn_pool.m s = false ->
    same_outcome mu_result
      (conn_pool.Get io_Close s)
      (conn_pool_mu.Get io_Close (mu_state s)) /\
    same_outcome (fun u : unit => u)
      (conn_pool.Destroy io_Close s)
      (conn_pool_mu.Destroy io_Close (mu_state s)) /\
    same_outcome (option_map mu_error)
      (conn_pool.Close io_Close nil s)
      (conn_pool_mu.CloseClean io_Close nil (mu_state s)) /\
    (forall h,
       len (conn_pool.free (conn_pool.pool s))
         < conn_pool.MaxIdle (conn_pool.pool s) ->
       same_outcome (option_map mu_error)
         (conn_pool.Close io_Close (Some h) s)
         (conn_pool_mu.Release (Some h) (mu_state s))).
Proof.
  intros W io_Close s Hm. split; [ | split; [ | split ] ].
  - apply agree_Get; assumption.
  - rewrite conn_pool_Destroy_state by assumption.
    rewrite conn_pool_mu_Destroy_state by (cbn; assumption).
    destruct s as [[nw png nm mc mi c f] mu w l]; cbn in *. subst mu.
    agreed.
  - destruct s as [[nw png nm mc mi c f] mu w l]; cbn in *. subst mu.
    unfold mu_state, mu_pool. run_ops. repeat split_run; agreed.
  - intros h Hroom.
    rewrite conn_pool_Close_appends by assumption.
    rewrite conn_pool_mu_Release_appends by (cbn; assumption).
    destruct s as [[nw png nm mc mi c f] mu w l]; cbn in *. subst mu.
    agreed.
Qed.

Lemma X16_own_mutex_pool_witness :
  same_outcome mu_result
    (conn_pool.Get Sample.closes
       (conn_pool.fresh "peer" 1 1 (Some Sample.opens)
          (Some (Sample.rejects (conn_pool.ErrOther "dead"))) 0%nat))
    (conn_pool_mu.Get Sample.closes
       (mu_state
          (conn_pool.fresh "peer" 1 1 (Some Sample.opens)
             (Some (Sample.rejects (conn_pool.ErrOther "dead"))) 0%nat))).
Proof.
  apply (X16_own_mutex_pool_agrees_with_package_mutex_pool nat Sample.closes).
  reflexivity.
Defined.

(** ** More on the free list *)

(** X17.  [TcpConnPool.Get] serves the head of a non-empty free list
    without resolving or dialling, also when the counter has reached the
    maximum.  For a positive [timeout] it first sets the read and the
    write deadline of that connection, [timeout] milliseconds as a 64-bit
    count of nanoseconds; for a [timeout] of zero or less it sets none.
    When the validator accepts, the connection is returned and the
    counter is as before. *)
Theorem X17_tcp_reuse_sets_deadlines :
  forall W net_Close rd wr resolve dial (s : tcp_connpool.State W)
         timeout png h rest w',
    tcp_connpool.m s = false ->
    tcp_connpool.ping (tcp_connpool.pool s) = Some png ->
    tcp_connpool.free (tcp_connpool.pool s) = Some h :: rest ->
    png (Some h) (with_deadlines rd wr timeout h (tcp_connpool.world s))
    = (None, w') ->
    tcp_connpool.Get net_Close rd wr resolve dial timeout s
    = Returned (Some h, None)
        {| tcp_connpool.pool
             := tcp_connpool.pool (tcp_connpool.set_free rest s);
           tcp_connpool.m := false;
           tcp_connpool.world := w';
           tcp_connpool.log
             := tcp_connpool.log s ++ deadline_calls timeout h
                ++ [Event (CallPing (Some h)) true] |}.
Proof.
  intros W net_Close rd wr resolve dial [[nm mc mi c0 dt f pg] mu w l]
         timeout png h rest w'; cbn.
  intros -> -> -> Hp. unfold with_deadlines, deadline_calls in *. run_ops.
  rewrite andb_false_r. cbn.
  destruct (0 <? timeout); cbn; rewrite Hp; cbn;
    rewrite <- ?app_assoc; reflexivity.
Qed.

Lemma X17_tcp_reuse_witness :
  tcp_connpool.Get Sample.closes Sample.sets_deadline Sample.sets_deadline
    Sample.resolves Sample.dials 50
    (tcp_connpool.mkState
       (tcp_connpool.mkTcpConnPool "peer:80" 1 1 1 100 [Some 0%nat]
          (Some Sample.accepts))
       false 1%nat [])
  = Returned (Some 0%nat, None)
      (tcp_connpool.mkState
         (tcp_connpool.mkTcpConnPool "peer:80" 1 1 1 100 []
            (Some Sample.accepts))
         false 1%nat
         [Event (CallSetReadDeadline 0%nat 50000000) true;
          Event (CallSetWriteDeadline 0%nat 50000000) true;
          Event (CallPing (Some 0%nat)) true]).
Proof.
  refine (X17_tcp_reuse_sets_deadlines nat Sample.closes Sample.sets_deadline
            Sample.sets_deadline Sample.resolves Sample.dials _ 50 _
            0%nat [] 1%nat _ _ _ _); reflexivity.
Defined.

(** X18.  [Get] does not try again by itself.  With [n] live connections
    at the head of the free list and a validator that rejects every one
    with error [e], each of the next [n] calls of [Get] returns [e] after
    asking about one connection and closing it, in list order; the
    factory is not called, the counter loses one per call down to zero at
    most, and what was behind those connections is the free list left. *)
Theorem X18_each_Get_drops_one_dead_connection :
  forall W io_Close (hs : list Handle) (rest : list Conn)
         (s : conn_pool.State W) ping e,
    conn_pool.m s = false ->
    conn_pool.Ping (conn_pool.pool s) = Some ping ->
    (forall c w, fst (ping c w) = Some e) ->
    conn_pool.free (conn_pool.pool s) = map Some hs ++ rest ->
    0 <= conn_pool.conns (conn_pool.pool s) <= int_max ->
    exists s',
      conn_pool.Gets io_Close (List.length hs) s
      = Returned (repeat (nil, Some e) (List.length hs)) s' /\
      conn_pool.free (conn_pool.pool s') = rest /\
      conn_pool.conns (conn_pool.pool s')
      = Z.max 0 (conn_pool.conns (conn_pool.pool s) - len hs) /\
      calls_of (conn_pool.log s')
      = calls_of (conn_pool.log s)
        ++ flat_map (fun h => [CallPing (Some h); CallClose h]) hs.
Proof.
  intros W io_Close hs rest s ping e Hm Hp Hbad. revert s Hm Hp.
  induction hs as [ | h hs IH ]; intros s Hm Hp Hf Hc.
  - exists s. cbn. rewrite app_nil_r. repeat split; auto.
    unfold len; cbn. lia.
  - cbn [List.length conn_pool.Gets]. unfold bind at 1.
    pose proof (Hbad (Some h) (conn_pool.world s)) as Hr.
    destruct (ping (Some h) (conn_pool.world s)) as [r w'] eqn:Hpw.
    cbn in Hr. subst r.
    destruct (conn_pool_Get_reused_rejected W io_Close s ping h
                (map Some hs ++ rest) e w')
      as (s1 & HG & Hc1 & Hf1 & Hw1 & Hl1 & Hm1); try assumption.
    { unfold is_int, int_min, int_max in *. lia. }
    rewrite HG.
    assert (Hp1 : conn_pool.Ping (conn_pool.pool s1) = Some ping).
    { pose proof (conn_pool_exec_keeps W io_Close conn_pool.OpGet s)
        as (Hsame & _). cbn in Hsame. rewrite HG in Hsame. cbn in Hsame.
      destruct Hsame as (_ & Hping & _). congruence. }
    destruct (IH s1 Hm1 Hp1 Hf1) as (s' & HGs & Hf' & Hc' & Hl').
    { rewrite Hc1. unfold guarded_pred, int_max in *.
      destruct (Z.ltb_spec 0 (conn_pool.conns (conn_pool.pool s))); lia. }
    unfold bind. rewrite HGs. exists s'.
    split; [ reflexivity | ]. split; [ exact Hf' | ]. split.
    + rewrite Hc', Hc1. unfold guarded_pred, len. cbn [List.length].
      destruct (Z.ltb_spec 0 (conn_pool.conns (conn_pool.pool s))); lia.
    + rewrite Hl', Hl1. unfold calls_of. rewrite map_app. cbn.
      rewrite <- app_assoc. reflexivity.
Qed.

Lemma X18_each_Get_drops_witness :
  exists s',
    conn_pool.Gets Sample.closes 2
      (conn_pool.mkState
         (conn_pool.mkConnPool (Some Sample.opens)
            (Some (Sample.rejects (conn_pool.ErrOther "dead")))
            "peer" 3 3 3 [Some 0%nat; Some 1%nat; Some 2%nat])
         false 3%nat [])
    = Returned [(nil, Some (conn_pool.ErrOther "dead"));
                (nil, Some (conn_pool.ErrOther "dead"))] s' /\
    conn_pool.free (conn_pool.pool s') = [Some 2%nat] /\
    conn_pool.conns (conn_pool.pool s') = 1 /\
    calls_of (conn_pool.log s')
    = [CallPing (Some 0%nat); CallClose 0%nat;
       CallPing (Some 1%nat); CallClose 1%nat].
Proof.
  refine (X18_each_Get_drops_one_dead_connection nat Sample.closes
            [0%nat; 1%nat] [Some 2%nat] _
            (Sample.rejects (conn_pool.ErrOther "dead"))
            (conn_pool.ErrOther "dead") _ _ _ _ _); try reflexivity.
  unfold int_max; cbn; lia.
Defined.
